(** * Bay County court scraper: scan loop, checkpoint recovery, portal search

    A shallow embedding of [Scraper.py] and [utils/ScraperUtils.py].
    Python [str] values are lists of characters, a character outside ASCII
    being held as the bytes of its UTF-8 encoding, so that lengths and
    slices count bytes; Python [int] values are [Z],
    exceptions are values of [Exn], and the Selenium driver is an abstract
    state with a record of operations. *)

From Stdlib Require Import ZArith List Ascii String Bool Lia Arith.
Import ListNotations.

Local Open Scope Z_scope.

(** ** Python strings *)

Module PyStr.

Definition str := list ascii.

Definition lit (s : string) : str := list_ascii_of_string s.

Definition ascii_eqb (a b : ascii) : bool := Ascii.eqb a b.

Fixpoint str_eqb (a b : str) : bool :=
  match a, b with
  | [], [] => true
  | x :: a', y :: b' => ascii_eqb x y && str_eqb a' b'
  | _, _ => false
  end.

(** [s.startswith(p)] *)
Fixpoint startswith (p s : str) : bool :=
  match p, s with
  | [], _ => true
  | x :: p', y :: s' => ascii_eqb x y && startswith p' s'
  | _ :: _, [] => false
  end.

(** [sub in s] *)
Fixpoint contains (sub s : str) : bool :=
  startswith sub s ||
  match s with
  | [] => false
  | _ :: s' => contains sub s'
  end.

(** [s[:n]] for [n >= 0] *)
Definition slice_to (n : nat) (s : str) : str := firstn n s.

(** [s[-n:]] for [n > 0] *)
Definition slice_last (n : nat) (s : str) : str := skipn (List.length s - n) s.

(** [s[:-n]] for [n > 0] *)
Definition slice_drop_last (n : nat) (s : str) : str := firstn (List.length s - n) s.

(** [s.split(c)] for a one-character separator: never empty. *)
Fixpoint split (c : ascii) (s : str) : list str :=
  match s with
  | [] => [[]]
  | x :: s' =>
      if ascii_eqb x c then [] :: split c s'
      else match split c s' with
           | [] => [[x]]
           | w :: ws => (x :: w) :: ws
           end
  end.

(** What reading in text mode makes of line ends: a carriage return, with
    or without a line feed after it, is read as a line feed. *)
Fixpoint universal_newlines (s : str) : str :=
  match s with
  | [] => []
  | c :: s' =>
      if ascii_eqb c "013"%char then
        "010"%char ::
        match s' with
        | d :: s'' =>
            if ascii_eqb d "010"%char then universal_newlines s''
            else universal_newlines s'
        | [] => []
        end
      else c :: universal_newlines s'
  end.

(** The lines of a text, each keeping its newline, as [readlines] gives. *)
Fixpoint readlines (s : str) : list str :=
  match s with
  | [] => []
  | x :: s' =>
      if ascii_eqb x "010"%char then [x] :: readlines s'
      else match readlines s' with
           | [] => [[x]]
           | w :: ws => (x :: w) :: ws
           end
  end.

Definition is_digit (c : ascii) : bool :=
  let n := nat_of_ascii c in (48 <=? n)%nat && (n <=? 57)%nat.

(** [s.isnumeric()] on ASCII text: non-empty and digits only. *)
Definition isnumeric (s : str) : bool :=
  match s with
  | [] => false
  | _ => forallb is_digit s
  end.

(** White space as [strip()] and [split()] see it in ASCII. *)
Definition is_space (c : ascii) : bool :=
  let n := nat_of_ascii c in
  ((9 <=? n)%nat && (n <=? 13)%nat) || ((28 <=? n)%nat && (n <=? 32)%nat).

Fixpoint lstrip (s : str) : str :=
  match s with
  | c :: s' => if is_space c then lstrip s' else s
  | [] => []
  end.

Definition strip (s : str) : str := rev (lstrip (rev (lstrip s))).

Definition digit_val (c : ascii) : Z := Z.of_nat (nat_of_ascii c) - 48.

(** Digits with single underscores between them. *)
Fixpoint int_digits (s : str) (acc : Z) (after_digit : bool) : option Z :=
  match s with
  | [] => if after_digit then Some acc else None
  | c :: s' =>
      if is_digit c then int_digits s' (10 * acc + digit_val c) true
      else if ascii_eqb c "_"%char
           then (if after_digit then int_digits s' acc false else None)
           else None
  end.

(** White space as [int()] strips it from ASCII text: the separators 1C to
    1F, which [strip()] removes, are not among it. *)
Definition is_int_space (c : ascii) : bool :=
  let n := nat_of_ascii c in
  ((9 <=? n)%nat && (n <=? 13)%nat) || (n =? 32)%nat.

Fixpoint lstrip_int (s : str) : str :=
  match s with
  | c :: s' => if is_int_space c then lstrip_int s' else s
  | [] => []
  end.

Definition strip_int (s : str) : str := rev (lstrip_int (rev (lstrip_int s))).

(** [int(s)]: [None] stands for [ValueError]. *)
Definition py_int (s : str) : option Z :=
  match strip_int s with
  | c :: s' =>
      if ascii_eqb c "-"%char then option_map Z.opp (int_digits s' 0 false)
      else if ascii_eqb c "+"%char then int_digits s' 0 false
      else int_digits (c :: s') 0 false
  | [] => None
  end.

(** The double quote character. *)
Definition dq : ascii := "034"%char.

Definition digit_char (d : Z) : ascii := ascii_of_nat (48 + Z.to_nat d).

(** Decimal digits of [n >= 0], least significant first. *)
Fixpoint lsd_digits (fuel : nat) (n : Z) : list Z :=
  match fuel with
  | O => []
  | S f => (n mod 10) :: (if n <? 10 then [] else lsd_digits f (n / 10))
  end.

(** [str(n)] for [n >= 0] *)
Definition decimal (n : Z) : str :=
  map digit_char (rev (lsd_digits (S (Z.to_nat (Z.log2 n))) n)).

Definition zfill (w : nat) (s : str) : str :=
  repeat "0"%char (w - List.length s) ++ s.

(** [f'{n:0w}']: sign-aware zero padding to a minimum width. *)
Definition format_0 (w : nat) (n : Z) : str :=
  if n <? 0 then "-"%char :: zfill (w - 1) (decimal (- n))
  else zfill w (decimal n).

End PyStr.
Import PyStr.


(** ** Exceptions and results *)

Inductive Exn : Type :=
| FileNotFoundError
| OSError
| IndexError
| ValueError
| UnicodeDecodeError
| UnboundLocalError
| TypeError
| AttributeError (attr : str)
| NoSuchElementException
| ElementNotInteractableException
| RuntimeError (msg : str)
| SystemExit (code : Z).

(** What a call gives: a value, an exception, or no answer within the
    recursion depth explored. *)
Inductive Res (A : Type) : Type :=
| Ok (a : A)
| Raise (e : Exn)
| OutOfFuel.

Arguments Ok {A} a.
Arguments Raise {A} e.
Arguments OutOfFuel {A}.

Definition is_ok {A} (r : Res A) : bool :=
  match r with Ok _ => true | _ => false end.

Definition is_raise {A} (r : Res A) : bool :=
  match r with Raise _ => true | _ => false end.

(** State and exceptions: the state at the point of a raise is kept. *)
Definition M (S A : Type) : Type := S -> Res A * S.

Definition ret {S A} (a : A) : M S A := fun s => (Ok a, s).

Definition raise {S A} (e : Exn) : M S A := fun s => (Raise e, s).

Definition out_of_fuel {S A} : M S A := fun s => (OutOfFuel, s).

Definition bind {S A B} (m : M S A) (k : A -> M S B) : M S B :=
  fun s =>
    match m s with
    | (Ok a, s') => k a s'
    | (Raise e, s') => (Raise e, s')
    | (OutOfFuel, s') => (OutOfFuel, s')
    end.

(** [try: m except E: h] for the exceptions [E] that [handles] accepts. *)
Definition try_except {S A} (handles : Exn -> bool) (m h : M S A) : M S A :=
  fun s =>
    match m s with
    | (Raise e, s') => if handles e then h s' else (Raise e, s')
    | r => r
    end.

Definition is_NoSuchElement (e : Exn) : bool :=
  match e with NoSuchElementException => true | _ => false end.

Definition is_NotInteractable (e : Exn) : bool :=
  match e with ElementNotInteractableException => true | _ => false end.

Definition is_FileNotFound (e : Exn) : bool :=
  match e with FileNotFoundError => true | _ => false end.

Declare Scope monad_scope.
Delimit Scope monad_scope with monad.
Notation "x <- m ;; k" := (bind m (fun x => k))
  (at level 61, m at next level, right associativity) : monad_scope.
Notation "m ;; k" := (bind m (fun _ => k))
  (at level 61, right associativity) : monad_scope.
Local Open Scope monad_scope.

(** [str(n)] for any integer *)
Definition py_str_int (n : Z) : str :=
  if n <? 0 then "-"%char :: decimal (- n) else decimal n.

(** ** FLAGS *)

Record Flags : Type := {
  portal_base : str;
  state : str;
  county : str;
  start_year : Z;
  end_year : Z;
  solve_captchas : bool;
  output : str;
  missing_thresh : Z;
  connect_thresh : Z;
  verbose : bool
}.

(** ** Case numbers (Scraper.py, lines 137 and 149) *)

Module CaseId.

(** [f'{YY:02}' + f'{N:06}'] with [YY = year % 100] *)
Definition case_number (year N : Z) : str :=
  let YY := year mod 100 in
  format_0 2 YY ++ format_0 6 N.

(** Lines 118 to 121: the year and the sequence read back from a case
    number; [None] stands for the [ValueError] of [int]. *)
Definition parse_year (last_case_number : str) : option Z :=
  option_map (fun y => 2000 + y) (py_int (slice_to 2 last_case_number)).

Definition parse_case (last_case_number : str) : option Z :=
  let last_case_number :=
    if negb (isnumeric last_case_number)
    then slice_drop_last 4 last_case_number
    else last_case_number in
  py_int (slice_last 6 last_case_number).

Definition parse (last_case_number : str) : option (Z * Z) :=
  match parse_year last_case_number with
  | Some last_year =>
      match parse_case last_case_number with
      | Some last_case => Some (last_year, last_case)
      | None => None
      end
  | None => None
  end.

End CaseId.

(** ** Checkpoint recovery (ScraperUtils.get_last_csv_row, Scraper.py lines 114 to 127) *)

Module Checkpoint.

(** What [open(csv_file, "r")] finds: for a file that is there, its bytes.
    Text is held as its UTF-8 bytes throughout: the encoding [write_csv]
    writes the file in (lines 189 and 203) and the one assumed for reading
    it back in text mode. *)
Inductive FileState : Type :=
| Missing
| Unreadable
| Contents (text : str).

Definition byte_in (lo hi : nat) (b : ascii) : bool :=
  let n := nat_of_ascii b in (lo <=? n)%nat && (n <=? hi)%nat.

(** A continuation byte, 80 to BF. *)
Definition is_continuation (b : ascii) : bool := byte_in 128 191 b.

(** The second byte allowed after the lead [b0] of a three-byte sequence:
    no overlong form after E0, no surrogate after ED. *)
Definition second_of_three (b0 b1 : ascii) : bool :=
  if byte_in 224 224 b0 then byte_in 160 191 b1
  else if byte_in 237 237 b0 then byte_in 128 159 b1
  else is_continuation b1.

(** The second byte allowed after the lead [b0] of a four-byte sequence:
    no overlong form after F0, nothing above U+10FFFF after F4. *)
Definition second_of_four (b0 b1 : ascii) : bool :=
  if byte_in 240 240 b0 then byte_in 144 191 b1
  else if byte_in 244 244 b0 then byte_in 128 143 b1
  else is_continuation b1.

(** Whether bytes decode as UTF-8 in strict mode, as the text layer decodes
    what it reads: every sequence well formed and complete. *)
Fixpoint utf8_valid (bytes : str) : bool :=
  match bytes with
  | [] => true
  | b0 :: s1 =>
      if byte_in 0 127 b0 then utf8_valid s1
      else if byte_in 194 223 b0 then
        match s1 with
        | b1 :: s2 => is_continuation b1 && utf8_valid s2
        | [] => false
        end
      else if byte_in 224 239 b0 then
        match s1 with
        | b1 :: b2 :: s3 => second_of_three b0 b1 && is_continuation b2 && utf8_valid s3
        | _ => false
        end
      else if byte_in 240 244 b0 then
        match s1 with
        | b1 :: b2 :: b3 :: s4 =>
            second_of_four b0 b1 && is_continuation b2 && is_continuation b3
            && utf8_valid s4
        | _ => false
        end
      else false
  end.

(** [lines[-1:][0]] *)
Definition last_item (lines : list str) : Res str :=
  match rev lines with
  | l :: _ => Ok l
  | [] => Raise IndexError
  end.

(** [get_last_csv_row(csv_file)]: the size and the seek are in bytes, and
    what lies from there to the end is decoded before it is cut into lines,
    so a cut inside a multi-byte character, or bytes that are no UTF-8,
    raise [UnicodeDecodeError]. *)
Definition get_last_csv_row (csv_file : FileState) : Res str :=
  match csv_file with
  | Missing => Raise FileNotFoundError
  | Unreadable => Raise OSError
  | Contents text =>
      let fsize := Z.of_nat (List.length text) in
      let pos := Z.max (fsize - 1024) 0 in
      let tail := skipn (Z.to_nat pos) text in
      if utf8_valid tail then
        let lines := readlines (universal_newlines tail) in
        last_item lines
      else Raise UnicodeDecodeError
  end.

(** [xs[i]] for [i >= 0] *)
Definition item (i : nat) (xs : list str) : Res str :=
  match nth_error xs i with
  | Some x => Ok x
  | None => Raise IndexError
  end.

Definition and_then {A B} (r : Res A) (k : A -> Res B) : Res B :=
  match r with
  | Ok a => k a
  | Raise e => Raise e
  | OutOfFuel => OutOfFuel
  end.

(** [int(...)] raises [ValueError] on text that is no integer. *)
Definition int_or_raise (parsed : option Z) : Res Z :=
  match parsed with
  | Some z => Ok z
  | None => Raise ValueError
  end.

(** The body of the [try] block: the year and the sequence of the last case
    number written. *)
Definition read_progress (out : FileState) : Res (Z * Z) :=
  and_then (get_last_csv_row out) (fun row =>
  and_then (item 3 (split ","%char row)) (fun last_case_number =>
  and_then (int_or_raise (CaseId.parse_year last_case_number)) (fun last_year =>
  and_then (int_or_raise (CaseId.parse_case last_case_number)) (fun last_case =>
  Ok (last_year, last_case))))).

(** The [try ... except FileNotFoundError]: [None] is [continuing = False]. *)
Definition recover (out : FileState) : Res (option (Z * Z)) :=
  match read_progress out with
  | Ok p => Ok (Some p)
  | Raise e => if is_FileNotFound e then Ok None else Raise e
  | OutOfFuel => OutOfFuel
  end.

End Checkpoint.

(** ** The Selenium driver and the captcha service *)

Inductive Locator : Type :=
| ById (value : str)
| ByXPath (value : str)
| ByTagName (value : str)
| ByClassName (value : str).

(** The conditions handed to [WebDriverWait(driver, t).until]. *)
Inductive Cond : Type :=
| TitleContains (expected : str)
| TextPresentInElement (loc : Locator) (text : str)
| SearchLanded (case_number : str)
| CaseInTitle (case_number : str).

(** The calls made on the driver, newest first in a log. *)
Inductive Event : Type :=
| EvGet (url : str)
| EvWait (c : Cond) (held : bool)
| EvClick (loc : Locator) (done : bool)
| EvSendKeys (loc : Locator) (keys : str)
| EvScript (js : str)
| EvSolve (sitekey url : str)
| EvDeleteAllCookies.

(** The driver as a set of operations on an abstract browser state.
    [drv_wait] answers [false] for [TimeoutException], [drv_find_text]
    answers [None] for [NoSuchElementException], [drv_click] answers [false]
    for [ElementNotInteractableException], [recaptcha] answers [None] when
    the solving service raises. *)
Record Driver (D : Type) : Type := {
  drv_get : str -> D -> D;
  drv_wait : Cond -> D -> bool * D;
  drv_title : D -> str;
  drv_find_text : Locator -> D -> option str;
  drv_find_all_text : Locator -> D -> list str;
  drv_attribute : Locator -> str -> D -> str;
  drv_click : Locator -> D -> bool * D;
  drv_send_keys : Locator -> str -> D -> D;
  drv_execute_script : str -> D -> D;
  drv_delete_all_cookies : D -> D;
  recaptcha : str -> str -> D -> option str * D
}.

Arguments drv_get {D}.
Arguments drv_wait {D}.
Arguments drv_title {D}.
Arguments drv_find_text {D}.
Arguments drv_find_all_text {D}.
Arguments drv_attribute {D}.
Arguments drv_click {D}.
Arguments drv_send_keys {D}.
Arguments drv_execute_script {D}.
Arguments drv_delete_all_cookies {D}.
Arguments recaptcha {D}.

Record World (D : Type) : Type := {
  browser : D;
  log : list Event
}.

Arguments browser {D}.
Arguments log {D}.

(** The calls in the order they were made. *)
Definition history {D} (w : World D) : list Event := rev (log w).

Definition is_get (e : Event) : bool :=
  match e with EvGet _ => true | _ => false end.

Definition is_wait (e : Event) : bool :=
  match e with EvWait _ _ => true | _ => false end.

Definition is_delete_all_cookies (e : Event) : bool :=
  match e with EvDeleteAllCookies => true | _ => false end.

Definition is_send_keys_of (keys : str) (e : Event) : bool :=
  match e with EvSendKeys _ k => str_eqb k keys | _ => false end.

Definition count_events (p : Event -> bool) (l : list Event) : nat :=
  List.length (filter p l).

Module Search.

Section WithDriver.

Variable D : Type.
Variable drv : Driver D.
Variable FLAGS : Flags.

Definition Step (A : Type) : Type := M (World D) A.

Definition record (e : Event) (d : D) (l : list Event) : World D :=
  {| browser := d; log := e :: l |}.

Definition get (url : str) : Step unit :=
  fun w => (Ok tt, record (EvGet url) (drv_get drv url (browser w)) (log w)).

(** [WebDriverWait(driver, t).until(c)]: [false] for [TimeoutException]. *)
Definition wait_until (c : Cond) : Step bool :=
  fun w =>
    let (held, d) := drv_wait drv c (browser w) in
    (Ok held, record (EvWait c held) d (log w)).

Definition title : Step str :=
  fun w => (Ok (drv_title drv (browser w)), w).

(** [driver.find_element(...)]: the element is named by its locator. *)
Definition find_element (loc : Locator) : Step Locator :=
  fun w =>
    match drv_find_text drv loc (browser w) with
    | Some _ => (Ok loc, w)
    | None => (Raise NoSuchElementException, w)
    end.

Definition element_text (loc : Locator) : Step str :=
  fun w =>
    match drv_find_text drv loc (browser w) with
    | Some t => (Ok t, w)
    | None => (Raise NoSuchElementException, w)
    end.

Definition get_attribute (loc : Locator) (name : str) : Step str :=
  fun w => (Ok (drv_attribute drv loc name (browser w)), w).

Definition click (loc : Locator) : Step unit :=
  fun w =>
    let (done, d) := drv_click drv loc (browser w) in
    (if done then Ok tt else Raise ElementNotInteractableException,
     record (EvClick loc done) d (log w)).

(** [element.<method>()]: a WebElement has [click]; any other name used in
    the source is looked up and not found. *)
Definition call_method (elem : Locator) (method : str) : Step unit :=
  if str_eqb method (lit "click") then click elem
  else raise (AttributeError method).

Definition send_keys (loc : Locator) (keys : str) : Step unit :=
  fun w => (Ok tt, record (EvSendKeys loc keys)
                          (drv_send_keys drv loc keys (browser w)) (log w)).

Definition execute_script (js : str) : Step unit :=
  fun w => (Ok tt, record (EvScript js)
                          (drv_execute_script drv js (browser w)) (log w)).

Definition delete_all_cookies : Step unit :=
  fun w => (Ok tt, record EvDeleteAllCookies
                          (drv_delete_all_cookies drv (browser w)) (log w)).

(** [recaptchasolver.recaptcha(sitekey=..., url=...)["code"]]; any exception
    of the service ends the process with [exit(1)]. *)
Definition solve (sitekey url : str) : Step str :=
  fun w =>
    let (code, d) := recaptcha drv sitekey url (browser w) in
    (match code with Some c => Ok c | None => Raise (SystemExit 1) end,
     record (EvSolve sitekey url) d (log w)).

Definition page_error (url : str) : str :=
  lit "Page " ++ url ++ lit " could not be loaded after "
  ++ py_str_int (connect_thresh FLAGS) ++ lit " attempts. Check connction.".

(** The [for i in range(FLAGS.connect_thresh)] of [load_page], from index
    [i] with [n] rounds left.  Falling out of the loop reaches a
    [logging.info] call with a [file] keyword, which is a [TypeError]. *)
Fixpoint load_page_loop (url expectedTitle : str) (i : Z) (n : nat) : Step unit :=
  match n with
  | O => raise TypeError
  | S n' =>
      held <- wait_until (TitleContains expectedTitle) ;;
      if held then ret tt
      else if i =? connect_thresh FLAGS - 1
           then raise (RuntimeError (page_error url))
           else get url ;; load_page_loop url expectedTitle (i + 1) n'
  end.

(** [load_page(url, expectedTitle)] for a [str] title. *)
Definition load_page (url expectedTitle : str) : Step unit :=
  get url ;;
  load_page_loop url expectedTitle 0 (Z.to_nat (connect_thresh FLAGS)).

Definition search_page : str := portal_base FLAGS ++ lit "/Home.aspx/Search".

Definition case_selector_xpath : Locator :=
  ByXPath (lit "//*/input[@searchtype=" ++ dq :: lit "CaseNumber" ++ dq :: lit "]").

Definition name_selector_xpath : Locator :=
  ByXPath (lit "//*/input[@searchtype=" ++ dq :: lit "Name" ++ dq :: lit "]").

(** The waiting loop of [select_case_input]: no [break] on success. *)
Fixpoint case_search_loop (i : Z) (n : nat) : Step unit :=
  match n with
  | O => ret tt
  | S n' =>
      held <- wait_until (TextPresentInElement (ById (lit "title")) (lit "Case Search")) ;;
      (if held then ret tt
       else if i =? connect_thresh FLAGS - 1
            then raise (RuntimeError (lit "Portal homepage could not be loaded"))
            else load_page search_page (lit "Search")) ;;
      case_search_loop (i + 1) n'
  end.

Definition select_case_input : Step Locator :=
  case_search_loop 0 (Z.to_nat (connect_thresh FLAGS)) ;;
  case_selector <- find_element case_selector_xpath ;;
  call_method case_selector (lit "click") ;;
  try_except is_NotInteractable
    (case_input <- find_element (ById (lit "caseNumber")) ;;
     call_method case_input (lit "click") ;;
     ret case_input)
    (name_selector <- find_element name_selector_xpath ;;
     call_method name_selector (lit "cick") ;;
     call_method case_selector (lit "click") ;;
     case_input <- find_element (ById (lit "caseNumber")) ;;
     call_method case_input (lit "click") ;;
     ret case_input).

Definition recaptcha_xpath : Locator :=
  ByXPath (lit "//*/div[@class=" ++ dq :: lit "g-recaptcha" ++ dq :: lit "]").

Definition alert_xpath : Locator :=
  ByXPath (lit "//div[@class=" ++ dq :: lit "alert alert-error" ++ dq :: lit "]").

Definition escambia_count_xpath : Locator :=
  ByXPath (lit "//*[@class=" ++ dq :: lit "casedetailSectionTable" ++ dq
           :: lit "]/tbody/tr/td/table/tbody/tr[4]/td[2]").

Definition token_script (code : str) : str :=
  lit "document.getElementById(" ++ dq :: lit "g-recaptcha-response" ++ dq
  :: lit ").innerHTML = " ++ dq :: code ++ dq :: lit ";".

(** The [while True] that waits for a person to solve the captcha. *)
Fixpoint manual_wait (fuel : nat) (case_number : str) : Step unit :=
  match fuel with
  | O => out_of_fuel
  | S f =>
      held <- wait_until (CaseInTitle case_number) ;;
      if held then ret tt else manual_wait f case_number
  end.

Definition press_search : Step unit :=
  search_button <- find_element (ById (lit "searchButton")) ;;
  call_method search_button (lit "click").

(** [search_portal], lines 391 to 454: load the search page, type the case
    number, answer the captcha if there is one, press Search. *)
Definition submit_search (fuel : nat) (case_number : str) : Step unit :=
  load_page search_page (lit "Search") ;;
  select_case_input ;;
  case_input <- find_element (ById (lit "caseNumber")) ;;
  call_method case_input (lit "click") ;;
  send_keys case_input case_number ;;
  try_except is_NoSuchElement
    (captcha <- find_element recaptcha_xpath ;;
     recaptchav2_sitekey <- get_attribute captcha (lit "data-sitekey") ;;
     if solve_captchas FLAGS then
       code <- solve recaptchav2_sitekey search_page ;;
       execute_script (token_script code) ;;
       press_search
     else manual_wait fuel case_number)
    press_search.

(** [xs.index(x)] *)
Fixpoint index_of (x : str) (xs : list str) : option nat :=
  match xs with
  | [] => None
  | y :: ys => if str_eqb y x then Some O else option_map S (index_of x ys)
  end.

Definition int_of (s : str) : Step Z :=
  match py_int s with
  | Some z => ret z
  | None => raise ValueError
  end.

(** [ScraperUtils.get_search_case_count(driver, FLAGS.county)] *)
Definition get_search_case_count : Step Z :=
  if str_eqb (county FLAGS) (lit "Bay") then
    text <- element_text (ByTagName (lit "table")) ;;
    let case_detail_tbl := split "010"%char text in
    match index_of (lit "CASES FOUND") case_detail_tbl with
    | None => raise ValueError
    | Some k =>
        match nth_error case_detail_tbl (k + 1) with
        | None => raise IndexError
        | Some cell => int_of cell
        end
    end
  else if str_eqb (county FLAGS) (lit "Escambia") then
    text <- element_text escambia_count_xpath ;;
    int_of text
  else raise UnboundLocalError.

Definition str_eq_dec : forall a b : str, {a = b} + {a <> b} :=
  list_eq_dec ascii_dec.

(** [ScraperUtils.get_associated_cases(driver)]: a set, kept as a list
    without repetition. *)
Definition get_associated_cases : Step (list str) :=
  fun w => (Ok (nodup str_eq_dec
                  (drv_find_all_text drv (ByClassName (lit "sorting_1")) (browser w))), w).

Definition case_page_error (page_title : str) : str :=
  lit "Case page could not be loaded after " ++ py_str_int (connect_thresh FLAGS)
  ++ lit " attempts, or unexpected page title: " ++ page_title.

(** [search_portal], lines 459 to 498: the [for i in range(connect_thresh)]
    that reads the outcome off the page title, from index [i] with [n]
    rounds left.  [self] is [search_portal] itself; what it returns is
    dropped, as in the source.  [None] is the value of a call that falls out
    of the loop. *)
Fixpoint evaluate (self : str -> Step (option (list str))) (case_number : str)
    (i : Z) (n : nat) : Step (option (list str)) :=
  match n with
  | O => ret None
  | S n' =>
      held <- wait_until (SearchLanded case_number) ;;
      if held then
        page_title <- title ;;
        if str_eqb page_title (lit "Search") then
          try_except is_NoSuchElement
            (find_element alert_xpath ;; ret tt) (ret tt) ;;
          delete_all_cookies ;;
          self case_number ;;
          evaluate self case_number (i + 1) n'
        else if contains (lit "Search Results: CaseNumber:") page_title then
          case_count <- get_search_case_count ;;
          if case_count >? 1
          then cases <- get_associated_cases ;; ret (Some cases)
          else ret (Some [])
        else if contains case_number page_title then ret (Some [case_number])
        else evaluate self case_number (i + 1) n'
      else if i =? connect_thresh FLAGS - 1 then
        page_title <- title ;;
        raise (RuntimeError (case_page_error page_title))
      else
        self case_number ;;
        evaluate self case_number (i + 1) n'
  end.

Definition search_portal_body (self : str -> Step (option (list str)))
    (fuel : nat) (case_number : str) : Step (option (list str)) :=
  submit_search fuel case_number ;;
  evaluate self case_number 0 (Z.to_nat (connect_thresh FLAGS)).

(** [search_portal(case_number)]; [fuel] bounds the depth of the calls it
    makes to itself (and the rounds of the manual captcha wait). *)
Fixpoint search_portal (fuel : nat) (case_number : str) : Step (option (list str)) :=
  match fuel with
  | O => out_of_fuel
  | S f => search_portal_body (search_portal f) f case_number
  end.

End WithDriver.

End Search.

(** ** The scan loop (Scraper.begin_scrape) *)

Module Scanner.

Import Checkpoint.

(** What the loop does, newest first in a log: the year banner of line 136,
    the calls to [search_portal], [scrape_record] and
    [driver.delete_all_cookies], and the log lines of lines 172 and 175. *)
Inductive ScanEvent : Type :=
| YearStarted (year N : Z)
| Searched (case_number : str)
| Scraped (case_number : str)
| Missed (case_number : str)
| Completed (case_number : str)
| CookiesReset.

Section WithPortal.

Variable W : Type.
Variable FLAGS : Flags.
Variable search_portal : str -> M W (option (list str)).
Variable scrape_record : str -> M W unit.
Variable delete_all_cookies : W -> W.

Record Scan : Type := {
  world : W;
  events : list ScanEvent
}.

Definition Run (A : Type) : Type := M Scan A.

Definition emit (e : ScanEvent) : Run unit :=
  fun s => (Ok tt, {| world := world s; events := e :: events s |}).

Definition lift {A} (m : M W A) : Run A :=
  fun s => let (r, w) := m (world s) in (r, {| world := w; events := events s |}).

Definition call_search_portal (case_number : str) : Run (option (list str)) :=
  emit (Searched case_number) ;; lift (search_portal case_number).

Definition call_scrape_record (case_number : str) : Run unit :=
  emit (Scraped case_number) ;; lift (scrape_record case_number).

Definition reset_cookies : Run unit :=
  emit CookiesReset ;;
  lift (fun w => (Ok tt, delete_all_cookies w)).

(** [if search_result:]: [None] and the empty set are false. *)
Definition truthy (search_result : option (list str)) : bool :=
  match search_result with
  | Some (_ :: _) => true
  | _ => false
  end.

Definition cases_of (search_result : option (list str)) : list str :=
  match search_result with
  | Some cases => cases
  | None => []
  end.

(** Lines 161 to 166: [for case in search_result]. *)
Fixpoint scrape_additional (cases : list str) (cases_scraped_since_reset : Z) : Run Z :=
  match cases with
  | [] => ret cases_scraped_since_reset
  | case :: rest =>
      call_search_portal case ;;
      call_scrape_record case ;;
      scrape_additional rest (cases_scraped_since_reset + 1)
  end.

(** Lines 147 to 186: the [while] of one year; [fuel] bounds its rounds. *)
Fixpoint scan_year (fuel : nat) (year YY N : Z)
    (record_missing_count cases_scraped_since_reset : Z) : Run unit :=
  match fuel with
  | O => out_of_fuel
  | S fuel' =>
      if record_missing_count <? missing_thresh FLAGS then
        let case_number := format_0 2 YY ++ format_0 6 N in
        search_result <- call_search_portal case_number ;;
        let cases_scraped_since_reset := cases_scraped_since_reset + 1 in
        counts <-
          (if truthy search_result then
             if (1 <? Z.of_nat (List.length (cases_of search_result))) then
               c <- scrape_additional (cases_of search_result) cases_scraped_since_reset ;;
               ret (0, c)
             else
               call_scrape_record case_number ;;
               ret (0, cases_scraped_since_reset)
           else
             emit (Missed case_number) ;;
             ret (record_missing_count + 1, cases_scraped_since_reset)) ;;
        let record_missing_count := fst counts in
        let cases_scraped_since_reset := snd counts in
        emit (Completed case_number) ;;
        cases_scraped_since_reset <-
          (if cases_scraped_since_reset >=? 5
           then reset_cookies ;; ret 0
           else ret cases_scraped_since_reset) ;;
        scan_year fuel' year YY (N + 1) record_missing_count cases_scraped_since_reset
      else ret tt
  end.

(** [range(hi, lo, -1)] *)
Definition range_down (hi lo : Z) : list Z :=
  map (fun k => hi - Z.of_nat k) (seq 0 (Z.to_nat (hi - lo))).

(** Lines 130 to 190: [for year in range(FLAGS.end_year, FLAGS.start_year, -1)]. *)
Fixpoint scan_years (fuel : nat) (years : list Z) (continuing : bool) (last_case : Z)
    : Run unit :=
  match years with
  | [] => ret tt
  | year :: rest =>
      let N := if continuing then last_case + 1 else 1 in
      emit (YearStarted year N) ;;
      let YY := year mod 100 in
      scan_year fuel year YY N 0 0 ;;
      scan_years fuel rest false last_case
  end.

(** [begin_scrape()], given what the output file holds at startup.  Without
    a checkpoint [last_case] is unbound and never read; it is 0 here. *)
Definition begin_scrape (fuel : nat) (out : FileState) : Run unit :=
  match recover out with
  | Ok (Some (last_year, last_case)) =>
      scan_years fuel (range_down last_year (start_year FLAGS)) true last_case
  | Ok None =>
      scan_years fuel (range_down (end_year FLAGS) (start_year FLAGS)) false 0
  | Raise e => raise e
  | OutOfFuel => out_of_fuel
  end.

End WithPortal.

Arguments world {W}.
Arguments events {W}.

(** The events in the order they happened. *)
Definition timeline {W} (s : Scan W) : list ScanEvent := rev (events s).

Definition year_starts (l : list ScanEvent) : list (Z * Z) :=
  flat_map (fun e => match e with YearStarted y n => [(y, n)] | _ => [] end) l.

Definition searches (l : list ScanEvent) : list str :=
  flat_map (fun e => match e with Searched c => [c] | _ => [] end) l.

Definition scrapes (l : list ScanEvent) : list str :=
  flat_map (fun e => match e with Scraped c => [c] | _ => [] end) l.


(** The reset rule read off a timeline: every search adds one to a counter;
    at the end of a candidate's round the cookies are reset exactly when the
    counter has reached 5, and the counter then starts again from 0; a new
    year starts it from 0 too. *)
Fixpoint cadence (counter : Z) (l : list ScanEvent) : bool :=
  match l with
  | [] => true
  | Searched _ :: l' => cadence (counter + 1) l'
  | Completed _ :: l' =>
      if counter >=? 5 then
        match l' with
        | CookiesReset :: l'' => cadence 0 l''
        | _ => false
        end
      else
        match l' with
        | CookiesReset :: _ => false
        | _ => cadence counter l'
        end
  | CookiesReset :: _ => false
  | YearStarted _ _ :: l' => cadence 0 l'
  | _ :: l' => cadence counter l'
  end.

End Scanner.

(** ** The record sink (ScraperUtils.write_csv) *)

Module Sink.

(** A value handed to [csv.writer.writerow]. *)
Inductive Cell : Type :=
| PyNone
| PyStr (s : str)
| PyInt (z : Z)
| PySeq (items : list str).

Record Charge : Type := {
  count : Cell;
  statute : Cell;
  description : Cell;
  level : Cell;
  degree : Cell;
  disposition : Cell;
  disposition_date : Cell;
  charge_offense_date : Cell;
  citation_number : Cell;
  plea : Cell;
  plea_date : Cell
}.

Record BenchmarkRecord : Type := {
  id : Cell;
  rec_state : Cell;
  rec_county : Cell;
  portal_id : Cell;
  case_num : Cell;
  agency_report_num : Cell;
  party_id : Cell;
  first_name : Cell;
  middle_name : Cell;
  last_name : Cell;
  suffix : Cell;
  dob : Cell;
  race : Cell;
  sex : Cell;
  arrest_date : Cell;
  filing_date : Cell;
  offense_date : Cell;
  division_name : Cell;
  case_status : Cell;
  defense_attorney : Cell;
  public_defender : Cell;
  judge : Cell;
  charges : list Charge;
  arresting_officer : Cell;
  arresting_officer_badge_number : Cell
}.

Definition headings : list Cell :=
  map (fun s => PyStr (lit s))
    ["_id"; "_state"; "_county"; "PortalID"; "CaseNum"; "AgencyReportNum"; "PartyID";
     "FirstName"; "MiddleName"; "LastName"; "Suffix"; "DOB"; "Race"; "Sex";
     "ArrestDate"; "FilingDate"; "OffenseDate"; "DivisionName"; "CaseStatus";
     "DefenseAttorney"; "PublicDefender"; "Judge"; "ChargeCount"; "ChargeStatute";
     "ChargeDescription"; "ChargeLevel"; "ChargeDegree"; "ChargeDisposition";
     "ChargeDispositionDate"; "ChargeOffenseDate"; "ChargeCitationNum"; "ChargePlea";
     "ChargePleaDate"; "ArrestingOfficer"; "ArrestingOfficerBadgeNumber"]%string.

(** The row written for one charge of a record. *)
Definition charge_row (record : BenchmarkRecord) (charge : Charge) : list Cell :=
  [id record; rec_state record; rec_county record; portal_id record; case_num record;
   agency_report_num record; party_id record; first_name record; middle_name record;
   last_name record; suffix record; dob record; race record; sex record;
   arrest_date record; filing_date record; offense_date record; division_name record;
   case_status record; defense_attorney record; public_defender record; judge record;
   count charge; statute charge; description charge; level charge; degree charge;
   disposition charge; disposition_date charge; charge_offense_date charge;
   citation_number charge; plea charge; plea_date charge;
   arresting_officer record; arresting_officer_badge_number record].

Section WithWriter.

(** The text [csv.writer] produces for one row, line terminator included. *)
Variable writerow : list Cell -> str.

(** [for charge in record.charges: writer.writerow(...)] on an open file. *)
Definition write_charges (outfile : str) (record : BenchmarkRecord) : str :=
  fold_left (fun text charge => text ++ writerow (charge_row record charge))
            (charges record) outfile.

(** [write_csv(output_file, record)]: the file's text afterwards, from its
    text before ([None] when [os.path.isfile] is false). *)
Definition write_csv (output_file : option str) (record : BenchmarkRecord) : str :=
  match output_file with
  | Some text => write_charges text record
  | None => write_charges (writerow headings) record
  end.

(** The file after [write_csv] has been called for each record in turn, as
    [scrape_record] does for each case it scrapes. *)
Definition write_all (output_file : option str) (records : list BenchmarkRecord)
    : option str :=
  fold_left (fun file record => Some (write_csv file record)) records output_file.

End WithWriter.

End Sink.

(** ** A scripted portal, for running the search on concrete pages *)

Module FakePortal.

Record Browser : Type := {
  page_title : str;
  answers : list str;
  reachable : bool;
  input_ready : bool;
  table_text : str;
  listed : list str
}.

Definition show (t : str) (b : Browser) : Browser :=
  {| page_title := t; answers := answers b; reachable := reachable b;
     input_ready := input_ready b; table_text := table_text b; listed := listed b |}.

(** Pressing Search shows the next scripted answer, if one is left. *)
Definition answer (b : Browser) : Browser :=
  match answers b with
  | t :: rest =>
      {| page_title := t; answers := rest; reachable := reachable b;
         input_ready := input_ready b; table_text := table_text b; listed := listed b |}
  | [] => b
  end.

Definition holds (c : Cond) (b : Browser) : bool :=
  match c with
  | TitleContains expected => contains expected (page_title b)
  | TextPresentInElement _ _ => str_eqb (page_title b) (lit "Search")
  | SearchLanded case_number =>
      contains (lit "Search") (page_title b)
      || contains case_number (page_title b)
      || contains (lit "Search Results:") (page_title b)
  | CaseInTitle case_number => contains case_number (page_title b)
  end.

Definition locator_eqb (a b : Locator) : bool :=
  match a, b with
  | ById x, ById y => str_eqb x y
  | ByXPath x, ByXPath y => str_eqb x y
  | ByTagName x, ByTagName y => str_eqb x y
  | ByClassName x, ByClassName y => str_eqb x y
  | _, _ => false
  end.

(** No captcha widget and no error banner; the results table holds
    [table_text]; every other element is there with no text. *)
Definition find_text (loc : Locator) (b : Browser) : option str :=
  if locator_eqb loc Search.recaptcha_xpath then None
  else if locator_eqb loc Search.alert_xpath then None
  else if locator_eqb loc (ByTagName (lit "table")) then Some (table_text b)
  else Some [].

Definition do_click (loc : Locator) (b : Browser) : bool * Browser :=
  if locator_eqb loc (ById (lit "searchButton")) then (true, answer b)
  else if locator_eqb loc (ById (lit "caseNumber")) then (input_ready b, b)
  else (true, b).

Definition driver : Driver Browser := {|
  drv_get := fun _ b =>
    show (if reachable b then lit "Search" else lit "Problem loading page") b;
  drv_wait := fun c b => (holds c b, b);
  drv_title := page_title;
  drv_find_text := find_text;
  drv_find_all_text := fun _ b => listed b;
  drv_attribute := fun _ _ _ => [];
  drv_click := do_click;
  drv_send_keys := fun _ _ b => b;
  drv_execute_script := fun _ b => b;
  drv_delete_all_cookies := fun b => b;
  recaptcha := fun _ _ b => (Some (lit "token"), b)
|}.

Definition flags (thresh : Z) : Flags := {|
  portal_base := lit "https://court.baycoclerk.com/BenchmarkWeb2/";
  state := lit "FL";
  county := lit "Bay";
  start_year := 2000;
  end_year := 2021;
  solve_captchas := true;
  output := lit "bay-county-scraped.csv";
  missing_thresh := 30;
  connect_thresh := thresh;
  verbose := false
|}.

(** A reachable portal showing the page titled [t], with the answers [a]
    still to come, behind the driver log [l]. *)
Definition at_page (t : str) (a : list str) (l : list Event) : World Browser := {|
  browser := {| page_title := t; answers := a; reachable := true;
                input_ready := true; table_text := []; listed := [] |};
  log := l
|}.

(** What an episode of searching costs: cookie clears, page loads, and
    entries of the case number. *)
Definition tally (case_number : str) (l : list Event) : nat * nat * nat :=
  (count_events is_delete_all_cookies l,
   count_events is_get l,
   count_events (is_send_keys_of case_number) l).

Definition tally_add (a b : nat * nat * nat) : nat * nat * nat :=
  let '(a1, a2, a3) := a in
  let '(b1, b2, b3) := b in
  ((a1 + b1)%nat, (a2 + b2)%nat, (a3 + b3)%nat).

(** A browser about to be pointed at a portal that will answer the
    successive searches with the titles [script]. *)
Definition fresh (script : list str) : World Browser := {|
  browser := {| page_title := []; answers := script; reachable := true;
                input_ready := true; table_text := [];
                listed := [] |};
  log := []
|}.

(** A portal that cannot be reached. *)
Definition unreachable : World Browser := {|
  browser := {| page_title := []; answers := []; reachable := false;
                input_ready := true; table_text := []; listed := [] |};
  log := []
|}.

(** A portal whose case-number box does not take the click. *)
Definition stuck_input : World Browser := {|
  browser := {| page_title := []; answers := []; reachable := true;
                input_ready := false; table_text := []; listed := [] |};
  log := []
|}.

(** A browser showing a page after a search. *)
Definition showing (t table : str) (cases : list str) : World Browser := {|
  browser := {| page_title := t; answers := []; reachable := true;
                input_ready := true; table_text := table; listed := cases |};
  log := []
|}.

(** A results page reporting three cases for 21000001, one of them listed
    twice. *)
Definition results_page : World Browser :=
  showing (lit "Search Results: CaseNumber: 21000001")
          (lit "COURT TYPE
ALL
CASES FOUND
3
NAME")
          [lit "21000001CFMA"; lit "21000001MMMA"; lit "21000001CFMA"; lit "21000001CTMA"].

Definition search_portal (thresh : Z) (fuel : nat) (case_number : str)
    : M (World Browser) (option (list str)) :=
  Search.search_portal Browser driver (flags thresh) fuel case_number.

(** The stuck portal once the search page has come up. *)
Definition stuck_after_wait : World Browser :=
  snd (Search.case_search_loop Browser driver (flags 3) 0 3 stuck_input).

Definition case_page : str := lit "21000001 - STATE OF FLORIDA vs DOE, JOHN".

(** The browser after case 21000001 was submitted to a portal that answers
    with the page of that case. *)
Definition submitted : World Browser :=
  snd (Search.submit_search Browser driver (flags 3) 0 (lit "21000001") (fresh [case_page])).

(** The wait of [select_case_input] holding. *)
Definition landing : Event :=
  EvWait (TextPresentInElement (ById (lit "title")) (lit "Case Search")) true.

(** The same browser behind a connection on which no wait ever holds. *)
Definition stalled_driver : Driver Browser := {|
  drv_get := drv_get driver;
  drv_wait := fun _ b => (false, b);
  drv_title := drv_title driver;
  drv_find_text := drv_find_text driver;
  drv_find_all_text := drv_find_all_text driver;
  drv_attribute := drv_attribute driver;
  drv_click := drv_click driver;
  drv_send_keys := drv_send_keys driver;
  drv_execute_script := drv_execute_script driver;
  drv_delete_all_cookies := drv_delete_all_cookies driver;
  recaptcha := recaptcha driver
|}.

End FakePortal.

(** A portal in which every search finds nothing and one in which every
    search finds the case, for running the scan loop. *)
Module FakeScan.

Definition flags (thresh : Z) : Flags := {|
  portal_base := lit "https://court.baycoclerk.com/BenchmarkWeb2/";
  state := lit "FL";
  county := lit "Bay";
  start_year := 2020;
  end_year := 2021;
  solve_captchas := true;
  output := lit "bay-county-scraped.csv";
  missing_thresh := thresh;
  connect_thresh := 10;
  verbose := false
|}.

Definition nothing_found (case_number : str) : M unit (option (list str)) :=
  ret (Some []).

Definition extract (case_number : str) : M unit unit := ret tt.

Definition start : Scanner.Scan unit := {| Scanner.world := tt; Scanner.events := [] |}.

Definition scan_nothing (thresh : Z) (fuel : nat) (out : Checkpoint.FileState)
    : Scanner.Run unit unit :=
  Scanner.begin_scrape unit (flags thresh) nothing_found extract (fun w => w) fuel out.

(** An output file whose last record is case 21000417, and one whose last
    record is case 21999999. *)
Definition prior_output : Checkpoint.FileState :=
  Checkpoint.Contents (lit "_id,_state,_county,PortalID,CaseNum
7f,FL,Bay,21000417,21000417CFMA
").

Definition full_output : Checkpoint.FileState :=
  Checkpoint.Contents (lit "_id,_state,_county,PortalID,CaseNum
7f,FL,Bay,21999999,21999999CFMA
").

(** An output file as [write_csv] leaves it, whose last record is case
    23000417: a resumed run has three years to scan. *)
Definition recent_output : Checkpoint.FileState :=
  Checkpoint.Contents (lit "_id,_state,_county,PortalID,CaseNum
" ++ lit "7f,FL,Bay,23000417,23000417CFMA" ++ ["013"%char; "010"%char]).



End FakeScan.

(** A plain row writer and two records, for running [write_csv]. *)
Module FakeSink.

Import Sink.

Definition cell_text (c : Cell) : str :=
  match c with
  | PyNone => []
  | PyStr s => s
  | PyInt z => py_str_int z
  | PySeq items => List.concat items
  end.

Fixpoint join (sep : str) (parts : list str) : str :=
  match parts with
  | [] => []
  | [x] => x
  | x :: rest => x ++ sep ++ join sep rest
  end.

Definition writerow (cells : list Cell) : str :=
  join (lit ",") (map cell_text cells) ++ ["013"%char; "010"%char].

Definition theft : Charge := {|
  count := PyInt 1; statute := PyStr (lit "812.014"); description := PyStr (lit "THEFT");
  level := PyStr (lit "M"); degree := PyStr (lit "F"); disposition := PyNone;
  disposition_date := PyNone; charge_offense_date := PyNone; citation_number := PyNone;
  plea := PyNone; plea_date := PyNone
|}.

Definition case_with (cs : list Charge) : BenchmarkRecord := {|
  id := PyStr (lit "7f"); rec_state := PyStr (lit "FL"); rec_county := PyStr (lit "Bay");
  portal_id := PyStr (lit "21000417"); case_num := PyStr (lit "21000417CFMA");
  agency_report_num := PyNone; party_id := PyNone; first_name := PyNone;
  middle_name := PyNone; last_name := PyNone; suffix := PyNone; dob := PyNone;
  race := PyNone; sex := PyNone; arrest_date := PyNone; filing_date := PyNone;
  offense_date := PyNone; division_name := PyNone; case_status := PyNone;
  defense_attorney := PySeq []; public_defender := PySeq []; judge := PyNone;
  charges := cs; arresting_officer := PyNone; arresting_officer_badge_number := PyNone
|}.

End FakeSink.

(** ** Parsing docket text (ScraperUtils) *)

Module Utils.

Import Checkpoint.

(** [s.split()]: the words between runs of white space; [cur] holds the
    word being read, last character first. *)
Fixpoint words_from (s cur : str) : list str :=
  match s with
  | [] => match cur with [] => [] | _ => [rev cur] end
  | c :: s' =>
      if is_space c then
        match cur with
        | [] => words_from s' []
        | _ => rev cur :: words_from s' []
        end
      else words_from s' (c :: cur)
  end.

Definition words (s : str) : list str := words_from s [].

(** [s.endswith(suffix)] *)
Definition endswith (suffix s : str) : bool := startswith (rev suffix) (rev s).

(** [s.count(c)] for one character *)
Definition count_char (c : ascii) (s : str) : nat :=
  List.length (filter (fun x => ascii_eqb x c) s).



(** [[int(charge) for charge in plea_counts if charge != '']] *)
Fixpoint ints (plea_counts : list str) : Res (list Z) :=
  match plea_counts with
  | [] => Ok []
  | charge :: rest =>
      match charge with
      | [] => ints rest
      | _ =>
          and_then (int_or_raise (py_int charge)) (fun z =>
          and_then (ints rest) (fun zs => Ok (z :: zs)))
      end
  end.

(** [regex.sub('[^,0-9]', '', word)] *)
Definition digits_and_commas (word : str) : str :=
  filter (fun c => is_digit c || ascii_eqb c ","%char) word.

(** [parse_plea_case_numbers(plea_text, valid_charges)] *)
Definition parse_plea_case_numbers (plea_text : str) (valid_charges : list Z)
    : Res (list Z) :=
  let plea_text := words (strip plea_text) in
  match rev plea_text with
  | last_word :: _ =>
      let plea_counts := split ","%char (digits_and_commas last_word) in
      and_then (ints plea_counts) (fun plea_number =>
      Ok (filter (fun charge => existsb (Z.eqb charge) valid_charges) plea_number))
  | [] => Ok []
  end.

(** [parse_plea_type(plea_text)] *)
Definition parse_plea_type (plea_text : str) : option str :=
  if contains (lit "NOT") plea_text then Some (lit "Not Guilty")
  else if contains (lit "GUILTY") plea_text then Some (lit "Guilty")
  else if contains (lit "NOLO") plea_text then Some (lit "Nolo Contendere")
  else None.

(** [parse_attorneys(attorney_text)]: the names handed to
    [Pii.StringSequence]. *)
Fixpoint parse_attorneys (attorney_text : list str) : Res (list str) :=
  match attorney_text with
  | [] => Ok []
  | docket_text :: rest =>
      let attorney_name := strip docket_text in
      if endswith (lit "ASSIGNED") attorney_name then
        let attorney_name := slice_drop_last 9 attorney_name in
        and_then (item 1 (split ":"%char attorney_name)) (fun after_colon =>
        and_then (parse_attorneys rest) (fun attorneys =>
        Ok (lstrip after_colon :: attorneys)))
      else parse_attorneys rest
  end.





(** [os.path.join(a, b)] on POSIX. *)
Definition path_join (a b : str) : str :=
  if startswith (lit "/") b then b
  else match a with
       | [] => b
       | _ => if endswith (lit "/") a then a ++ b else a ++ lit "/" ++ b
       end.

Section WithSanitizer.

(** [pathvalidate.sanitize_filename] *)
Variable sanitize_filename : str -> str.

(** [parse_out_path(directory, filename, extension)] *)
Definition parse_out_path (directory filename extension : str) : str :=
  let filename := sanitize_filename filename in
  let filename_len := List.length (filename ++ lit "." ++ extension) in
  let filename :=
    if (255 <? filename_len)%nat
    then slice_drop_last (filename_len - 255) filename
    else filename in
  let total_len :=
    List.length (path_join directory (filename ++ lit "." ++ extension)) in
  let filename :=
    if (256 <? total_len)%nat
    then slice_drop_last (total_len - 256) filename
    else filename in
  path_join directory (filename ++ lit "." ++ extension).

End WithSanitizer.

End Utils.

(** ** Scraping an opened case (scrape_record) *)

Module Scrape.

Import Sink Utils.

Section WithPage.

Variable D : Type.
Variable FLAGS : Flags.

(** [WebDriverWait(driver, 5).until(EC.presence_of_element_located((By.ID,
    element_id)))]: [false] stands for [TimeoutException]. *)
Variable present_within : str -> D -> bool * D.

(** [driver.refresh()] *)
Variable refresh : D -> D.

(** The loops of lines 201 to 209 and 216 to 223: [for i in
    range(FLAGS.connect_thresh)] from index [i] with [n] rounds left.  A
    wait that succeeds does not leave the loop. *)
Fixpoint await (element_id failure : str) (i : Z) (n : nat) : M D unit :=
  match n with
  | O => ret tt
  | S n' =>
      fun d =>
        let (found, d') := present_within element_id d in
        if found then await element_id failure (i + 1) n' d'
        else if i =? connect_thresh FLAGS - 1
             then (Raise (RuntimeError failure), d')
             else await element_id failure (i + 1) n' (refresh d')
  end.

Definition await_summary (case_number : str) : M D unit :=
  await (lit "summaryAccordion")
        (lit "Summary details did not load for case " ++ case_number ++ lit ".")
        0 (Z.to_nat (connect_thresh FLAGS)).

Definition await_dockets (case_number : str) : M D unit :=
  await (lit "gridDocketsView")
        (lit "Dockets did not load for case " ++ case_number ++ lit ".")
        0 (Z.to_nat (connect_thresh FLAGS)).

(** One round of such a loop that is not the last: the wait, and a refresh
    when it timed out. *)
Definition wait_round (element_id : str) (d : D) : D :=
  let (found, d') := present_within element_id d in
  if found then d' else refresh d'.

End WithPage.

(** The dict [Charges] of line 320, in insertion order: charge objects by
    count.  [r.charges] holds the same objects, so what the loop over the
    pleas sets on them shows in the record written. *)
Definition Charges : Type := list (Z * Charge).

Definition keys (d : Charges) : list Z := map fst d.

Definition values (d : Charges) : list Charge := map snd d.

(** [charge.plea = plea; charge.plea_date = plea_date] *)
Definition with_plea (plea : option str) (plea_date : str) (charge : Charge) : Charge :=
  {| count := count charge;
     statute := statute charge;
     description := description charge;
     level := level charge;
     degree := degree charge;
     disposition := disposition charge;
     disposition_date := disposition_date charge;
     charge_offense_date := charge_offense_date charge;
     citation_number := citation_number charge;
     Sink.plea := match plea with Some p => PyStr p | None => PyNone end;
     Sink.plea_date := PyStr plea_date |}.

(** [Charges[count].plea = plea; Charges[count].plea_date = plea_date];
    [None] stands for [KeyError]. *)
Fixpoint plead (count : Z) (plea : option str) (plea_date : str) (d : Charges)
    : option Charges :=
  match d with
  | [] => None
  | (k, charge) :: rest =>
      if k =? count then Some ((k, with_plea plea plea_date charge) :: rest)
      else option_map (cons (k, charge)) (plead count plea plea_date rest)
  end.

(** Lines 352 to 354: [for count in plea_number]. *)
Fixpoint plead_each (plea_number : list Z) (plea : option str) (plea_date : str)
    (d : Charges) : option Charges :=
  match plea_number with
  | [] => Some d
  | count :: rest =>
      match plead count plea plea_date d with
      | Some d' => plead_each rest plea plea_date d'
      | None => None
      end
  end.

(** Lines 340 to 354, for one docket entry that holds a plea, given its
    text and the text of the date cell beside it. *)
Definition apply_plea (d : Charges) (plea_element : str * str) : Res (option Charges) :=
  let plea_text := strip (fst plea_element) in
  let plea := parse_plea_type plea_text in
  let plea_date := strip (snd plea_element) in
  Checkpoint.and_then (parse_plea_case_numbers plea_text (keys d)) (fun plea_number =>
  match plea_number with
  | [] => Ok (Some (map (fun kc => (fst kc, with_plea plea plea_date (snd kc))) d))
  | _ => Ok (plead_each plea_number plea plea_date d)
  end).

(** Lines 339 to 354: [for plea_element in docket_pleas]. *)
Fixpoint apply_pleas (d : Charges) (docket_pleas : list (str * str))
    : Res (option Charges) :=
  match docket_pleas with
  | [] => Ok (Some d)
  | plea_element :: rest =>
      Checkpoint.and_then (apply_plea d plea_element) (fun applied =>
      match applied with
      | Some d' => apply_pleas d' rest
      | None => Ok None
      end)
  end.

End Scrape.

(** A second portal for the scan loop. *)
Module FakeScan2.

(** A portal on which every search finds the same two associated cases. *)
Definition pair_found (case_number : str) : M unit (option (list str)) :=
  ret (Some [lit "21000001CFMA"; lit "21000001MMMA"]).

End FakeScan2.

(** ** Notions used in the proofs *)

(** The number a list of decimal digits, least significant first, stands for. *)
Definition value_lsd (l : list Z) : Z :=
  fold_right (fun d acc => d + 10 * acc) 0 l.

Definition small (d : Z) : Prop := 0 <= d < 10.

(** A Hoare triple for [M]: from a state in [P], a returned value and the
    state it leaves are in [Q]; on an exception or on running out of fuel
    the state left is in [E]. *)
Definition triple {S A} (P : S -> Prop) (m : M S A)
    (Q : A -> S -> Prop) (E : S -> Prop) : Prop :=
  forall s, P s ->
    match m s with
    | (Ok a, s') => Q a s'
    | (_, s') => E s'
    end.

(** A condition on the timeline of a scan, as a condition on its state. *)
Definition on_timeline {W} (P : list Scanner.ScanEvent -> Prop) : Scanner.Scan W -> Prop :=
  fun s => P (Scanner.timeline s).

Definition is_year_started (e : Scanner.ScanEvent) : bool :=
  match e with Scanner.YearStarted _ _ => true | _ => false end.

(** [I] survives every event a year's loop can add. *)
Definition year_stable (I : list Scanner.ScanEvent -> Prop) : Prop :=
  forall l e, is_year_started e = false -> I l -> I (l ++ [e]).

(** [I] survives every event. *)
Definition stable (I : list Scanner.ScanEvent -> Prop) : Prop :=
  forall l e, I l -> I (l ++ [e]).

(** The events [new] added after [l0] take the reset rule from a counter at
    0 to a counter at [c] without breaking it. *)
Definition tracked (l0 : list Scanner.ScanEvent) (c : Z) (l : list Scanner.ScanEvent) : Prop :=
  exists new, l = l0 ++ new /\
    forall future, Scanner.cadence 0 (new ++ future) = Scanner.cadence c future.

(** Some counter is reached after [l0] without breaking the reset rule. *)
Definition reached (W : Type) (l0 : list Scanner.ScanEvent) : Scanner.Scan W -> Prop :=
  on_timeline (fun l => exists c, tracked l0 c l).

(** The year banners expected of a scan over [years]. *)
Definition expected_starts (years : list Z) (continuing : bool) (last_case : Z)
    : list (Z * Z) :=
  match years with
  | [] => []
  | year :: rest =>
      (year, if continuing then last_case + 1 else 1) :: map (fun y => (y, 1)) rest
  end.

(** The events added after [l0] hold the year banners [done]. *)
Definition starts_are (l0 : list Scanner.ScanEvent) (done : list (Z * Z))
    (l : list Scanner.ScanEvent) : Prop :=
  exists new, l = l0 ++ new /\ Scanner.year_starts new = done.

(** No search was made after [l0]. *)
Definition no_search (l0 l : list Scanner.ScanEvent) : Prop :=
  exists new, l = l0 ++ new /\ Scanner.searches new = [].

(** The first search made after [l0] was for [c]. *)
Definition first_search (l0 : list Scanner.ScanEvent) (c : str)
    (l : list Scanner.ScanEvent) : Prop :=
  exists new, l = l0 ++ new /\ hd_error (Scanner.searches new) = Some c.

(** A carriage return or a line feed. *)
Definition is_line_end (c : ascii) : bool :=
  ascii_eqb c "013"%char || ascii_eqb c "010"%char.

(** A text with no line end in it. *)
Definition one_line (s : str) : Prop :=
  forallb (fun c => negb (is_line_end c)) s = true.

(** A text that is empty or ends with a line feed. *)
Definition whole_lines (p : str) : Prop :=
  p = [] \/ exists q, p = q ++ ["010"%char].

(** A text in which the character [c] does not occur. *)
Definition without (c : ascii) (s : str) : Prop :=
  forallb (fun x => negb (ascii_eqb x c)) s = true.

(** In a log of the scan, newest first: every call of [scrape_record] sits
    directly on a call of [search_portal] for the same case number. *)
Fixpoint searched_first (events : list Scanner.ScanEvent) : bool :=
  match events with
  | [] => true
  | Scanner.Scraped c :: rest =>
      match rest with
      | Scanner.Searched c' :: _ => str_eqb c' c
      | _ => false
      end && searched_first rest
  | _ :: rest => searched_first rest
  end.

(** The same, of the state of a scan; and the state right after a call of
    [search_portal] for [c]. *)
Definition scrape_after_search {W} (s : Scanner.Scan W) : Prop :=
  searched_first (Scanner.events s) = true.

Definition just_searched_case {W} (c : str) (s : Scanner.Scan W) : Prop :=
  exists rest,
    Scanner.events s = Scanner.Searched c :: rest /\ searched_first rest = true.

(** In a timeline: every year banner is directly followed by the call of
    [search_portal] for that year's candidate at the banner's sequence. *)
Fixpoint years_open_with_search (l : list Scanner.ScanEvent) : bool :=
  match l with
  | [] => true
  | Scanner.YearStarted y n :: rest =>
      match rest with
      | Scanner.Searched c :: _ => str_eqb c (format_0 2 (y mod 100) ++ format_0 6 n)
      | _ => false
      end && years_open_with_search rest
  | _ :: rest => years_open_with_search rest
  end.

(** The same of the events added after [l0]; and with the banner of year
    [y] at sequence [n] added last, its search still to come. *)
Definition year_opened (l0 l : list Scanner.ScanEvent) : Prop :=
  exists new, l = l0 ++ new /\ years_open_with_search new = true.

Definition year_pending (l0 : list Scanner.ScanEvent) (y n : Z)
    (l : list Scanner.ScanEvent) : Prop :=
  exists new,
    l = l0 ++ new ++ [Scanner.YearStarted y n] /\ years_open_with_search new = true.

(** The page in the browser state [d] reports [n] cases found, in the place
    where [get_search_case_count] looks for the county of [FLAGS]: for Bay
    the line after the first line reading CASES FOUND in the text of the
    table, for Escambia the text of the count cell. *)
Definition shows_count {D} (drv : Driver D) (FLAGS : Flags) (d : D) (n : Z) : Prop :=
  (county FLAGS = lit "Bay"
   /\ exists before after,
        Forall (without "010"%char) (before ++ after)
        /\ ~ In (lit "CASES FOUND") before
        /\ drv_find_text drv (ByTagName (lit "table")) d
           = Some (FakeSink.join ["010"%char]
                     (before ++ lit "CASES FOUND" :: decimal n :: after)))
  \/ (county FLAGS = lit "Escambia"
      /\ drv_find_text drv Search.escambia_count_xpath d = Some (decimal n)).

(** A text with no white space in it. *)
Definition no_space (s : str) : Prop :=
  forallb (fun x => negb (is_space x)) s = true.



(** A portal on which every page loads and every element answers, but the
    title awaited after a submission never comes. *)
Module SilentPortal.

Definition driver : Driver FakePortal.Browser := {|
  drv_get := drv_get FakePortal.driver;
  drv_wait := fun c b =>
    (match c with SearchLanded _ => false | _ => true end, b);
  drv_title := drv_title FakePortal.driver;
  drv_find_text := drv_find_text FakePortal.driver;
  drv_find_all_text := drv_find_all_text FakePortal.driver;
  drv_attribute := drv_attribute FakePortal.driver;
  drv_click := fun _ b => (true, b);
  drv_send_keys := drv_send_keys FakePortal.driver;
  drv_execute_script := drv_execute_script FakePortal.driver;
  drv_delete_all_cookies := drv_delete_all_cookies FakePortal.driver;
  recaptcha := recaptcha FakePortal.driver
|}.

End SilentPortal.

(** The calls of [load_page] that fail before its last attempt: each is a
    wait that times out followed by a new load. *)
Definition failed_attempts (url expectedTitle : str) (k : nat) : list Event :=
  List.concat (repeat [EvWait (TitleContains expectedTitle) false; EvGet url] k).

(** * Properties *)

(** ** Decimal text and [int] *)

Section Decimal.

Example format_0_pads : format_0 6 42 = lit "000042".
Proof. reflexivity. Qed.

Example format_0_grows : format_0 6 1234567 = lit "1234567".
Proof. reflexivity. Qed.

Example format_0_signed : format_0 6 (-5) = lit "-00005".
Proof. reflexivity. Qed.

Example py_int_padded : py_int (lit "000042") = Some 42.
Proof. reflexivity. Qed.

Example py_int_spaced : py_int (lit " 1_000 ") = Some 1000.
Proof. reflexivity. Qed.

Example py_int_rejects : py_int (lit "Po") = None.
Proof. reflexivity. Qed.

Example split_keeps_empty_fields :
  split ","%char (lit "a,b,,c") = [lit "a"; lit "b"; lit ""; lit "c"].
Proof. reflexivity. Qed.

Example parse_strips_suffix : CaseId.parse (lit "21000417CFMA") = Some (2021, 417).
Proof. reflexivity. Qed.

Lemma lsd_digits_value (fuel : nat) :
  forall n, 0 <= n < 2 ^ Z.of_nat fuel -> value_lsd (lsd_digits fuel n) = n.
Proof.
  induction fuel as [|f IH]; intros n Hn.
  - simpl in *. lia.
  - cbn [lsd_digits value_lsd fold_right].
    destruct (n <? 10) eqn:E.
    + apply Z.ltb_lt in E. simpl. rewrite Z.mod_small by lia. lia.
    + apply Z.ltb_ge in E. fold (value_lsd (lsd_digits f (n / 10))).
      rewrite IH.
      * pose proof (Z.div_mod n 10). lia.
      * rewrite Nat2Z.inj_succ, Z.pow_succ_r in Hn by lia.
        split; [apply Z.div_pos; lia|].
        apply Z.div_lt_upper_bound; lia.
Qed.

Lemma lsd_digits_small (fuel : nat) :
  forall n, Forall small (lsd_digits fuel n).
Proof.
  induction fuel as [|f IH]; intros n; simpl; constructor.
  - unfold small. apply Z.mod_pos_bound. lia.
  - destruct (n <? 10); [constructor | apply IH].
Qed.

Lemma lsd_digits_length_le (fuel : nat) :
  forall n k, 0 <= n < 10 ^ Z.of_nat (S k) ->
    (List.length (lsd_digits (S fuel) n) <= S k)%nat.
Proof.
  induction fuel as [|f IH]; intros n k Hn.
  - simpl. destruct (n <? 10); simpl; lia.
  - cbn [lsd_digits]. destruct (n <? 10) eqn:E; [simpl; lia|].
    apply Z.ltb_ge in E.
    destruct k as [|k].
    + simpl in Hn. lia.
    + cbn [List.length]. apply le_n_S. apply IH.
      rewrite Nat2Z.inj_succ, Z.pow_succ_r in Hn by lia.
      split; [apply Z.div_pos; lia|].
      apply Z.div_lt_upper_bound; lia.
Qed.

Lemma lsd_digits_length_gt (fuel : nat) :
  forall n k, 10 ^ Z.of_nat k <= n < 2 ^ Z.of_nat fuel ->
    (k < List.length (lsd_digits fuel n))%nat.
Proof.
  induction fuel as [|f IH]; intros n k Hn.
  - simpl in Hn. assert (0 < 10 ^ Z.of_nat k) by (apply Z.pow_pos_nonneg; lia). lia.
  - cbn [lsd_digits List.length].
    destruct k as [|k]; [lia|].
    assert (H10 : 10 <= n).
    { rewrite Nat2Z.inj_succ, Z.pow_succ_r in Hn by lia.
      assert (0 < 10 ^ Z.of_nat k) by (apply Z.pow_pos_nonneg; lia). lia. }
    destruct (n <? 10) eqn:E; [apply Z.ltb_lt in E; lia|].
    apply -> Nat.succ_lt_mono. apply IH.
    rewrite !Nat2Z.inj_succ, !Z.pow_succ_r in Hn by lia.
    split.
    + apply Z.div_le_lower_bound; lia.
    + apply Z.div_lt_upper_bound; lia.
Qed.

Lemma log2_fuel (n : Z) : 0 <= n -> n < 2 ^ Z.of_nat (S (Z.to_nat (Z.log2 n))).
Proof.
  intros Hn. rewrite Nat2Z.inj_succ, Z2Nat.id by apply Z.log2_nonneg.
  destruct (Z.eq_dec n 0) as [->|Hz]; [reflexivity|].
  apply Z.log2_spec. lia.
Qed.

Lemma small_cases (d : Z) :
  small d ->
  d = 0 \/ d = 1 \/ d = 2 \/ d = 3 \/ d = 4 \/ d = 5 \/ d = 6 \/ d = 7 \/ d = 8 \/ d = 9.
Proof. unfold small. lia. Qed.

Lemma digit_char_is_digit (d : Z) : small d -> is_digit (digit_char d) = true.
Proof.
  intros H. apply small_cases in H.
  repeat (destruct H as [->|H]; [reflexivity|]). subst. reflexivity.
Qed.

Lemma digit_val_char (d : Z) : small d -> digit_val (digit_char d) = d.
Proof.
  intros H. apply small_cases in H.
  repeat (destruct H as [->|H]; [reflexivity|]). subst. reflexivity.
Qed.

Lemma int_digits_small (l : list Z) :
  forall acc b, Forall small l -> l <> [] \/ b = true ->
    int_digits (map digit_char l) acc b
    = Some (fold_left (fun a d => 10 * a + d) l acc).
Proof.
  induction l as [|d l IH]; intros acc b Hs Hne.
  - destruct Hne as [Hne| ->]; [congruence | reflexivity].
  - inversion Hs; subst. cbn [map int_digits fold_left].
    rewrite digit_char_is_digit, digit_val_char by assumption.
    apply IH; auto.
Qed.

Lemma fold_left_rev_lsd (l : list Z) :
  fold_left (fun a d => 10 * a + d) (rev l) 0 = value_lsd l.
Proof.
  unfold value_lsd.
  induction l as [|d l IH]; [reflexivity|].
  cbn [rev fold_right]. rewrite fold_left_app. cbn [fold_left].
  rewrite IH. lia.
Qed.

Lemma is_digit_not_space (c : ascii) : is_digit c = true -> is_space c = false.
Proof.
  unfold is_digit, is_space. intros H.
  apply andb_true_iff in H as [H1 H2].
  apply Nat.leb_le in H1. apply Nat.leb_le in H2.
  apply orb_false_iff. split; apply andb_false_iff.
  - right. apply Nat.leb_gt. lia.
  - right. apply Nat.leb_gt. lia.
Qed.

Lemma lstrip_digits (s : str) : forallb is_digit s = true -> lstrip s = s.
Proof.
  destruct s as [|c s]; [reflexivity|]. simpl. intros H.
  apply andb_true_iff in H as [H _].
  now rewrite (is_digit_not_space _ H).
Qed.

Lemma forallb_rev {A} (p : A -> bool) (l : list A) :
  forallb p (rev l) = forallb p l.
Proof.
  induction l as [|x l IH]; [reflexivity|].
  simpl. rewrite forallb_app, IH. simpl. rewrite andb_true_r. apply andb_comm.
Qed.

Lemma strip_digits (s : str) : forallb is_digit s = true -> strip s = s.
Proof.
  intros H. unfold strip. rewrite (lstrip_digits s H).
  rewrite lstrip_digits by (now rewrite forallb_rev).
  apply rev_involutive.
Qed.

Lemma is_digit_not_int_space (c : ascii) : is_digit c = true -> is_int_space c = false.
Proof.
  unfold is_digit, is_int_space. intros H.
  apply andb_true_iff in H as [H1 H2].
  apply Nat.leb_le in H1. apply Nat.leb_le in H2.
  apply orb_false_iff. split.
  - apply andb_false_iff. right. apply Nat.leb_gt. lia.
  - apply Nat.eqb_neq. lia.
Qed.

Lemma lstrip_int_digits (s : str) : forallb is_digit s = true -> lstrip_int s = s.
Proof.
  destruct s as [|c s]; [reflexivity|]. simpl. intros H.
  apply andb_true_iff in H as [H _].
  now rewrite (is_digit_not_int_space _ H).
Qed.

Lemma strip_int_digits (s : str) : forallb is_digit s = true -> strip_int s = s.
Proof.
  intros H. unfold strip_int. rewrite (lstrip_int_digits s H).
  rewrite lstrip_int_digits by (now rewrite forallb_rev).
  apply rev_involutive.
Qed.

Lemma py_int_all_digits (s : str) :
  forallb is_digit s = true -> py_int s = int_digits s 0 false.
Proof.
  intros H. unfold py_int. rewrite (strip_int_digits s H).
  destruct s as [|c s]; [reflexivity|].
  simpl in H. apply andb_true_iff in H as [Hc _].
  unfold ascii_eqb.
  destruct (Ascii.eqb_spec c "-"%char) as [->|_]; [discriminate|].
  destruct (Ascii.eqb_spec c "+"%char) as [->|_]; [discriminate|].
  reflexivity.
Qed.

Lemma decimal_digits (n : Z) : forallb is_digit (decimal n) = true.
Proof.
  unfold decimal. apply forallb_forall. intros c Hc.
  apply in_map_iff in Hc as (d & <- & Hd).
  apply digit_char_is_digit.
  apply <- in_rev in Hd.
  pose proof (lsd_digits_small (S (Z.to_nat (Z.log2 n))) n) as Hs.
  rewrite Forall_forall in Hs. now apply Hs.
Qed.

Lemma decimal_length (n : Z) :
  List.length (decimal n) = List.length (lsd_digits (S (Z.to_nat (Z.log2 n))) n).
Proof. unfold decimal. now rewrite length_map, length_rev. Qed.

Lemma decimal_nonempty (n : Z) : decimal n <> [].
Proof.
  intros H. apply (f_equal (@List.length ascii)) in H.
  rewrite decimal_length in H. simpl in H. lia.
Qed.

Lemma int_digits_decimal (n : Z) (b : bool) :
  0 <= n -> int_digits (decimal n) 0 b = Some n.
Proof.
  intros Hn. unfold decimal.
  rewrite int_digits_small.
  - rewrite fold_left_rev_lsd, lsd_digits_value; [reflexivity|].
    split; [assumption | now apply log2_fuel].
  - apply Forall_rev, lsd_digits_small.
  - left. intros H. apply (f_equal (@List.length Z)) in H.
    rewrite length_rev in H. simpl in H. lia.
Qed.

Lemma int_digits_zeros (k : nat) (s : str) (b : bool) :
  s <> [] -> forallb is_digit s = true ->
  int_digits (repeat "0"%char k ++ s) 0 b = int_digits s 0 true.
Proof.
  intros Hne Hd. revert b. induction k as [|k IH]; intros b.
  - simpl. destruct s as [|c s]; [congruence|].
    simpl in *. apply andb_true_iff in Hd as [Hc _]. now rewrite Hc.
  - simpl. apply IH.
Qed.

Lemma zfill_digits (w : nat) (s : str) :
  forallb is_digit s = true -> forallb is_digit (zfill w s) = true.
Proof.
  intros H. unfold zfill. rewrite forallb_app, H, andb_true_r.
  apply forallb_forall. intros c Hc. apply repeat_spec in Hc. now subst.
Qed.

Lemma format_0_digits (w : nat) (n : Z) :
  0 <= n -> forallb is_digit (format_0 w n) = true.
Proof.
  intros Hn. unfold format_0.
  destruct (n <? 0) eqn:E; [apply Z.ltb_lt in E; lia|].
  apply zfill_digits, decimal_digits.
Qed.

Lemma format_0_nonempty (w : nat) (n : Z) : format_0 w n <> [].
Proof.
  unfold format_0. destruct (n <? 0); [discriminate|].
  unfold zfill. intros H. apply app_eq_nil in H as [_ H].
  now apply decimal_nonempty in H.
Qed.

(** [int] reads back what zero-padded formatting wrote. *)
Lemma py_int_format_0 (w : nat) (n : Z) :
  0 <= n -> py_int (format_0 w n) = Some n.
Proof.
  intros Hn. rewrite py_int_all_digits by now apply format_0_digits.
  unfold format_0. destruct (n <? 0) eqn:E; [apply Z.ltb_lt in E; lia|].
  unfold zfill. rewrite int_digits_zeros.
  - now apply int_digits_decimal.
  - apply decimal_nonempty.
  - apply decimal_digits.
Qed.

Lemma format_0_length_fits (w : nat) (n : Z) :
  0 <= n < 10 ^ Z.of_nat (S w) -> List.length (format_0 (S w) n) = S w.
Proof.
  intros Hn. unfold format_0.
  destruct (n <? 0) eqn:E; [apply Z.ltb_lt in E; lia|].
  unfold zfill. rewrite length_app, repeat_length, decimal_length.
  pose proof (lsd_digits_length_le (Z.to_nat (Z.log2 n)) n w Hn). lia.
Qed.

Lemma format_0_length_over (w k : nat) (n : Z) :
  10 ^ Z.of_nat k <= n -> (k < List.length (format_0 w n))%nat.
Proof.
  intros Hn.
  assert (0 < 10 ^ Z.of_nat k) by (apply Z.pow_pos_nonneg; lia).
  unfold format_0.
  destruct (n <? 0) eqn:E; [apply Z.ltb_lt in E; lia|].
  unfold zfill. rewrite length_app, repeat_length, decimal_length.
  pose proof (lsd_digits_length_gt (S (Z.to_nat (Z.log2 n))) n k) as L.
  assert (n < 2 ^ Z.of_nat (S (Z.to_nat (Z.log2 n)))) by (apply log2_fuel; lia).
  lia.
Qed.

End Decimal.

(** ** Case numbers *)

Section CaseNumbers.

Import CaseId.

Lemma parse_two_six (a b : str) :
  List.length a = 2%nat -> List.length b = 6%nat ->
  forallb is_digit a = true -> forallb is_digit b = true ->
  parse (a ++ b)
  = match py_int a, py_int b with
    | Some y, Some n => Some (2000 + y, n)
    | _, _ => None
    end.
Proof.
  intros La Lb Da Db. unfold parse, parse_year, parse_case.
  assert (Hnum : isnumeric (a ++ b) = true).
  { unfold isnumeric. destruct (a ++ b) eqn:E.
    - apply (f_equal (@List.length ascii)) in E. rewrite length_app in E. simpl in E. lia.
    - rewrite <- E, forallb_app, Da, Db. reflexivity. }
  rewrite Hnum. cbn [negb].
  unfold slice_to, slice_last.
  rewrite firstn_app, La, firstn_all2 by lia. cbn [Nat.sub firstn].
  rewrite app_nil_r, length_app, La, Lb. cbn [Nat.add Nat.sub].
  rewrite skipn_app, La, skipn_all2 by lia. cbn [Nat.sub skipn app].
  destruct (py_int a); [|reflexivity]. cbn [option_map].
  destruct (py_int b); reflexivity.
Qed.

Lemma year_suffix_range (year : Z) : 0 <= year mod 100 < 10 ^ Z.of_nat 2.
Proof. change (10 ^ Z.of_nat 2) with 100. apply Z.mod_pos_bound. lia. Qed.

(** What [parse] gives on a generated case number, whatever the year. *)
Lemma parse_case_number (year N : Z) :
  0 <= N <= 999999 ->
  parse (case_number year N) = Some (2000 + year mod 100, N).
Proof.
  intros HN. unfold case_number. cbv zeta.
  pose proof (year_suffix_range year) as HY.
  rewrite parse_two_six.
  - rewrite !py_int_format_0 by lia. reflexivity.
  - now apply (format_0_length_fits 1).
  - apply (format_0_length_fits 5). change (10 ^ Z.of_nat 6) with 1000000. lia.
  - apply format_0_digits. lia.
  - apply format_0_digits. lia.
Qed.

(** C4. Round trip: for a year that a two-digit suffix over 2000 stands
    for (2000 to 2099) and a sequence from 0 to 999999, reading back the
    generated case number, leading two characters plus 2000 as the year
    and trailing six characters as the sequence, gives the year and the
    sequence it was made from. *)
Theorem case_number_round_trip (year N : Z) :
  2000 <= year <= 2099 -> 0 <= N <= 999999 ->
  parse (case_number year N) = Some (year, N).
Proof.
  intros HY HN. rewrite parse_case_number by assumption.
  do 2 f_equal.
  rewrite <- (Z.mod_unique year 100 20 (year - 2000)); lia.
Qed.

Lemma case_number_round_trip_witness :
  parse (case_number 2021 123) = Some (2021, 123).
Proof.
  apply (case_number_round_trip 2021 123); lia.
Defined.

(** A sequence over 999999 is formatted all the same, on seven digits or
    more. *)
Lemma case_number_long (year N : Z) :
  999999 < N ->
  py_int (format_0 6 N) = Some N
  /\ (7 <= List.length (format_0 6 N))%nat
  /\ (9 <= List.length (case_number year N))%nat.
Proof.
  intros HN.
  assert (L6 : (6 < List.length (format_0 6 N))%nat).
  { apply format_0_length_over. change (10 ^ Z.of_nat 6) with 1000000. lia. }
  split; [apply py_int_format_0; lia|].
  split; [lia|].
  unfold case_number. cbv zeta. rewrite length_app.
  rewrite (format_0_length_fits 1) by apply year_suffix_range. lia.
Qed.

Example case_number_seven_digits : case_number 2021 1000000 = lit "211000000".
Proof. reflexivity. Qed.

End CaseNumbers.

(** ** Hoare rules *)

Section Hoare.

Context {S : Type}.

Lemma triple_ret {A} (P : S -> Prop) (a : A) (Q : A -> S -> Prop) (E : S -> Prop) :
  (forall s, P s -> Q a s) -> triple P (ret a) Q E.
Proof. intros H s Hs. now apply H. Qed.

Lemma triple_raise {A} (P : S -> Prop) (e : Exn) (Q : A -> S -> Prop) (E : S -> Prop) :
  (forall s, P s -> E s) -> triple P (raise e) Q E.
Proof. intros H s Hs. now apply H. Qed.

Lemma triple_out_of_fuel {A} (P : S -> Prop) (Q : A -> S -> Prop) (E : S -> Prop) :
  (forall s, P s -> E s) -> triple P out_of_fuel Q E.
Proof. intros H s Hs. now apply H. Qed.

Lemma triple_bind {A B} (P : S -> Prop) (m : M S A) (k : A -> M S B)
    (Q : A -> S -> Prop) (R : B -> S -> Prop) (E : S -> Prop) :
  triple P m Q E -> (forall a, triple (Q a) (k a) R E) -> triple P (bind m k) R E.
Proof.
  intros Hm Hk s Hs. unfold bind. specialize (Hm s Hs).
  destruct (m s) as [[a|e|] s']; [now apply Hk | assumption | assumption].
Qed.

Lemma triple_weaken {A} (P P' : S -> Prop) (m : M S A)
    (Q Q' : A -> S -> Prop) (E E' : S -> Prop) :
  triple P' m Q' E' ->
  (forall s, P s -> P' s) -> (forall a s, Q' a s -> Q a s) -> (forall s, E' s -> E s) ->
  triple P m Q E.
Proof.
  intros H HP HQ HE s Hs. specialize (H s (HP s Hs)).
  destruct (m s) as [[a|e|] s']; auto.
Qed.

End Hoare.

(** ** Checkpoint recovery *)

Section CheckpointProps.

Import Checkpoint.

Lemma last_item_not_missing (lines : list str) :
  last_item lines <> Raise FileNotFoundError.
Proof. unfold last_item. destruct (rev lines); discriminate. Qed.

Lemma item_not_missing (i : nat) (xs : list str) :
  item i xs <> Raise FileNotFoundError.
Proof. unfold item. destruct (nth_error xs i); discriminate. Qed.

Lemma int_or_raise_not_missing (o : option Z) :
  int_or_raise o <> Raise FileNotFoundError.
Proof. destruct o; discriminate. Qed.

(** Only a missing file makes the [try] block raise [FileNotFoundError]. *)
Lemma read_progress_missing (out : FileState) :
  read_progress out = Raise FileNotFoundError <-> out = Missing.
Proof.
  split; [|intros ->; reflexivity].
  destruct out as [| |text]; [reflexivity | discriminate |].
  unfold read_progress. intros H. exfalso.
  destruct (get_last_csv_row (Contents text)) as [row| |] eqn:E1; cbn [and_then] in H;
    [| inversion H; subst; unfold get_last_csv_row in E1;
       destruct (utf8_valid _);
       [now apply last_item_not_missing in E1 | discriminate]
     | discriminate].
  destruct (item 3 _) as [f| |] eqn:E2; cbn [and_then] in H;
    [| inversion H; subst; now apply item_not_missing in E2 | discriminate].
  destruct (int_or_raise (CaseId.parse_year f)) as [y| |] eqn:E3; cbn [and_then] in H;
    [| inversion H; subst; now apply int_or_raise_not_missing in E3 | discriminate].
  destruct (int_or_raise (CaseId.parse_case f)) as [n| |] eqn:E4; cbn [and_then] in H;
    [discriminate | inversion H; subst; now apply int_or_raise_not_missing in E4 | discriminate].
Qed.

Lemma recover_none_iff (out : FileState) :
  recover out = Ok None <-> out = Missing.
Proof.
  split; [|intros ->; reflexivity].
  unfold recover. intros H.
  destruct (read_progress out) as [p|e|] eqn:E; [discriminate| |discriminate].
  destruct e; try discriminate. now apply read_progress_missing.
Qed.

(** Any other exception of the [try] block passes through the [except]. *)
Lemma recover_raises (out : FileState) (e : Exn) :
  out <> Missing -> read_progress out = Raise e -> recover out = Raise e.
Proof.
  intros Hm H. unfold recover. rewrite H.
  destruct e; try reflexivity. now apply read_progress_missing in H.
Qed.

Lemma item_short (i : nat) (xs : list str) :
  (List.length xs <= i)%nat -> item i xs = Raise IndexError.
Proof.
  intros H. unfold item.
  now rewrite (proj2 (nth_error_None xs i) H).
Qed.

Lemma read_progress_short_row (out : FileState) (row : str) :
  get_last_csv_row out = Ok row ->
  (List.length (split ","%char row) < 4)%nat ->
  read_progress out = Raise IndexError.
Proof.
  intros Hrow Hlen. unfold read_progress. rewrite Hrow. cbn [and_then].
  rewrite item_short by lia. reflexivity.
Qed.

Lemma read_progress_unparsable (out : FileState) (row field : str) :
  get_last_csv_row out = Ok row ->
  item 3 (split ","%char row) = Ok field ->
  CaseId.parse field = None ->
  read_progress out = Raise ValueError.
Proof.
  intros Hrow Hf Hp. unfold read_progress. rewrite Hrow. cbn [and_then].
  rewrite Hf. cbn [and_then]. unfold CaseId.parse in Hp.
  destruct (CaseId.parse_year field); cbn [int_or_raise and_then]; [|reflexivity].
  destruct (CaseId.parse_case field); [discriminate | reflexivity].
Qed.


Example header_only_is_fatal :
  recover (Contents (lit "_id,_state,_county,PortalID,CaseNum
")) = Raise ValueError.
Proof. reflexivity. Qed.

Example last_row_resumes :
  recover (Contents (lit "_id,_state,_county,PortalID,CaseNum
7f,FL,Bay,21000417,21000417CFMA
")) = Ok (Some (2021, 417)).
Proof. reflexivity. Qed.

End CheckpointProps.

(** ** The scan loop *)

Section ScannerProps.

Import Checkpoint Scanner.

Variable W : Type.
Variable FLAGS : Flags.
Variable search_portal : str -> M W (option (list str)).
Variable scrape_record : str -> M W unit.
Variable delete_all_cookies : W -> W.

Local Abbreviation Scan := (Scanner.Scan W).
Local Abbreviation scan_year := (Scanner.scan_year W FLAGS search_portal scrape_record delete_all_cookies).
Local Abbreviation scan_years := (Scanner.scan_years W FLAGS search_portal scrape_record delete_all_cookies).
Local Abbreviation scrape_additional := (Scanner.scrape_additional W search_portal scrape_record).
Local Abbreviation begin_scrape := (Scanner.begin_scrape W FLAGS search_portal scrape_record delete_all_cookies).
Local Abbreviation call_search_portal := (Scanner.call_search_portal W search_portal).
Local Abbreviation call_scrape_record := (Scanner.call_scrape_record W scrape_record).
Local Abbreviation reset_cookies := (Scanner.reset_cookies W delete_all_cookies).
Local Abbreviation emit := (Scanner.emit W).
Local Abbreviation lift := (Scanner.lift W).

Lemma triple_emit (e : ScanEvent) (P Q : list ScanEvent -> Prop) (E : Scan -> Prop) :
  (forall l, P l -> Q (l ++ [e])) ->
  triple (on_timeline P) (emit e) (fun _ => on_timeline Q) E.
Proof. intros H s Hs. cbv [Scanner.emit on_timeline timeline]. cbn. now apply H. Qed.

Lemma triple_lift {A} (m : M W A) (P : list ScanEvent -> Prop) :
  triple (on_timeline P) (lift m) (fun _ => on_timeline P) (on_timeline P).
Proof.
  intros s Hs. unfold Scanner.lift.
  destruct (m (world s)) as [[a|e|] w]; exact Hs.
Qed.

Lemma triple_call_search (c : str) (P Q : list ScanEvent -> Prop) :
  (forall l, P l -> Q (l ++ [Searched c])) ->
  triple (on_timeline P) (call_search_portal c) (fun _ => on_timeline Q) (on_timeline Q).
Proof.
  intros H. unfold Scanner.call_search_portal.
  eapply triple_bind with (Q := fun _ => on_timeline Q);
    [apply triple_emit; exact H | intros ?; apply triple_lift].
Qed.

Lemma triple_call_scrape (c : str) (P Q : list ScanEvent -> Prop) :
  (forall l, P l -> Q (l ++ [Scraped c])) ->
  triple (on_timeline P) (call_scrape_record c) (fun _ => on_timeline Q) (on_timeline Q).
Proof.
  intros H. unfold Scanner.call_scrape_record.
  eapply triple_bind with (Q := fun _ => on_timeline Q);
    [apply triple_emit; exact H | intros ?; apply triple_lift].
Qed.

Lemma triple_reset (P Q : list ScanEvent -> Prop) (E : Scan -> Prop) :
  (forall l, P l -> Q (l ++ [CookiesReset])) ->
  triple (on_timeline P) reset_cookies (fun _ => on_timeline Q) E.
Proof. intros H s Hs. cbv [Scanner.reset_cookies Scanner.emit Scanner.lift bind on_timeline timeline]. cbn. now apply H. Qed.

(** *** Conditions that every event of a year's loop preserves *)

Lemma scrape_additional_preserves (I : list ScanEvent -> Prop) (cases : list str) :
  year_stable I ->
  forall c, triple (on_timeline I) (scrape_additional cases c)
                   (fun _ => on_timeline I) (on_timeline I).
Proof.
  intros HI. induction cases as [|case rest IH]; intros c.
  - now apply triple_ret.
  - cbn [Scanner.scrape_additional].
    eapply triple_bind; [apply triple_call_search; intros l; now apply HI|].
    intros ?. eapply triple_bind; [apply triple_call_scrape; intros l; now apply HI|].
    intros ?. apply IH.
Qed.

(** One round of the loop: the search takes [I] to [J], and everything
    after it keeps [J]. *)
Lemma scan_year_round (I J : list ScanEvent -> Prop) (fuel : nat) :
  year_stable J ->
  (forall year YY N m c,
     triple (on_timeline J) (scan_year fuel year YY N m c)
            (fun _ => on_timeline J) (on_timeline J)) ->
  forall year YY N m c,
    (m <? missing_thresh FLAGS) = true ->
    (forall l, I l -> J (l ++ [Searched (format_0 2 YY ++ format_0 6 N)])) ->
    triple (on_timeline I) (scan_year (S fuel) year YY N m c)
           (fun _ => on_timeline J) (on_timeline J).
Proof.
  intros HJ IH year YY N m c Hm HIJ.
  cbn [Scanner.scan_year]. rewrite Hm.
  eapply triple_bind; [apply triple_call_search; exact HIJ|].
  intros r. cbv zeta.
  eapply triple_bind with (Q := fun _ => on_timeline J).
  { destruct (truthy r).
    - destruct (1 <? _).
      + eapply triple_bind; [now apply scrape_additional_preserves|].
        intros c'. now apply triple_ret.
      + eapply triple_bind; [apply triple_call_scrape; intros l; now apply HJ|].
        intros ?. now apply triple_ret.
    - eapply triple_bind; [apply triple_emit; intros l; now apply HJ|].
      intros ?. now apply triple_ret. }
  intros counts.
  eapply triple_bind; [apply triple_emit; intros l; now apply HJ|].
  intros ?.
  eapply triple_bind with (Q := fun _ => on_timeline J).
  { destruct (snd counts >=? 5).
    - eapply triple_bind; [apply triple_reset; intros l; now apply HJ|].
      intros ?. now apply triple_ret.
    - now apply triple_ret. }
  intros c'. apply IH.
Qed.

Lemma scan_year_preserves (I : list ScanEvent -> Prop) (fuel : nat) :
  year_stable I ->
  forall year YY N m c,
    triple (on_timeline I) (scan_year fuel year YY N m c)
           (fun _ => on_timeline I) (on_timeline I).
Proof.
  intros HI. induction fuel as [|fuel IH]; intros year YY N m c.
  - now apply triple_out_of_fuel.
  - destruct (m <? missing_thresh FLAGS) eqn:Hm.
    + apply scan_year_round; auto.
    + cbn [Scanner.scan_year]. rewrite Hm. now apply triple_ret.
Qed.

Lemma stable_year_stable (I : list ScanEvent -> Prop) : stable I -> year_stable I.
Proof. intros H l e _. apply H. Qed.


(** *** The reset rule *)









Section Tracking.

Variable l0 : list ScanEvent.

Local Abbreviation somewhere := (reached W l0).









End Tracking.

(** *** Where each year starts *)

Lemma year_starts_app (a b : list ScanEvent) :
  year_starts (a ++ b) = year_starts a ++ year_starts b.
Proof. apply flat_map_app. Qed.

Lemma searches_app (a b : list ScanEvent) :
  searches (a ++ b) = searches a ++ searches b.
Proof. apply flat_map_app. Qed.

Lemma starts_are_year_stable (l0 : list ScanEvent) (done : list (Z * Z)) :
  year_stable (starts_are l0 done).
Proof.
  intros l e He (new & -> & H). exists (new ++ [e]).
  split; [now rewrite app_assoc|].
  rewrite year_starts_app, H. destruct e; try discriminate; apply app_nil_r.
Qed.

Lemma first_search_stable (l0 : list ScanEvent) (c : str) :
  stable (first_search l0 c).
Proof.
  intros l e (new & -> & H). exists (new ++ [e]).
  split; [now rewrite app_assoc|].
  rewrite searches_app. destruct (searches new); [discriminate | exact H].
Qed.

Lemma expected_starts_rest (rest : list Z) (last_case : Z) :
  expected_starts rest false last_case = map (fun y => (y, 1)) rest.
Proof. destruct rest; reflexivity. Qed.

Lemma scan_years_starts (l0 : list ScanEvent) (fuel : nat) (years : list Z) :
  forall continuing last_case done,
    triple (on_timeline (starts_are l0 done))
      (scan_years fuel years continuing last_case)
      (fun _ => on_timeline
         (starts_are l0 (done ++ expected_starts years continuing last_case)))
      (on_timeline (fun l => exists k,
         starts_are l0 (done ++ firstn k (expected_starts years continuing last_case)) l)).
Proof.
  induction years as [|year rest IH]; intros continuing last_case done.
  - apply triple_ret. intros s Hs. unfold on_timeline. cbn. now rewrite app_nil_r.
  - cbn [Scanner.scan_years].
    set (N := if continuing then last_case + 1 else 1).
    eapply triple_bind with (Q := fun _ => on_timeline (starts_are l0 (done ++ [(year, N)]))).
    { apply triple_emit. intros l (new & -> & H).
      exists (new ++ [YearStarted year N]). split; [now rewrite app_assoc|].
      rewrite year_starts_app, H. reflexivity. }
    intros ?. cbv zeta.
    eapply triple_bind with (Q := fun _ => on_timeline (starts_are l0 (done ++ [(year, N)]))).
    { eapply triple_weaken.
      - apply (scan_year_preserves (starts_are l0 (done ++ [(year, N)]))).
        apply starts_are_year_stable.
      - auto.
      - auto.
      - intros s Hs. unfold on_timeline in *. exists 1%nat. exact Hs. }
    intros ?.
    eapply triple_weaken; [apply (IH false last_case (done ++ [(year, N)])) | auto | |].
    + intros ? s Hs. unfold on_timeline in *.
      rewrite expected_starts_rest, <- app_assoc in Hs. exact Hs.
    + intros s (k & Hs). unfold on_timeline. exists (S k).
      rewrite expected_starts_rest, <- app_assoc in Hs. exact Hs.
Qed.


Lemma range_down_head (hi lo : Z) :
  lo < hi -> exists rest, range_down hi lo = hi :: rest.
Proof.
  intros H. unfold range_down.
  destruct (Z.to_nat (hi - lo)) as [|k] eqn:E; [lia|].
  cbn [seq map]. eexists. f_equal. lia.
Qed.

(** *** The claims about the scan loop *)


(** C3, as the code has it.  A sequence over 999999 raises nothing: the
    case number is the two-digit year followed by all the digits of the
    sequence, nine characters or more, and the scanner searches for it. *)
Theorem long_sequence_is_searched (year N : Z) (fuel : nat) (m c : Z) (s : Scan) :
  999999 < N -> m < missing_thresh FLAGS ->
  py_int (format_0 6 N) = Some N
  /\ (9 <= List.length (CaseId.case_number year N))%nat
  /\ exists new,
       timeline (snd (scan_year (S fuel) year (year mod 100) N m c s)) = timeline s ++ new
       /\ hd_error (searches new) = Some (CaseId.case_number year N).
Proof.
  intros HN Hm.
  destruct (case_number_long year N HN) as (Hint & _ & Hlen).
  split; [exact Hint|]. split; [exact Hlen|].
  assert (T : triple (on_timeline (no_search (timeline s)))
                (scan_year (S fuel) year (year mod 100) N m c)
                (fun _ => on_timeline (first_search (timeline s) (CaseId.case_number year N)))
                (on_timeline (first_search (timeline s) (CaseId.case_number year N)))).
  { apply scan_year_round.
    - apply stable_year_stable, first_search_stable.
    - apply scan_year_preserves, stable_year_stable, first_search_stable.
    - now apply Z.ltb_lt.
    - intros l (new & -> & H).
      exists (new ++ [Searched (CaseId.case_number year N)]).
      split; [now rewrite app_assoc|]. rewrite searches_app, H. reflexivity. }
  assert (P0 : on_timeline (no_search (timeline s)) s).
  { exists []. split; [now rewrite app_nil_r | reflexivity]. }
  specialize (T s P0).
  destruct (scan_year (S fuel) year (year mod 100) N m c s) as [[a|e|] s']; exact T.
Qed.


(** C6.  Recovery gives no checkpoint exactly when the output file is
    missing.  Any other exception raised while reading it is raised by
    [begin_scrape] before anything is scanned: an empty file and a last line
    short of four fields raise [IndexError], a fourth field that does not
    parse raises [ValueError]. *)
Theorem checkpoint_missing_or_fatal (out : FileState) (fuel : nat) (s : Scan) :
  (recover out = Ok None <-> out = Missing)
  /\ (forall e, out <> Missing -> read_progress out = Raise e ->
        begin_scrape fuel out s = (Raise e, s))
  /\ read_progress (Contents []) = Raise IndexError
  /\ (forall row, get_last_csv_row out = Ok row ->
        (List.length (split ","%char row) < 4)%nat ->
        read_progress out = Raise IndexError)
  /\ (forall row field, get_last_csv_row out = Ok row ->
        item 3 (split ","%char row) = Ok field ->
        CaseId.parse field = None ->
        read_progress out = Raise ValueError).
Proof.
  split; [apply recover_none_iff|].
  split.
  { intros e Hm He. unfold Scanner.begin_scrape.
    now rewrite (recover_raises out e Hm He). }
  split; [reflexivity|].
  split.
  - intros row. apply read_progress_short_row.
  - intros row field. apply read_progress_unparsable.
Qed.

End ScannerProps.

(** *** The scan loop on concrete portals *)

Section ScannerExamples.

Import Checkpoint Scanner.

(** The rule [cadence] rejects a timeline whose fifth search is not
    followed by a reset, and one with a reset after four. *)
Example cadence_needs_reset :
  cadence 4 [Searched (lit "21000005"); Missed (lit "21000005");
             Completed (lit "21000005"); Searched (lit "21000006")] = false.
Proof. reflexivity. Qed.

Example cadence_no_early_reset :
  cadence 3 [Searched (lit "21000004"); Completed (lit "21000004"); CookiesReset] = false.
Proof. reflexivity. Qed.


(** C3, as stated, fails: after case 21999999 the scanner generates and
    searches the nine-character case number 211000000. *)
Lemma sequence_over_six_digits_searched :
  CaseId.case_number 2021 1000000 = lit "211000000"
  /\ searches (timeline (snd (FakeScan.scan_nothing 1 2 FakeScan.full_output FakeScan.start)))
     = [lit "211000000"].
Proof. vm_compute. split; reflexivity. Qed.

Lemma long_sequence_is_searched_witness :
  py_int (format_0 6 1000000) = Some 1000000
  /\ (9 <= List.length (CaseId.case_number 2021 1000000))%nat
  /\ exists new,
       timeline (snd (scan_year unit (FakeScan.flags 5) FakeScan.nothing_found
                        FakeScan.extract (fun w => w) 1 2021 (2021 mod 100)
                        1000000 0 0 FakeScan.start))
       = timeline FakeScan.start ++ new
       /\ hd_error (searches new) = Some (CaseId.case_number 2021 1000000).
Proof.
  apply (long_sequence_is_searched unit (FakeScan.flags 5) FakeScan.nothing_found
           FakeScan.extract (fun w => w) 2021 1000000 0 0 0 FakeScan.start).
  - lia.
  - reflexivity.
Defined.

Lemma checkpoint_missing_or_fatal_witness :
  FakeScan.scan_nothing 5 3 (Contents (lit "a,b,c")) FakeScan.start
  = (Raise IndexError, FakeScan.start).
Proof.
  apply (proj1 (proj2 (checkpoint_missing_or_fatal unit (FakeScan.flags 5)
                         FakeScan.nothing_found FakeScan.extract (fun w => w)
                         (Contents (lit "a,b,c")) 3 FakeScan.start))).
  - discriminate.
  - reflexivity.
Defined.

End ScannerExamples.

(** ** The record sink *)

Section SinkProps.

Import Sink.

Variable writerow : list Cell -> str.

Lemma write_charges_concat (record : BenchmarkRecord) (cs : list Charge) :
  forall outfile,
    fold_left (fun text charge => text ++ writerow (charge_row record charge)) cs outfile
    = outfile ++ List.concat (map (fun charge => writerow (charge_row record charge)) cs).
Proof.
  induction cs as [|c cs IH]; intros outfile.
  - cbn. now rewrite app_nil_r.
  - cbn [fold_left map List.concat]. rewrite IH. now rewrite <- app_assoc.
Qed.

(** C10.  [write_csv] leaves the file's text (the row of the 35 headings
    when there was no file) followed by one row per charge of the record, in
    order.  Each row has 35 cells, one under each heading: the 22 fields of
    the record from its id to its judge, the 11 fields of that one charge
    from its count to its plea date, and the record's arresting officer and
    badge number.  So a record without charges adds nothing to an existing
    file and leaves a new file with its heading row only. *)
Theorem write_csv_row_per_charge (output_file : option str) (record : BenchmarkRecord) :
  let heading :=
    map (fun s => PyStr (lit s))
      ["_id"; "_state"; "_county"; "PortalID"; "CaseNum"; "AgencyReportNum"; "PartyID";
       "FirstName"; "MiddleName"; "LastName"; "Suffix"; "DOB"; "Race"; "Sex";
       "ArrestDate"; "FilingDate"; "OffenseDate"; "DivisionName"; "CaseStatus";
       "DefenseAttorney"; "PublicDefender"; "Judge"; "ChargeCount"; "ChargeStatute";
       "ChargeDescription"; "ChargeLevel"; "ChargeDegree"; "ChargeDisposition";
       "ChargeDispositionDate"; "ChargeOffenseDate"; "ChargeCitationNum"; "ChargePlea";
       "ChargePleaDate"; "ArrestingOfficer"; "ArrestingOfficerBadgeNumber"]%string in
  let row (charge : Charge) :=
    [id record; rec_state record; rec_county record; portal_id record; case_num record;
     agency_report_num record; party_id record; first_name record; middle_name record;
     last_name record; suffix record; dob record; race record; sex record;
     arrest_date record; filing_date record; offense_date record; division_name record;
     case_status record; defense_attorney record; public_defender record; judge record;
     count charge; statute charge; description charge; level charge; degree charge;
     disposition charge; disposition_date charge; charge_offense_date charge;
     citation_number charge; plea charge; plea_date charge;
     arresting_officer record; arresting_officer_badge_number record] in
  let before :=
    match output_file with
    | Some text => text
    | None => writerow heading
    end in
  write_csv writerow output_file record
  = before ++ List.concat (map (fun charge => writerow (row charge)) (charges record))
  /\ (forall charge, List.length (row charge) = List.length heading)
  /\ (charges record = [] -> write_csv writerow output_file record = before).
Proof.
  cbv zeta. split; [|split].
  - unfold write_csv, write_charges.
    destruct output_file; apply write_charges_concat.
  - intros charge. reflexivity.
  - intros H. unfold write_csv, write_charges. rewrite H.
    destruct output_file; reflexivity.
Qed.

End SinkProps.

Lemma write_csv_row_per_charge_witness :
  Sink.write_csv FakeSink.writerow (Some (lit "kept")) (FakeSink.case_with []) = lit "kept"
  /\ Sink.write_csv FakeSink.writerow None (FakeSink.case_with [FakeSink.theft])
     = lit "_id,_state,_county,PortalID,CaseNum,AgencyReportNum,PartyID,FirstName,"
       ++ lit "MiddleName,LastName,Suffix,DOB,Race,Sex,ArrestDate,FilingDate,OffenseDate,"
       ++ lit "DivisionName,CaseStatus,DefenseAttorney,PublicDefender,Judge,ChargeCount,"
       ++ lit "ChargeStatute,ChargeDescription,ChargeLevel,ChargeDegree,ChargeDisposition,"
       ++ lit "ChargeDispositionDate,ChargeOffenseDate,ChargeCitationNum,ChargePlea,"
       ++ lit "ChargePleaDate,ArrestingOfficer,ArrestingOfficerBadgeNumber"
       ++ ["013"%char; "010"%char]
       ++ lit "7f,FL,Bay,21000417,21000417CFMA,,,,,,,,,,,,,,,,,,1,812.014,THEFT,M,F,,,,,,,,"
       ++ ["013"%char; "010"%char].
Proof.
  split.
  - apply (proj2 (proj2 (write_csv_row_per_charge FakeSink.writerow (Some (lit "kept"))
                           (FakeSink.case_with [])))).
    reflexivity.
  - rewrite (proj1 (write_csv_row_per_charge FakeSink.writerow None
                      (FakeSink.case_with [FakeSink.theft]))).
    reflexivity.
Defined.

Example write_csv_two_charges :
  Sink.write_csv FakeSink.writerow (Some (lit "kept"))
    (FakeSink.case_with [FakeSink.theft; FakeSink.theft])
  = lit "kept"
    ++ FakeSink.writerow (Sink.charge_row (FakeSink.case_with []) FakeSink.theft)
    ++ FakeSink.writerow (Sink.charge_row (FakeSink.case_with []) FakeSink.theft).
Proof. reflexivity. Qed.

(** ** The portal search, over any driver *)

Section SearchProps.

Variable D : Type.
Variable drv : Driver D.
Variable FLAGS : Flags.

Local Abbreviation wait_until := (Search.wait_until D drv).
Local Abbreviation load_page := (Search.load_page D drv FLAGS).
Local Abbreviation select_case_input := (Search.select_case_input D drv FLAGS).
Local Abbreviation case_search_loop := (Search.case_search_loop D drv FLAGS).
Local Abbreviation submit_search := (Search.submit_search D drv FLAGS).
Local Abbreviation evaluate := (Search.evaluate D drv FLAGS).
Local Abbreviation search_portal := (Search.search_portal D drv FLAGS).
Local Abbreviation get_search_case_count := (Search.get_search_case_count D drv FLAGS).
Local Abbreviation page_error := (Search.page_error FLAGS).
Local Abbreviation search_page := (Search.search_page FLAGS).

Lemma str_eqb_refl (a : str) : str_eqb a a = true.
Proof.
  induction a as [|x a IH]; [reflexivity|].
  cbn. unfold ascii_eqb. now rewrite Ascii.eqb_refl, IH.
Qed.

Lemma str_eqb_eq (a b : str) : str_eqb a b = true -> a = b.
Proof.
  revert b. induction a as [|x a IH]; intros [|y b] H; try discriminate; [reflexivity|].
  cbn in H. apply andb_true_iff in H as [Hx Hab].
  apply Ascii.eqb_eq in Hx. f_equal; auto.
Qed.

Lemma wait_until_timeout (c : Cond) (w : World D) :
  (forall c d, fst (drv_wait drv c d) = false) ->
  wait_until c w
  = (Ok false, Search.record D (EvWait c false) (snd (drv_wait drv c (browser w))) (log w)).
Proof.
  intros H. unfold Search.wait_until. specialize (H c (browser w)).
  destruct (drv_wait drv c (browser w)) as [h d]. cbn in *. now subst.
Qed.

(** With a budget of 3 and no wait ever holding, [load_page] asks for the
    page three times, waits three times, and raises. *)
Lemma load_page_timeout (url t : str) (w : World D) :
  connect_thresh FLAGS = 3 ->
  (forall c d, fst (drv_wait drv c d) = false) ->
  exists d,
    load_page url t w
    = (Raise (RuntimeError (page_error url)),
       {| browser := d;
          log := EvWait (TitleContains t) false :: EvGet url
                 :: EvWait (TitleContains t) false :: EvGet url
                 :: EvWait (TitleContains t) false :: EvGet url :: log w |}).
Proof.
  intros H3 Hw. unfold Search.load_page. rewrite H3.
  change (Z.to_nat 3) with 3%nat. cbn [Search.load_page_loop].
  rewrite H3. unfold bind, Search.get. cbv beta.
  do 3 (rewrite wait_until_timeout by assumption;
        cbn -[Search.page_error Search.wait_until]).
  eexists. reflexivity.
Qed.

(** C8, as the code has it.  With [connect_thresh = 3] and no awaited page
    condition ever holding, a search raises [RuntimeError] after exactly
    three loads of the search page and three waits; the message names the
    page address and the number of attempts, whatever the case number. *)
Theorem search_fails_after_three_loads (fuel : nat) (case_number : str) (w : World D) :
  connect_thresh FLAGS = 3 ->
  (forall c d, fst (drv_wait drv c d) = false) ->
  let attempt := [EvGet search_page; EvWait (TitleContains (lit "Search")) false] in
  fst (search_portal (S fuel) case_number w)
  = Raise (RuntimeError (lit "Page " ++ search_page
                         ++ lit " could not be loaded after 3 attempts. Check connction."))
  /\ history (snd (search_portal (S fuel) case_number w))
     = history w ++ attempt ++ attempt ++ attempt.
Proof.
  intros H3 Hw attempt.
  destruct (load_page_timeout search_page (lit "Search") w H3 Hw) as (d & Hload).
  assert (Hrun : search_portal (S fuel) case_number w
                 = (Raise (RuntimeError (page_error search_page)),
                    {| browser := d;
                       log := rev (attempt ++ attempt ++ attempt) ++ log w |})).
  { cbn [Search.search_portal]. unfold Search.search_portal_body, Search.submit_search.
    unfold bind at 1 2. now rewrite Hload. }
  rewrite Hrun. cbn [fst snd]. split.
  - unfold Search.page_error. rewrite H3. reflexivity.
  - unfold history. cbn [log]. now rewrite rev_app_distr, rev_involutive.
Qed.

Lemma select_case_input_stuck (w w1 : World D) (d2 d3 : D) :
  case_search_loop 0 (Z.to_nat (connect_thresh FLAGS)) w = (Ok tt, w1) ->
  drv_find_text drv Search.case_selector_xpath (browser w1) <> None ->
  drv_click drv Search.case_selector_xpath (browser w1) = (true, d2) ->
  drv_find_text drv (ById (lit "caseNumber")) d2 <> None ->
  drv_click drv (ById (lit "caseNumber")) d2 = (false, d3) ->
  fst (select_case_input w)
  = match drv_find_text drv Search.name_selector_xpath d3 with
    | Some _ => Raise (AttributeError (lit "cick"))
    | None => Raise NoSuchElementException
    end.
Proof.
  intros Hloop Hsel Hclick Hinput Hstuck.
  destruct (drv_find_text drv Search.case_selector_xpath (browser w1)) as [t1|] eqn:E1;
    [clear Hsel | congruence].
  destruct (drv_find_text drv (ById (lit "caseNumber")) d2) as [t2|] eqn:E2;
    [clear Hinput | congruence].
  unfold Search.select_case_input, bind, try_except, Search.find_element,
    Search.call_method, Search.click.
  change (str_eqb (lit "click") (lit "click")) with true.
  rewrite Hloop. cbv beta iota. rewrite E1. cbv beta iota.
  rewrite Hclick. cbn [browser log Search.record]. cbv beta iota.
  rewrite E2. cbn [browser log Search.record]. cbv beta iota.
  rewrite Hstuck. cbn [is_NotInteractable browser log Search.record]. cbv beta iota.
  destruct (drv_find_text drv Search.name_selector_xpath d3); reflexivity.
Qed.

(** C9 fails on the code.  When the case-number box is there but does not
    take the click, [select_case_input] raises: the call on the Name
    selector is spelt [cick], which no element has. *)
Theorem select_case_input_recovery_raises (w w1 : World D) (d2 d3 : D) :
  case_search_loop 0 (Z.to_nat (connect_thresh FLAGS)) w = (Ok tt, w1) ->
  drv_find_text drv Search.case_selector_xpath (browser w1) <> None ->
  drv_click drv Search.case_selector_xpath (browser w1) = (true, d2) ->
  drv_find_text drv (ById (lit "caseNumber")) d2 <> None ->
  drv_click drv (ById (lit "caseNumber")) d2 = (false, d3) ->
  is_raise (fst (select_case_input w)) = true
  /\ (drv_find_text drv Search.name_selector_xpath d3 <> None ->
      fst (select_case_input w) = Raise (AttributeError (lit "cick"))).
Proof.
  intros Hloop Hsel Hclick Hinput Hstuck.
  rewrite (select_case_input_stuck w w1 d2 d3 Hloop Hsel Hclick Hinput Hstuck).
  destruct (drv_find_text drv Search.name_selector_xpath d3).
  - split; [reflexivity | intros _; reflexivity].
  - split; [reflexivity | congruence].
Qed.

Lemma results_title_not_plain (page_title : str) :
  contains (lit "Search Results: CaseNumber:") page_title = true ->
  str_eqb page_title (lit "Search") = false.
Proof.
  intros H. destruct (str_eqb page_title (lit "Search")) eqn:E; [|reflexivity].
  apply str_eqb_eq in E. subst. discriminate.
Qed.

(** A search whose submission went through is the reading of the title. *)
Lemma search_portal_after_submit (fuel : nat) (case_number : str) (w w1 : World D) :
  submit_search fuel case_number w = (Ok tt, w1) ->
  search_portal (S fuel) case_number w
  = evaluate (search_portal fuel) case_number 0 (Z.to_nat (connect_thresh FLAGS)) w1.
Proof.
  intros H. cbn [Search.search_portal]. unfold Search.search_portal_body.
  unfold bind at 1. now rewrite H.
Qed.

(** One round of the reading loop in which the wait holds and the title is
    not the plain search page. *)
Lemma evaluate_landed (self : str -> M (World D) (option (list str)))
    (case_number : str) (i : Z) (n : nat) (w1 : World D) (d2 : D) :
  drv_wait drv (SearchLanded case_number) (browser w1) = (true, d2) ->
  str_eqb (drv_title drv d2) (lit "Search") = false ->
  let w2 := Search.record D (EvWait (SearchLanded case_number) true) d2 (log w1) in
  evaluate self case_number i (S n) w1
  = if contains (lit "Search Results: CaseNumber:") (drv_title drv d2) then
      (case_count <- get_search_case_count ;;
       if case_count >? 1
       then cases <- Search.get_associated_cases D drv ;; ret (Some cases)
       else ret (Some [])) w2
    else if contains case_number (drv_title drv d2) then (Ok (Some [case_number]), w2)
    else evaluate self case_number (i + 1) n w2.
Proof.
  intros Hwait Hplain w2. cbn [Search.evaluate].
  unfold bind at 1. unfold Search.wait_until at 1. rewrite Hwait.
  cbv beta iota. fold w2.
  unfold bind at 1. unfold Search.title at 1. cbn [browser w2 Search.record].
  rewrite Hplain.
  destruct (contains (lit "Search Results: CaseNumber:") (drv_title drv d2));
    [reflexivity|].
  destruct (contains case_number (drv_title drv d2)); reflexivity.
Qed.

(** One round of the reading loop that finds the plain search page: the
    cookies are cleared, the search is called again for the same case
    number, and the loop goes on to its next round. *)
Lemma evaluate_plain (self : str -> M (World D) (option (list str)))
    (case_number : str) (i : Z) (n : nat) (w1 : World D) (d2 : D) :
  drv_wait drv (SearchLanded case_number) (browser w1) = (true, d2) ->
  str_eqb (drv_title drv d2) (lit "Search") = true ->
  evaluate self case_number i (S n) w1
  = (self case_number ;; evaluate self case_number (i + 1) n)
      (Search.record D EvDeleteAllCookies (drv_delete_all_cookies drv d2)
         (EvWait (SearchLanded case_number) true :: log w1)).
Proof.
  intros Hwait Hplain. cbn [Search.evaluate].
  unfold bind at 1. unfold Search.wait_until at 1. rewrite Hwait.
  cbv beta iota.
  unfold bind at 1. unfold Search.title at 1. cbn [browser Search.record].
  rewrite Hplain.
  unfold bind at 1. unfold try_except, bind at 1. unfold Search.find_element.
  cbn [browser Search.record].
  destruct (drv_find_text drv Search.alert_xpath d2); reflexivity.
Qed.

End SearchProps.

(** ** The portal search on the scripted portal *)

Section SearchExamples.

Import FakePortal.

Lemma search_fails_after_three_loads_witness :
  fst (Search.search_portal Browser stalled_driver (flags 3) 1 (lit "21000001") unreachable)
  = Raise (RuntimeError
             (lit "Page " ++ Search.search_page (flags 3)
              ++ lit " could not be loaded after 3 attempts. Check connction.")).
Proof.
  apply (search_fails_after_three_loads Browser stalled_driver (flags 3) 0
           (lit "21000001") unreachable).
  - reflexivity.
  - intros c d. reflexivity.
Defined.

(** C8, as stated, fails: the error raised when the loads are exhausted
    names the page and the three attempts, not the case number. *)
Lemma exhaustion_error_names_the_page :
  fst (search_portal 3 1 (lit "21000001") unreachable)
  = Raise (RuntimeError (lit "Page https://court.baycoclerk.com/BenchmarkWeb2//Home.aspx/Search could not be loaded after 3 attempts. Check connction."))
  /\ contains (lit "21000001")
       (lit "Page https://court.baycoclerk.com/BenchmarkWeb2//Home.aspx/Search could not be loaded after 3 attempts. Check connction.")
     = false
  /\ count_events is_wait (log (snd (search_portal 3 1 (lit "21000001") unreachable)))
     = 3%nat.
Proof. vm_compute. repeat split. Qed.

Lemma select_case_input_recovery_raises_witness :
  fst (Search.select_case_input Browser driver (flags 3) stuck_input)
  = Raise (AttributeError (lit "cick")).
Proof.
  apply (select_case_input_recovery_raises Browser driver (flags 3)
           stuck_input stuck_after_wait
           (browser stuck_after_wait) (browser stuck_after_wait)).
  - reflexivity.
  - discriminate.
  - reflexivity.
  - discriminate.
  - reflexivity.
  - discriminate.
Defined.

Example results_page_lists_cases :
  fst (Search.evaluate Browser driver (flags 3) (search_portal 3 0) (lit "21000001") 0 3
         (showing (lit "Search Results: CaseNumber: 21000001")
                  (lit "CASES FOUND
2") [lit "21000001CFMA"; lit "21000001MMMA"]))
  = Ok (Some [lit "21000001CFMA"; lit "21000001MMMA"]).
Proof. reflexivity. Qed.

Example results_page_one_case_is_not_found :
  fst (Search.evaluate Browser driver (flags 3) (search_portal 3 0) (lit "21000001") 0 3
         (showing (lit "Search Results: CaseNumber: 21000001")
                  (lit "CASES FOUND
1") [lit "21000001CFMA"]))
  = Ok (Some []).
Proof. reflexivity. Qed.

End SearchExamples.

(** ** Restarts on the plain search page *)

Section Restarts.

Import FakePortal.

Variable thresh : Z.
Hypothesis thresh_pos : 1 <= thresh.

Variable case_number : str.

Local Abbreviation load_page := (Search.load_page Browser driver (flags thresh)).
Local Abbreviation select_case_input := (Search.select_case_input Browser driver (flags thresh)).
Local Abbreviation case_search_loop := (Search.case_search_loop Browser driver (flags thresh)).
Local Abbreviation submit_search := (Search.submit_search Browser driver (flags thresh)).
Local Abbreviation evaluate := (Search.evaluate Browser driver (flags thresh)).
Local Abbreviation search_page := (Search.search_page (flags thresh)).

Lemma tally_app (new l : list Event) :
  tally case_number (new ++ l) = tally_add (tally case_number new) (tally case_number l).
Proof.
  unfold tally, tally_add, count_events. now rewrite !filter_app, !length_app.
Qed.

Lemma tally_landings (n : nat) : tally case_number (repeat landing n) = (0, 0, 0)%nat.
Proof. induction n as [|n IH]; [reflexivity | exact IH]. Qed.

Lemma fake_load_page (t : str) (a : list str) (l : list Event) :
  load_page search_page (lit "Search") (at_page t a l)
  = (Ok tt, at_page (lit "Search") a
              (EvWait (TitleContains (lit "Search")) true :: EvGet search_page :: l)).
Proof.
  unfold Search.load_page. cbn [connect_thresh flags].
  destruct (Z.to_nat thresh) as [|n] eqn:E; [lia|]. reflexivity.
Qed.

Lemma fake_case_search_loop (a : list str) (n : nat) :
  forall i l,
    case_search_loop i n (at_page (lit "Search") a l)
    = (Ok tt, at_page (lit "Search") a (repeat landing n ++ l)).
Proof.
  induction n as [|n IH]; intros i l; [reflexivity|].
  cbn [Search.case_search_loop]. unfold bind at 1.
  change (Search.wait_until Browser driver
            (TextPresentInElement (ById (lit "title")) (lit "Case Search"))
            (at_page (lit "Search") a l))
    with (@Ok bool true, at_page (lit "Search") a (landing :: l)).
  cbv beta iota. unfold bind at 1. cbn [ret]. cbv beta iota.
  rewrite IH. change (landing :: l) with ([landing] ++ l).
  rewrite app_assoc. rewrite <- repeat_cons. reflexivity.
Qed.

Lemma fake_select_case_input (a : list str) (l : list Event) :
  select_case_input (at_page (lit "Search") a l)
  = (Ok (ById (lit "caseNumber")),
     at_page (lit "Search") a
       (EvClick (ById (lit "caseNumber")) true
        :: EvClick Search.case_selector_xpath true
        :: repeat landing (Z.to_nat thresh) ++ l)).
Proof.
  unfold Search.select_case_input. unfold bind at 1.
  cbn [connect_thresh flags]. rewrite fake_case_search_loop. reflexivity.
Qed.

(** One submission on the scripted portal: the page is loaded, the case
    number typed, Search pressed, and the next answer shown. *)
Lemma fake_submit (fuel : nat) (t next : str) (a : list str) (l : list Event) :
  exists l',
    submit_search fuel case_number (at_page t (next :: a) l)
    = (Ok tt, at_page next a l')
    /\ tally case_number l' = tally_add (0, 1, 1)%nat (tally case_number l).
Proof.
  exists ([EvClick (ById (lit "searchButton")) true;
           EvSendKeys (ById (lit "caseNumber")) case_number;
           EvClick (ById (lit "caseNumber")) true;
           EvClick (ById (lit "caseNumber")) true;
           EvClick Search.case_selector_xpath true]
          ++ repeat landing (Z.to_nat thresh)
          ++ [EvWait (TitleContains (lit "Search")) true; EvGet search_page] ++ l).
  split.
  - unfold Search.submit_search. unfold bind at 1. rewrite fake_load_page.
    cbv beta iota. unfold bind at 1. rewrite fake_select_case_input.
    reflexivity.
  - rewrite !tally_app, tally_landings.
    unfold tally at 1 2, count_events.
    cbn [filter is_delete_all_cookies is_get is_send_keys_of].
    rewrite str_eqb_refl. cbn [List.length].
    destruct (tally case_number l) as [[x y] z]. reflexivity.
Qed.

Lemma fake_submit_plain (fuel : nat) (t : str) (l : list Event) :
  exists l',
    submit_search fuel case_number (at_page t [] l)
    = (Ok tt, at_page (lit "Search") [] l').
Proof.
  eexists. unfold Search.submit_search. unfold bind at 1. rewrite fake_load_page.
  cbv beta iota. unfold bind at 1. rewrite fake_select_case_input.
  reflexivity.
Qed.

(** On the plain search page the loop clears the cookies and calls the
    search again for the same case number, then goes on to its next round. *)
Lemma fake_evaluate_plain (self : str -> M (World Browser) (option (list str)))
    (i : Z) (n : nat) (a : list str) (l : list Event) :
  evaluate self case_number i (S n) (at_page (lit "Search") a l)
  = (self case_number ;; evaluate self case_number (i + 1) n)
      (at_page (lit "Search") a
         (EvDeleteAllCookies :: EvWait (SearchLanded case_number) true :: l)).
Proof. reflexivity. Qed.

Section CasePage.

Variable t : str.
Hypothesis t_not_plain : str_eqb t (lit "Search") = false.
Hypothesis t_not_results : contains (lit "Search Results: CaseNumber:") t = false.
Hypothesis t_names_case : contains case_number t = true.

Lemma fake_evaluate_case (self : str -> M (World Browser) (option (list str)))
    (i : Z) (n : nat) (a : list str) (l : list Event) :
  evaluate self case_number i (S n) (at_page t a l)
  = (Ok (Some [case_number]),
     at_page t a (EvWait (SearchLanded case_number) true :: l)).
Proof.
  rewrite (evaluate_landed Browser driver (flags thresh) self case_number i n
             (at_page t a l) (browser (at_page t a l))).
  - cbn [drv_title driver browser at_page page_title].
    now rewrite t_not_results, t_names_case.
  - cbn [drv_wait driver holds browser at_page page_title].
    now rewrite t_names_case, orb_true_r.
  - exact t_not_plain.
Qed.

Lemma restarts_tally (k : nat) :
  forall t0 l,
    exists r l',
      search_portal thresh (S k) case_number
        (at_page t0 (repeat (lit "Search") k ++ [t]) l)
      = (Ok r, at_page t [] l')
      /\ tally case_number l' = tally_add (k, S k, S k) (tally case_number l).
Proof.
  unfold search_portal.
  induction k as [|k IH]; intros t0 l.
  - cbn [repeat app].
    destruct (fake_submit 0 t0 t [] l) as (l1 & Hs & Ht).
    rewrite (search_portal_after_submit _ _ _ _ _ _ _ Hs).
    cbn [connect_thresh flags].
    destruct (Z.to_nat thresh) as [|n] eqn:E; [lia|].
    rewrite fake_evaluate_case. do 2 eexists. split; [reflexivity|].
    change (tally case_number (EvWait (SearchLanded case_number) true :: l1))
      with (tally case_number l1).
    exact Ht.
  - cbn [repeat app].
    destruct (fake_submit (S k) t0 (lit "Search") (repeat (lit "Search") k ++ [t]) l)
      as (l1 & Hs & Ht).
    rewrite (search_portal_after_submit _ _ _ _ _ _ _ Hs).
    cbn [connect_thresh flags].
    destruct (Z.to_nat thresh) as [|n] eqn:E; [lia|].
    rewrite fake_evaluate_plain. unfold bind at 1.
    destruct (IH (lit "Search")
                (EvDeleteAllCookies :: EvWait (SearchLanded case_number) true :: l1))
      as (r & l2 & Hrun & Ht2).
    rewrite Hrun. cbv beta iota.
    change (tally case_number
              (EvDeleteAllCookies :: EvWait (SearchLanded case_number) true :: l1))
      with (tally_add (1, 0, 0)%nat (tally case_number l1)) in Ht2.
    assert (Hsum : tally case_number l2
                   = tally_add (S k, S (S k), S (S k)) (tally case_number l)).
    { rewrite Ht2, Ht. destruct (tally case_number l) as [[x y] z].
      cbn [tally_add]. f_equal; [f_equal|]; lia. }
    destruct n as [|n].
    + do 2 eexists. split; [reflexivity | exact Hsum].
    + rewrite fake_evaluate_case. do 2 eexists. split; [reflexivity|].
      change (tally case_number (EvWait (SearchLanded case_number) true :: l2))
        with (tally case_number l2).
      exact Hsum.
Qed.

End CasePage.

(** A portal that keeps answering with the plain search page: the search
    calls itself again at every depth. *)
Lemma plain_pages_forever (fuel : nat) :
  forall t0 l,
    fst (search_portal thresh fuel case_number (at_page t0 [] l)) = OutOfFuel.
Proof.
  unfold search_portal.
  induction fuel as [|fuel IH]; intros t0 l; [reflexivity|].
  destruct (fake_submit_plain fuel t0 l) as (l1 & Hs).
  rewrite (search_portal_after_submit _ _ _ _ _ _ _ Hs).
  cbn [connect_thresh flags].
  destruct (Z.to_nat thresh) as [|n] eqn:E; [lia|].
  rewrite fake_evaluate_plain. unfold bind at 1.
  specialize (IH (lit "Search")
                (EvDeleteAllCookies :: EvWait (SearchLanded case_number) true :: l1)).
  destruct (Search.search_portal Browser driver (flags thresh) fuel case_number _)
    as [[r|e|] w']; cbn [fst] in IH; try discriminate. reflexivity.
Qed.

End Restarts.

(** C2, as the code has it.  On the plain search page the session clears
    the cookies and starts the search again from page loading for the same
    case number, by calling itself, each call with a loop of
    [connect_thresh] rounds of its own.  The restarts are as many as the
    plain pages the portal answers with, whatever [connect_thresh] is: [k]
    plain pages followed by the case page cost [k] cookie clears and [k + 1]
    loads and entries of the case number before the search returns; and on a
    portal that never stops answering with the plain page the search returns
    at no depth of calls. *)
Theorem restarts_follow_plain_pages (D : Type) (drv : Driver D) (FLAGS : Flags)
    (depth : nat) (w w1 : World D) (d2 : D)
    (thresh : Z) (case_number t : str) (k fuel : nat) :
  1 <= thresh ->
  str_eqb t (lit "Search") = false ->
  contains (lit "Search Results: CaseNumber:") t = false ->
  contains case_number t = true ->
  (Search.submit_search D drv FLAGS depth case_number w = (Ok tt, w1) ->
   0 < connect_thresh FLAGS ->
   drv_wait drv (SearchLanded case_number) (browser w1) = (true, d2) ->
   str_eqb (drv_title drv d2) (lit "Search") = true ->
   Search.search_portal D drv FLAGS (S depth) case_number w
   = (Search.search_portal D drv FLAGS depth case_number ;;
      Search.evaluate D drv FLAGS (Search.search_portal D drv FLAGS depth)
        case_number 1 (Z.to_nat (connect_thresh FLAGS) - 1))
       (Search.record D EvDeleteAllCookies (drv_delete_all_cookies drv d2)
          (EvWait (SearchLanded case_number) true :: log w1)))
  /\ (let run := FakePortal.search_portal thresh (S k) case_number
                   (FakePortal.fresh (repeat (lit "Search") k ++ [t])) in
      is_ok (fst run) = true
      /\ FakePortal.tally case_number (log (snd run)) = (k, S k, S k))
  /\ fst (FakePortal.search_portal thresh fuel case_number (FakePortal.fresh []))
     = OutOfFuel.
Proof.
  intros Hthresh H1 H2 H3. split; [|split].
  - intros Hsubmit Hpos Hwait Hplain.
    rewrite (search_portal_after_submit D drv FLAGS depth case_number w w1 Hsubmit).
    destruct (Z.to_nat (connect_thresh FLAGS)) as [|n] eqn:En; [lia|].
    rewrite (evaluate_plain D drv FLAGS _ case_number 0 n w1 d2 Hwait Hplain).
    cbn [Nat.sub]. now rewrite Nat.sub_0_r.
  - intros run.
    destruct (restarts_tally thresh Hthresh case_number t H1 H2 H3 k [] [])
      as (r & l' & Hrun & Ht).
    change (FakePortal.at_page [] (repeat (lit "Search") k ++ [t]) [])
      with (FakePortal.fresh (repeat (lit "Search") k ++ [t])) in Hrun.
    subst run. rewrite Hrun. cbn [fst snd is_ok log FakePortal.at_page].
    split; [reflexivity|].
    rewrite Ht. cbn. now rewrite !Nat.add_0_r.
  - apply (plain_pages_forever thresh Hthresh case_number fuel [] []).
Qed.

Lemma restarts_follow_plain_pages_witness :
  FakePortal.tally (lit "21000001")
    (log (snd (FakePortal.search_portal 2 4 (lit "21000001")
                 (FakePortal.fresh (repeat (lit "Search") 3
                                    ++ [lit "21000001 - STATE OF FLORIDA vs DOE, JOHN"])))))
  = (3, 4, 4)%nat.
Proof.
  apply (restarts_follow_plain_pages FakePortal.Browser FakePortal.driver
           (FakePortal.flags 2) 0 (FakePortal.fresh []) (FakePortal.fresh [])
           (browser (FakePortal.fresh []))
           2 (lit "21000001") (lit "21000001 - STATE OF FLORIDA vs DOE, JOHN") 3 0).
  - lia.
  - reflexivity.
  - reflexivity.
  - reflexivity.
Defined.

(** C2, as stated, fails: with a budget of one attempt, three wrong
    answers to the challenge bring three restarts, and the search ends with
    no outcome at all. *)
Lemma restarts_exceed_the_budget :
  let run := FakePortal.search_portal 1 4 (lit "21000001")
               (FakePortal.fresh [lit "Search"; lit "Search"; lit "Search";
                                  lit "21000001 - STATE OF FLORIDA vs DOE, JOHN"]) in
  fst run = Ok None
  /\ count_events is_delete_all_cookies (log (snd run)) = 3%nat
  /\ count_events is_get (log (snd run)) = 4%nat
  /\ (Z.of_nat 3 > connect_thresh (FakePortal.flags 1)).
Proof. vm_compute. repeat split. Qed.

(** * Further properties *)

(** ** Case numbers: shape, collisions, the four-character fallback *)

Section CaseNumberShape.

Import CaseId.

Lemma case_number_parts (year N : Z) :
  0 <= N <= 999999 ->
  List.length (format_0 2 (year mod 100)) = 2%nat
  /\ List.length (format_0 6 N) = 6%nat
  /\ forallb is_digit (format_0 2 (year mod 100)) = true
  /\ forallb is_digit (format_0 6 N) = true.
Proof.
  intros HN. pose proof (year_suffix_range year) as HY.
  split; [now apply (format_0_length_fits 1)|].
  split; [apply (format_0_length_fits 5); change (10 ^ Z.of_nat 6) with 1000000; lia|].
  split; apply format_0_digits; lia.
Qed.

(** For a sequence from 0 to 999999 the case number is eight characters,
    all of them digits, whatever the year. *)
Theorem case_number_eight_digits (year N : Z) :
  0 <= N <= 999999 ->
  List.length (case_number year N) = 8%nat
  /\ isnumeric (case_number year N) = true.
Proof.
  intros HN. destruct (case_number_parts year N HN) as (L2 & L6 & D2 & D6).
  unfold case_number. cbv zeta. split.
  - now rewrite length_app, L2, L6.
  - unfold isnumeric.
    destruct (format_0 2 (year mod 100) ++ format_0 6 N) eqn:E.
    + apply (f_equal (@List.length ascii)) in E.
      rewrite length_app, L2 in E. discriminate.
    + rewrite <- E, forallb_app, D2, D6. reflexivity.
Qed.

Lemma case_number_eight_digits_witness :
  List.length (case_number 2021 417) = 8%nat
  /\ isnumeric (case_number 2021 417) = true.
Proof. apply (case_number_eight_digits 2021 417). lia. Defined.

(** Two candidates get the same case number exactly when their sequences
    are equal and their years agree in the last two digits: within a year
    no two sequences collide, and years a century apart always do. *)
Theorem case_number_collisions (year year' N N' : Z) :
  0 <= N <= 999999 -> 0 <= N' <= 999999 ->
  (case_number year N = case_number year' N'
   <-> year mod 100 = year' mod 100 /\ N = N').
Proof.
  intros HN HN'. split.
  - intros E. apply (f_equal parse) in E.
    rewrite !parse_case_number in E by assumption.
    remember (year mod 100) as a eqn:Ha. remember (year' mod 100) as a' eqn:Ha'.
    remember (2000 + a) as u eqn:Hu. remember (2000 + a') as u' eqn:Hu'.
    injection E as Hy Hn. split; [lia | exact Hn].
  - intros [Hy ->]. unfold case_number. cbv zeta. now rewrite Hy.
Qed.

Lemma case_number_collisions_witness :
  case_number 1921 5 = case_number 2021 5 <-> 1921 mod 100 = 2021 mod 100 /\ 5 = 5.
Proof. apply (case_number_collisions 1921 2021 5 5); lia. Defined.



End CaseNumberShape.

(** ** The last row of the output file *)

Section LastRow.

Import Checkpoint.

Lemma one_line_cons (c : ascii) (s : str) :
  one_line (c :: s) ->
  ascii_eqb c "013"%char = false /\ ascii_eqb c "010"%char = false /\ one_line s.
Proof.
  unfold one_line. cbn [forallb]. intros H.
  apply andb_true_iff in H as [Hc Hs]. unfold is_line_end in Hc.
  apply negb_true_iff, orb_false_iff in Hc. tauto.
Qed.

Lemma one_line_skipn (k : nat) (s : str) : one_line s -> one_line (skipn k s).
Proof.
  revert s. induction k as [|k IH]; intros [|c s] H; try exact H.
  cbn [skipn]. apply IH. now apply one_line_cons in H.
Qed.

Lemma universal_one_line (s : str) : one_line s -> universal_newlines s = s.
Proof.
  induction s as [|c s IH]; intros H; [reflexivity|].
  apply one_line_cons in H as (Hcr & _ & Hs).
  cbn [universal_newlines]. rewrite Hcr. now rewrite IH.
Qed.

Lemma universal_crlf (s : str) :
  one_line s ->
  universal_newlines (s ++ ["013"%char; "010"%char]) = s ++ ["010"%char].
Proof.
  induction s as [|c s IH]; intros H; [reflexivity|].
  apply one_line_cons in H as (Hcr & _ & Hs).
  cbn [app universal_newlines]. rewrite Hcr. now rewrite IH.
Qed.

(** Whatever comes before a line feed, the text after it is translated on
    its own. *)
Lemma universal_after_line_feed (n : nat) :
  forall q t, (List.length q <= n)%nat ->
    exists q', universal_newlines (q ++ "010"%char :: t)
               = q' ++ "010"%char :: universal_newlines t.
Proof.
  induction n as [|n IH]; intros q t Hlen.
  - destruct q; [|cbn in Hlen; lia]. now exists [].
  - destruct q as [|c q1]; [now exists []|].
    cbn [List.length] in Hlen. cbn [app universal_newlines].
    destruct (ascii_eqb c "013"%char).
    + destruct q1 as [|d q2].
      * now exists [].
      * cbn [app]. destruct (ascii_eqb d "010"%char).
        -- destruct (IH q2 t) as (q' & Hq); [cbn in Hlen; lia|].
           exists ("010"%char :: q'). now rewrite Hq.
        -- destruct (IH (d :: q2) t) as (q' & Hq); [lia|].
           exists ("010"%char :: q'). cbn [app] in Hq. now rewrite Hq.
    + destruct (IH q1 t) as (q' & Hq); [lia|].
      exists (c :: q'). now rewrite Hq.
Qed.

Lemma readlines_nonempty (s : str) : s <> [] -> readlines s <> [].
Proof.
  destruct s as [|c s]; [congruence|]. intros _. cbn [readlines].
  destruct (ascii_eqb c "010"%char); [discriminate|].
  destruct (readlines s); discriminate.
Qed.

Lemma readlines_one_line (s : str) : one_line s -> s <> [] -> readlines s = [s].
Proof.
  induction s as [|c s IH]; intros H Hne; [congruence|].
  apply one_line_cons in H as (_ & Hlf & Hs).
  cbn [readlines]. rewrite Hlf.
  destruct s as [|d s]; [reflexivity|].
  rewrite IH by (assumption || discriminate). reflexivity.
Qed.

Lemma readlines_terminated (s : str) :
  one_line s -> readlines (s ++ ["010"%char]) = [s ++ ["010"%char]].
Proof.
  induction s as [|c s IH]; intros H; [reflexivity|].
  apply one_line_cons in H as (_ & Hlf & Hs).
  cbn [app readlines]. rewrite Hlf. now rewrite IH.
Qed.

Lemma readlines_after_line_feed (a r : str) :
  readlines (a ++ "010"%char :: r) = readlines (a ++ ["010"%char]) ++ readlines r.
Proof.
  induction a as [|c a IH]; [reflexivity|].
  cbn [app readlines]. destruct (ascii_eqb c "010"%char).
  - now rewrite IH.
  - rewrite IH.
    destruct (readlines (a ++ ["010"%char])) eqn:E; [|reflexivity].
    exfalso. revert E. apply readlines_nonempty. now destruct a.
Qed.

Lemma last_item_snoc (l : list str) (x : str) : last_item (l ++ [x]) = Ok x.
Proof. unfold last_item. now rewrite rev_app_distr. Qed.

(** The last line of a window made of whole lines and then one line. *)
Lemma last_item_of_window (q l l' : str) :
  whole_lines q ->
  universal_newlines l = l' -> readlines l' = [l'] ->
  last_item (readlines (universal_newlines (q ++ l))) = Ok l'.
Proof.
  intros [->|(q0 & ->)] Hu Hr.
  - cbn [app]. rewrite Hu, Hr. reflexivity.
  - rewrite <- app_assoc. cbn [app].
    destruct (universal_after_line_feed (List.length q0) q0 l (Nat.le_refl _)) as (q' & Hq).
    rewrite Hq, Hu, readlines_after_line_feed, Hr. apply last_item_snoc.
Qed.

Lemma whole_lines_skipn (k : nat) (p : str) : whole_lines p -> whole_lines (skipn k p).
Proof.
  intros [->|(q & ->)]; [left; now destruct k|].
  destruct (Nat.le_gt_cases k (List.length q)) as [Hk|Hk].
  - right. exists (skipn k q). rewrite skipn_app.
    replace (k - List.length q)%nat with 0%nat by lia. reflexivity.
  - left. apply skipn_all2. rewrite length_app. cbn. lia.
Qed.

Lemma seek_position (n : nat) :
  Z.to_nat (Z.max (Z.of_nat n - 1024) 0) = (n - 1024)%nat.
Proof. lia. Qed.

(** The row read back is one line of a file of whole lines followed by it,
    [l] being what the file holds of it and [l'] what is read. *)
Lemma last_row_of_lines (p l l' : str) (keep : nat) :
  whole_lines p ->
  (List.length l <= keep + 1024)%nat ->
  (forall j, (j <= keep)%nat -> universal_newlines (skipn j l) = skipn j l') ->
  (forall j, (j <= keep)%nat -> readlines (skipn j l') = [skipn j l']) ->
  (List.length l - 1024 <= keep)%nat ->
  utf8_valid (slice_last 1024 (p ++ l)) = true ->
  get_last_csv_row (Contents (p ++ l)) = Ok (skipn (List.length l - 1024) l').
Proof.
  intros Hp Hlen Hu Hr Hk Hv. unfold get_last_csv_row. cbv zeta.
  rewrite seek_position. unfold slice_last in Hv. rewrite Hv.
  rewrite length_app, skipn_app.
  destruct (Nat.le_gt_cases 1024 (List.length l)) as [Hlong|Hshort].
  - rewrite skipn_all2 by lia. cbn [app].
    replace (List.length p + List.length l - 1024 - List.length p)%nat
      with (List.length l - 1024)%nat by lia.
    rewrite Hu, Hr by assumption. reflexivity.
  - replace (List.length p + List.length l - 1024 - List.length p)%nat with 0%nat by lia.
    replace (List.length l - 1024)%nat with 0%nat by lia.
    cbn [skipn].
    apply last_item_of_window.
    + now apply whole_lines_skipn.
    + apply (Hu 0%nat). lia.
    + apply (Hr 0%nat). lia.
Qed.

Lemma last_row_unterminated (p t : str) :
  whole_lines p -> one_line t -> t <> [] ->
  utf8_valid (slice_last 1024 (p ++ t)) = true ->
  get_last_csv_row (Contents (p ++ t)) = Ok (slice_last 1024 t).
Proof.
  intros Hp Ht Hne Hv. unfold slice_last at 1.
  apply (last_row_of_lines p t t (List.length t - 1024)); try lia;
    [assumption| | |assumption].
  - intros j _. apply universal_one_line. now apply one_line_skipn.
  - intros j Hj. apply readlines_one_line; [now apply one_line_skipn|].
    intros E. apply (f_equal (@List.length ascii)) in E.
    rewrite length_skipn in E. cbn in E.
    destruct t; [congruence | cbn [List.length] in *; lia].
Qed.

Lemma last_row_terminated (p t : str) :
  whole_lines p -> one_line t ->
  utf8_valid (slice_last 1024 (p ++ t ++ ["013"%char; "010"%char])) = true ->
  get_last_csv_row (Contents (p ++ t ++ ["013"%char; "010"%char]))
  = Ok (slice_last 1022 t ++ ["010"%char]).
Proof.
  intros Hp Ht Hv.
  set (l := t ++ ["013"%char; "010"%char]).
  assert (Hl : List.length l = (List.length t + 2)%nat)
    by (unfold l; rewrite length_app; reflexivity).
  assert (Hskip : forall j, (j <= List.length t)%nat ->
            skipn j l = skipn j t ++ ["013"%char; "010"%char]).
  { intros j Hj. unfold l. rewrite skipn_app.
    replace (j - List.length t)%nat with 0%nat by lia. reflexivity. }
  assert (Hskip' : forall j, (j <= List.length t)%nat ->
            skipn j (t ++ ["010"%char]) = skipn j t ++ ["010"%char]).
  { intros j Hj. rewrite skipn_app.
    replace (j - List.length t)%nat with 0%nat by lia. reflexivity. }
  pose proof (last_row_of_lines p l (t ++ ["010"%char]) (List.length t - 1022)) as H.
  replace (skipn (List.length l - 1024) (t ++ ["010"%char]))
    with (slice_last 1022 t ++ ["010"%char]) in H.
  - apply H; try lia; [assumption| | |assumption].
    + intros j Hj. rewrite Hskip, Hskip' by lia. apply universal_crlf.
      now apply one_line_skipn.
    + intros j Hj. rewrite Hskip' by lia.
      apply readlines_terminated. now apply one_line_skipn.
  - unfold slice_last. rewrite Hskip' by lia. f_equal. f_equal. lia.
Qed.

Lemma undecodable_tail (file : str) :
  utf8_valid (slice_last 1024 file) = false ->
  get_last_csv_row (Contents file) = Raise UnicodeDecodeError.
Proof.
  intros Hv. unfold get_last_csv_row. cbv zeta.
  rewrite seek_position. unfold slice_last in Hv. now rewrite Hv.
Qed.

(** [get_last_csv_row] reads the last 1024 bytes of the file.  When they
    decode, it gives back the last line of the file, cut to its last 1024
    bytes; a last row ended by a carriage return and a line feed, as the CSV
    writer ends it, comes back ended by a line feed alone and cut to the last
    1022 bytes of the row.  When they do not decode (the cut falls inside a
    multi-byte character, or the bytes are no UTF-8), it raises
    [UnicodeDecodeError], whatever the lines are. *)
Theorem last_row_is_last_line (p t : str) :
  whole_lines p -> one_line t ->
  (t <> [] -> utf8_valid (slice_last 1024 (p ++ t)) = true ->
   get_last_csv_row (Contents (p ++ t)) = Ok (slice_last 1024 t))
  /\ (utf8_valid (slice_last 1024 (p ++ t ++ ["013"%char; "010"%char])) = true ->
      get_last_csv_row (Contents (p ++ t ++ ["013"%char; "010"%char]))
      = Ok (slice_last 1022 t ++ ["010"%char]))
  /\ (forall file,
        utf8_valid (slice_last 1024 file) = false ->
        get_last_csv_row (Contents file) = Raise UnicodeDecodeError).
Proof.
  intros Hp Ht. split; [|split].
  - now apply last_row_unterminated.
  - now apply last_row_terminated.
  - apply undecodable_tail.
Qed.

Lemma last_row_is_last_line_witness :
  get_last_csv_row (Contents (lit "_id,_state
" ++ lit "7f,FL,Bay,21000417"))
  = Ok (slice_last 1024 (lit "7f,FL,Bay,21000417")).
Proof.
  apply (last_row_is_last_line (lit "_id,_state
") (lit "7f,FL,Bay,21000417")).
  - right. exists (lit "_id,_state"). reflexivity.
  - reflexivity.
  - discriminate.
  - reflexivity.
Defined.

End LastRow.

(** ** The checkpoint read back from a written row *)

Section ReadBack.

Import Checkpoint.

Lemma split_field (c : ascii) (f r : str) :
  without c f -> split c (f ++ c :: r) = f :: split c r.
Proof.
  unfold without. induction f as [|x f IH]; intros H.
  - cbn [app split]. unfold ascii_eqb. now rewrite Ascii.eqb_refl.
  - cbn [forallb] in H. apply andb_true_iff in H as [Hx Hf].
    apply negb_true_iff in Hx.
    cbn [app split]. rewrite Hx, IH by assumption. reflexivity.
Qed.


Lemma digits_one_line (s : str) : forallb is_digit s = true -> one_line s.
Proof.
  unfold one_line. induction s as [|c s IH]; [reflexivity|].
  cbn [forallb]. intros H. apply andb_true_iff in H as [Hc Hs].
  rewrite IH by assumption. rewrite andb_true_r.
  unfold is_line_end, ascii_eqb.
  destruct (Ascii.eqb_spec c "013"%char) as [->|_]; [discriminate|].
  destruct (Ascii.eqb_spec c "010"%char) as [->|_]; [discriminate|].
  reflexivity.
Qed.

Lemma digits_without_comma (s : str) : forallb is_digit s = true -> without ","%char s.
Proof.
  unfold without. induction s as [|c s IH]; [reflexivity|].
  cbn [forallb]. intros H. apply andb_true_iff in H as [Hc Hs].
  rewrite IH by assumption. rewrite andb_true_r.
  unfold ascii_eqb.
  destruct (Ascii.eqb_spec c ","%char) as [->|_]; [discriminate | reflexivity].
Qed.





End ReadBack.

(** ** The scan loop: misses, fan-out, years *)

Section ScanRounds.

Import Checkpoint Scanner.

Variable W : Type.
Variable FLAGS : Flags.
Variable search_portal : str -> M W (option (list str)).
Variable scrape_record : str -> M W unit.
Variable delete_all_cookies : W -> W.

Local Abbreviation Scan := (Scanner.Scan W).
Local Abbreviation scan_year := (Scanner.scan_year W FLAGS search_portal scrape_record delete_all_cookies).
Local Abbreviation scan_years := (Scanner.scan_years W FLAGS search_portal scrape_record delete_all_cookies).
Local Abbreviation scrape_additional := (Scanner.scrape_additional W search_portal scrape_record).
Local Abbreviation begin_scrape := (Scanner.begin_scrape W FLAGS search_portal scrape_record delete_all_cookies).

(** The end of a round: the log line, then the reset when it is due. *)
Lemma round_end (fuel : nat) (year YY N m c : Z) (x : str) (s : Scan) :
  exists s',
    (Scanner.emit W (Completed x) ;;
     c' <- (if c >=? 5 then Scanner.reset_cookies W delete_all_cookies ;; ret 0
            else ret c) ;;
     scan_year fuel year YY N m c') s
    = scan_year fuel year YY N m (if c >=? 5 then 0 else c) s'
    /\ timeline s' = timeline s ++ Completed x :: (if c >=? 5 then [CookiesReset] else []).
Proof.
  destruct (c >=? 5); eexists; (split; [reflexivity|]);
    unfold timeline; cbn [events rev]; now rewrite <- ?app_assoc.
Qed.

(** A round in which the search finds nothing. *)
Lemma round_missed (fuel : nat) (year YY N m c : Z) (s : Scan) (r : option (list str)) (w' : W) :
  (m <? missing_thresh FLAGS) = true ->
  search_portal (format_0 2 YY ++ format_0 6 N) (world s) = (Ok r, w') ->
  truthy r = false ->
  exists s',
    scan_year (S fuel) year YY N m c s
    = scan_year fuel year YY (N + 1) (m + 1) (if c + 1 >=? 5 then 0 else c + 1) s'
    /\ timeline s'
       = timeline s
         ++ [Searched (format_0 2 YY ++ format_0 6 N);
             Missed (format_0 2 YY ++ format_0 6 N);
             Completed (format_0 2 YY ++ format_0 6 N)]
         ++ (if c + 1 >=? 5 then [CookiesReset] else []).
Proof.
  intros Hm Hs Hr. set (x := format_0 2 YY ++ format_0 6 N) in *.
  destruct (round_end fuel year YY (N + 1) (m + 1) (c + 1) x
              {| world := w'; events := Missed x :: Searched x :: events s |})
    as (s' & Hrun & Ht).
  exists s'. split.
  - rewrite <- Hrun. cbn [Scanner.scan_year]. rewrite Hm. fold x.
    unfold bind at 1. unfold Scanner.call_search_portal, bind at 1.
    unfold Scanner.emit at 1. unfold Scanner.lift at 1. cbn [world events].
    rewrite Hs. cbv beta iota zeta. rewrite Hr. reflexivity.
  - rewrite Ht. unfold timeline. cbn [events rev]. now rewrite <- !app_assoc.
Qed.

Section NothingFound.

Hypothesis nothing_found :
  forall c w, exists r w', search_portal c w = (Ok r, w') /\ truthy r = false.

Lemma misses_end_the_year (year YY : Z) (k : nat) :
  forall fuel N m c s,
    Z.to_nat (missing_thresh FLAGS - m) = k -> (k < fuel)%nat ->
    exists s' new,
      scan_year fuel year YY N m c s = (Ok tt, s')
      /\ timeline s' = timeline s ++ new
      /\ searches new
         = map (fun i => format_0 2 YY ++ format_0 6 (N + Z.of_nat i)) (seq 0 k)
      /\ scrapes new = [].
Proof.
  induction k as [|k IH]; intros fuel N m c s Hk Hfuel.
  - destruct fuel as [|fuel]; [lia|]. cbn [Scanner.scan_year].
    rewrite (proj2 (Z.ltb_ge m (missing_thresh FLAGS))) by lia.
    exists s, []. rewrite app_nil_r. repeat split; reflexivity.
  - destruct fuel as [|fuel]; [lia|].
    destruct (nothing_found (format_0 2 YY ++ format_0 6 N) (world s))
      as (r & w' & Hs & Hr).
    destruct (round_missed fuel year YY N m c s r w') as (s1 & Hrun & Ht);
      [apply Z.ltb_lt; lia | assumption | assumption |].
    destruct (IH fuel (N + 1) (m + 1) (if c + 1 >=? 5 then 0 else c + 1) s1)
      as (s' & new & Hrun' & Ht' & Hsearch & Hscrape); [lia | lia |].
    exists s'. eexists. split; [now rewrite Hrun|].
    split; [rewrite Ht', Ht, <- !app_assoc; reflexivity|].
    split.
    + cbn [app searches flat_map]. rewrite searches_app, Hsearch.
      replace (searches (if c + 1 >=? 5 then [CookiesReset] else [])) with (@nil str)
        by (destruct (c + 1 >=? 5); reflexivity).
      cbn [app seq map]. rewrite Z.add_0_r. f_equal.
      rewrite <- seq_shift, map_map. apply map_ext. intros i.
      do 2 f_equal. lia.
    + cbn [app scrapes flat_map]. unfold scrapes in *. rewrite flat_map_app, Hscrape.
      destruct (c + 1 >=? 5); reflexivity.
Qed.

End NothingFound.

(** On a portal where no search finds anything, a year's loop ends by
    itself: it makes exactly as many searches as misses are still allowed,
    for consecutive sequence numbers from [N] on, and scrapes nothing. *)
Theorem year_ends_after_misses (year YY N m c : Z) (fuel : nat) (s : Scan) :
  (forall c w, exists r w', search_portal c w = (Ok r, w') /\ truthy r = false) ->
  (Z.to_nat (missing_thresh FLAGS - m) < fuel)%nat ->
  exists s' new,
    scan_year fuel year YY N m c s = (Ok tt, s')
    /\ timeline s' = timeline s ++ new
    /\ searches new
       = map (fun i => format_0 2 YY ++ format_0 6 (N + Z.of_nat i))
           (seq 0 (Z.to_nat (missing_thresh FLAGS - m)))
    /\ scrapes new = [].
Proof.
  intros Hnothing Hfuel.
  now apply (misses_end_the_year Hnothing year YY (Z.to_nat (missing_thresh FLAGS - m))).
Qed.

Section Found.

Hypothesis searches_return : forall c w, is_ok (fst (search_portal c w)) = true.
Hypothesis scrapes_return : forall c w, is_ok (fst (scrape_record c w)) = true.

Lemma call_search_returns (x : str) (s : Scan) :
  exists r s',
    Scanner.call_search_portal W search_portal x s = (Ok r, s')
    /\ timeline s' = timeline s ++ [Searched x].
Proof.
  unfold Scanner.call_search_portal, bind, Scanner.emit, Scanner.lift. cbn [world events].
  pose proof (searches_return x (world s)) as H.
  destruct (search_portal x (world s)) as [[r|e|] w']; try discriminate.
  now exists r, {| world := w'; events := Searched x :: events s |}.
Qed.

Lemma call_scrape_returns (x : str) (s : Scan) :
  exists s',
    Scanner.call_scrape_record W scrape_record x s = (Ok tt, s')
    /\ timeline s' = timeline s ++ [Scraped x].
Proof.
  unfold Scanner.call_scrape_record, bind, Scanner.emit, Scanner.lift. cbn [world events].
  pose proof (scrapes_return x (world s)) as H.
  destruct (scrape_record x (world s)) as [[[]|e|] w']; try discriminate.
  now exists {| world := w'; events := Scraped x :: events s |}.
Qed.

(** Every member of an associated set is searched, then scraped, in turn. *)
Lemma scrape_additional_returns (cases : list str) :
  forall c s,
    exists s',
      scrape_additional cases c s = (Ok (c + Z.of_nat (List.length cases)), s')
      /\ timeline s'
         = timeline s ++ flat_map (fun x => [Searched x; Scraped x]) cases.
Proof.
  induction cases as [|x rest IH]; intros c s.
  - exists s. cbn. now rewrite Z.add_0_r, app_nil_r.
  - cbn [Scanner.scrape_additional].
    destruct (call_search_returns x s) as (r & s1 & H1 & T1).
    destruct (call_scrape_returns x s1) as (s2 & H2 & T2).
    destruct (IH (c + 1) s2) as (s3 & H3 & T3).
    exists s3. split.
    + unfold bind at 1. rewrite H1. unfold bind at 1. rewrite H2. rewrite H3.
      do 2 f_equal. cbn [List.length]. lia.
    + rewrite T3, T2, T1, <- !app_assoc. reflexivity.
Qed.

End Found.

(** A round that finds something, all calls returning: the missing streak
    goes back to 0 and the loop moves to [N + 1].  For a single case the
    candidate is scraped.  For an associated set of [k > 1] cases, each
    member is searched and then scraped, in order ([k + 1] searches in the
    round), and the candidate itself is scraped only as a member. *)
Theorem found_round (fuel : nat) (year YY N m c : Z) (s : Scan)
    (cases : list str) (w1 : W) :
  (forall c w, is_ok (fst (search_portal c w)) = true) ->
  (forall c w, is_ok (fst (scrape_record c w)) = true) ->
  m < missing_thresh FLAGS ->
  cases <> [] ->
  let x := format_0 2 YY ++ format_0 6 N in
  search_portal x (world s) = (Ok (Some cases), w1) ->
  let several := 1 <? Z.of_nat (List.length cases) in
  let counted := c + 1 + (if several then Z.of_nat (List.length cases) else 0) in
  exists s',
    scan_year (S fuel) year YY N m c s
    = scan_year fuel year YY (N + 1) 0 (if counted >=? 5 then 0 else counted) s'
    /\ timeline s'
       = timeline s
         ++ Searched x
         :: (if several then flat_map (fun y => [Searched y; Scraped y]) cases
             else [Scraped x])
         ++ Completed x :: (if counted >=? 5 then [CookiesReset] else []).
Proof.
  intros Hsearch Hscrape Hm Hne x Hx several counted.
  assert (Htruthy : truthy (Some cases) = true) by (destruct cases; [congruence | reflexivity]).
  set (s0 := {| world := w1; events := Searched x :: events s |}).
  assert (Hcounts : exists s2,
            (if truthy (Some cases) then
               if 1 <? Z.of_nat (List.length (cases_of (Some cases))) then
                 c' <- scrape_additional (cases_of (Some cases)) (c + 1) ;; ret (0, c')
               else
                 Scanner.call_scrape_record W scrape_record x ;; ret (0, c + 1)
             else
               Scanner.emit W (Missed x) ;; ret (m + 1, c + 1)) s0
            = (Ok (0, counted), s2)
            /\ timeline s2
               = timeline s0
                 ++ (if several then flat_map (fun y => [Searched y; Scraped y]) cases
                     else [Scraped x])).
  { rewrite Htruthy. cbn [cases_of]. subst counted. fold several.
    destruct several.
    - destruct (scrape_additional_returns Hsearch Hscrape cases (c + 1) s0) as (s2 & H2 & T2).
      exists s2. split; [|exact T2]. unfold bind at 1. rewrite H2.
      reflexivity.
    - destruct (call_scrape_returns Hscrape x s0) as (s2 & H2 & T2).
      exists s2. split; [|exact T2]. unfold bind at 1. rewrite H2.
      unfold ret. now rewrite Z.add_0_r. }
  destruct Hcounts as (s2 & H2 & T2).
  destruct (round_end fuel year YY (N + 1) 0 counted x s2) as (s' & Hrun & Ht).
  exists s'. split.
  - rewrite <- Hrun. cbn [Scanner.scan_year].
    rewrite (proj2 (Z.ltb_lt m (missing_thresh FLAGS)) Hm). fold x.
    unfold bind at 1. unfold Scanner.call_search_portal, bind at 1.
    unfold Scanner.emit at 1. unfold Scanner.lift at 1. cbn [world events].
    rewrite Hx. cbv beta iota zeta. fold s0.
    unfold bind at 1. rewrite H2. reflexivity.
  - rewrite Ht, T2. unfold s0, timeline. cbn [events rev].
    now rewrite <- !app_assoc.
Qed.

Lemma In_first_items {A} (k : nat) (l : list A) (x : A) :
  In x (firstn k l) -> In x l.
Proof.
  intros H. rewrite <- (firstn_skipn k l). apply in_or_app. now left.
Qed.

Lemma In_range_down (hi lo y : Z) : In y (range_down hi lo) -> lo < y <= hi.
Proof.
  unfold range_down. intros H. apply in_map_iff in H as (k & <- & Hk).
  apply in_seq in Hk. lia.
Qed.

Lemma In_expected_starts (years : list Z) (continuing : bool) (last_case y n : Z) :
  In (y, n) (expected_starts years continuing last_case) ->
  In y years
  /\ (n = 1 \/ (continuing = true /\ hd_error years = Some y /\ n = last_case + 1)).
Proof.
  destruct years as [|y0 rest]; [intros []|].
  cbn [expected_starts]. intros [H|H].
  - injection H as -> <-. split; [now left|].
    destruct continuing; [right | left]; auto.
  - apply in_map_iff in H as (y1 & E & Hy). injection E as -> <-.
    split; [now right | now left].
Qed.

(** Only years after [start_year] are scanned, and none after the year the
    scan starts from: [end_year] on a fresh run, the year of the last
    record on a resumed one, whatever [end_year] says.  Every year starts
    at sequence 1, but the first of a resumed run. *)
Lemma year_banners_in_range (fuel : nat) (out : FileState) (s : Scan)
    (checkpoint : option (Z * Z)) :
  recover out = Ok checkpoint ->
  let top := match checkpoint with
             | Some (last_year, _) => last_year
             | None => end_year FLAGS
             end in
  exists new,
    timeline (snd (begin_scrape fuel out s)) = timeline s ++ new
    /\ forall y n, In (y, n) (year_starts new) ->
         start_year FLAGS < y <= top
         /\ (n = 1 \/ exists last_case,
               checkpoint = Some (top, last_case) /\ y = top /\ n = last_case + 1).
Proof.
  intros Hrec top. unfold Scanner.begin_scrape. rewrite Hrec.
  assert (P1 : on_timeline (starts_are (timeline s) []) s).
  { exists []. split; [now rewrite app_nil_r | reflexivity]. }
  assert (Hgen : forall continuing last_case,
            exists new k,
              timeline (snd (scan_years fuel (range_down top (start_year FLAGS))
                               continuing last_case s))
              = timeline s ++ new
              /\ year_starts new
                 = firstn k (expected_starts (range_down top (start_year FLAGS))
                               continuing last_case)).
  { intros continuing last_case.
    pose proof (scan_years_starts W FLAGS search_portal scrape_record delete_all_cookies
                  (timeline s) fuel (range_down top (start_year FLAGS))
                  continuing last_case [] s P1) as T.
    cbn [app] in T.
    destruct (scan_years fuel _ continuing last_case s) as [[a|e|] s']; cbn [snd].
    - destruct T as (new & Heq & Hst). exists new, (List.length (year_starts new)).
      split; [exact Heq|]. rewrite Hst. now rewrite firstn_all.
    - destruct T as (k & new & Heq & Hst). now exists new, k.
    - destruct T as (k & new & Heq & Hst). now exists new, k. }
  assert (Hin : forall continuing last_case new k y n,
            year_starts new
            = firstn k (expected_starts (range_down top (start_year FLAGS))
                          continuing last_case) ->
            In (y, n) (year_starts new) ->
            start_year FLAGS < y <= top
            /\ (n = 1 \/ (continuing = true /\ y = top /\ n = last_case + 1))).
  { intros continuing last_case new k y n Hst Hy.
    rewrite Hst in Hy. apply In_first_items, In_expected_starts in Hy as (Hy & Hn).
    pose proof (In_range_down _ _ _ Hy) as Hrange. split; [exact Hrange|].
    destruct Hn as [Hn|(Hc & Hhd & Hn)]; [now left | right].
    repeat split; try assumption.
    destruct (range_down_head top (start_year FLAGS)) as (rest & Hr); [lia|].
    rewrite Hr in Hhd. now injection Hhd. }
  destruct checkpoint as [[last_year last_case]|].
  - destruct (Hgen true last_case) as (new & k & Heq & Hst).
    exists new. split; [exact Heq|]. intros y n Hy.
    destruct (Hin true last_case new k y n Hst Hy) as (Hr & Hn).
    split; [exact Hr|]. destruct Hn as [Hn|(_ & -> & ->)]; [now left | right].
    now exists last_case.
  - destruct (Hgen false 0) as (new & k & Heq & Hst).
    exists new. split; [exact Heq|]. intros y n Hy.
    destruct (Hin false 0 new k y n Hst Hy) as (Hr & Hn).
    split; [exact Hr|]. destruct Hn as [Hn|(Hc & _)]; [now left | discriminate].
Qed.

End ScanRounds.

Lemma year_ends_after_misses_witness :
  exists s' new,
    Scanner.scan_year unit (FakeScan.flags 3) FakeScan.nothing_found FakeScan.extract
      (fun w => w) 4 2021 21 1 0 0 FakeScan.start = (Ok tt, s')
    /\ Scanner.timeline s' = Scanner.timeline FakeScan.start ++ new
    /\ Scanner.searches new
       = map (fun i => format_0 2 21 ++ format_0 6 (1 + Z.of_nat i))
           (seq 0 (Z.to_nat (missing_thresh (FakeScan.flags 3) - 0)))
    /\ Scanner.scrapes new = [].
Proof.
  apply (year_ends_after_misses unit (FakeScan.flags 3) FakeScan.nothing_found
           FakeScan.extract (fun w => w) 2021 21 1 0 0 4 FakeScan.start).
  - intros c w. exists (Some []), w. split; reflexivity.
  - cbn. lia.
Defined.

Lemma found_round_witness :
  exists s',
    Scanner.scan_year unit (FakeScan.flags 3) FakeScan2.pair_found FakeScan.extract
      (fun w => w) 1 2021 21 1 0 0 FakeScan.start
    = Scanner.scan_year unit (FakeScan.flags 3) FakeScan2.pair_found FakeScan.extract
        (fun w => w) 0 2021 21 2 0 3 s'
    /\ Scanner.timeline s'
       = [Scanner.Searched (lit "21000001");
          Scanner.Searched (lit "21000001CFMA"); Scanner.Scraped (lit "21000001CFMA");
          Scanner.Searched (lit "21000001MMMA"); Scanner.Scraped (lit "21000001MMMA");
          Scanner.Completed (lit "21000001")].
Proof.
  apply (found_round unit (FakeScan.flags 3) FakeScan2.pair_found FakeScan.extract
           (fun w => w) 0 2021 21 1 0 0 FakeScan.start
           [lit "21000001CFMA"; lit "21000001MMMA"] tt).
  - intros c w. reflexivity.
  - intros c w. reflexivity.
  - reflexivity.
  - discriminate.
  - reflexivity.
Defined.

(** ** Retries of [load_page] and of the wait after a submission *)

Section Retries.

Variable D : Type.
Variable drv : Driver D.
Variable FLAGS : Flags.

Local Abbreviation load_page := (Search.load_page D drv FLAGS).
Local Abbreviation load_page_loop := (Search.load_page_loop D drv FLAGS).
Local Abbreviation submit_search := (Search.submit_search D drv FLAGS).
Local Abbreviation evaluate := (Search.evaluate D drv FLAGS).
Local Abbreviation search_portal := (Search.search_portal D drv FLAGS).

Lemma history_record (e : Event) (d : D) (l : list Event) :
  history (Search.record D e d l) = rev l ++ [e].
Proof. reflexivity. Qed.

Lemma load_page_loop_attempts (url t : str) (n : nat) :
  forall i w,
    Z.of_nat (S n) + i = connect_thresh FLAGS ->
    exists (k : nat) (held : bool) r w',
      (k <= n)%nat
      /\ load_page_loop url t i (S n) w = (r, w')
      /\ history w' = history w ++ failed_attempts url t k
                      ++ [EvWait (TitleContains t) held]
      /\ ((held = true /\ r = Ok tt)
          \/ (held = false /\ k = n
              /\ r = Raise (RuntimeError (Search.page_error FLAGS url)))).
Proof.
  induction n as [|n IH]; intros i w Hi.
  - cbn [Search.load_page_loop]. unfold bind at 1, Search.wait_until at 1.
    destruct (drv_wait drv (TitleContains t) (browser w)) as [[|] d] eqn:E.
    + exists 0%nat, true. do 2 eexists. split; [lia|]. split; [reflexivity|].
      split; [apply history_record | now left].
    + cbv beta iota. rewrite (proj2 (Z.eqb_eq i (connect_thresh FLAGS - 1))) by lia.
      exists 0%nat, false. do 2 eexists. split; [lia|]. split; [reflexivity|].
      split; [apply history_record | now right].
  - cbn [Search.load_page_loop]. unfold bind at 1, Search.wait_until at 1.
    destruct (drv_wait drv (TitleContains t) (browser w)) as [[|] d] eqn:E.
    + exists 0%nat, true. do 2 eexists. split; [lia|]. split; [reflexivity|].
      split; [apply history_record | now left].
    + cbv beta iota. rewrite (proj2 (Z.eqb_neq i (connect_thresh FLAGS - 1))) by lia.
      unfold bind at 1, Search.get at 1. cbn [browser log Search.record].
      destruct (IH (i + 1)
                  (Search.record D (EvGet url) (drv_get drv url d)
                     (EvWait (TitleContains t) false :: log w)))
        as (k & held & r & w' & Hk & Hrun & Hh & Hres); [lia|].
      exists (S k), held, r, w'. split; [lia|]. split; [exact Hrun|].
      split.
      * rewrite Hh. unfold history at 1. cbn [log Search.record rev].
        unfold failed_attempts. cbn [repeat List.concat].
        unfold history. now rewrite <- !app_assoc.
      * destruct Hres as [H|(H1 & H2 & H3)]; [now left | right].
        repeat split; [assumption | lia | assumption].
Qed.

(** [load_page] makes at least one and at most [connect_thresh] attempts,
    each a load of the page followed by a wait for the title.  It returns at
    the first wait that holds, and it raises [RuntimeError] exactly when the
    [connect_thresh]-th wait has timed out too. *)
Theorem load_page_attempts (url t : str) (w : World D) :
  1 <= connect_thresh FLAGS ->
  exists (k : nat) (held : bool),
    (Z.of_nat k < connect_thresh FLAGS)
    /\ history (snd (load_page url t w))
       = history w ++ EvGet url :: failed_attempts url t k
         ++ [EvWait (TitleContains t) held]
    /\ ((held = true /\ fst (load_page url t w) = Ok tt)
        \/ (held = false /\ Z.of_nat (S k) = connect_thresh FLAGS
            /\ fst (load_page url t w)
               = Raise (RuntimeError (Search.page_error FLAGS url)))).
Proof.
  intros Hpos.
  destruct (Z.to_nat (connect_thresh FLAGS)) as [|n] eqn:En; [lia|].
  assert (Hlp : load_page url t w
                = load_page_loop url t 0 (S n)
                    (Search.record D (EvGet url) (drv_get drv url (browser w)) (log w))).
  { unfold Search.load_page. now rewrite En. }
  rewrite Hlp.
  destruct (load_page_loop_attempts url t n 0
              (Search.record D (EvGet url) (drv_get drv url (browser w)) (log w)))
    as (k & held & r & w' & Hk & Hrun & Hh & Hres); [lia|].
  rewrite Hrun. exists k, held. cbn [fst snd].
  split; [lia|]. split.
  - rewrite Hh, history_record. unfold history. now rewrite <- app_assoc.
  - destruct Hres as [H|(H1 & H2 & H3)]; [now left | right].
    repeat split; [assumption | lia | assumption].
Qed.

Lemma search_portal_unfolds (fuel : nat) (case_number : str) (w : World D) :
  search_portal (S fuel) case_number w
  = (submit_search fuel case_number ;;
     evaluate (search_portal fuel) case_number 0 (Z.to_nat (connect_thresh FLAGS))) w.
Proof. reflexivity. Qed.

(** When the title awaited after a submission never comes: with
    [connect_thresh = 1] the search raises the [RuntimeError] of line 496;
    with [connect_thresh] of 2 or more that error is never reached, since
    every timeout calls the search again and no call returns. *)
Theorem landing_timeouts (case_number : str) :
  (forall fuel w, is_ok (fst (submit_search fuel case_number w)) = true) ->
  (forall d, fst (drv_wait drv (SearchLanded case_number) d) = false) ->
  (connect_thresh FLAGS = 1 ->
   forall fuel w, exists page_title,
     fst (search_portal (S fuel) case_number w)
     = Raise (RuntimeError
                (lit "Case page could not be loaded after 1 attempts, or unexpected page title: "
                 ++ page_title)))
  /\ (2 <= connect_thresh FLAGS ->
      forall fuel w, fst (search_portal fuel case_number w) = OutOfFuel).
Proof.
  intros Hsubmit Hwait. split.
  - intros H1 fuel w. rewrite search_portal_unfolds. unfold bind at 1.
    pose proof (Hsubmit fuel w) as Hs.
    destruct (submit_search fuel case_number w) as [[[]|e|] w1]; try discriminate.
    rewrite H1. change (Z.to_nat 1) with 1%nat. cbn [Search.evaluate].
    unfold bind at 1, Search.wait_until at 1.
    pose proof (Hwait (browser w1)) as Hw.
    destruct (drv_wait drv (SearchLanded case_number) (browser w1)) as [held d].
    cbn [fst] in Hw. subst held. cbv beta iota. rewrite H1.
    change (0 =? 1 - 1) with true. cbv iota.
    eexists. unfold bind at 1, Search.title, raise. cbn [fst Search.record browser].
    unfold Search.case_page_error. rewrite H1. reflexivity.
  - intros H2 fuel. induction fuel as [|fuel IH]; intros w; [reflexivity|].
    rewrite search_portal_unfolds. unfold bind at 1.
    pose proof (Hsubmit fuel w) as Hs.
    destruct (submit_search fuel case_number w) as [[[]|e|] w1]; try discriminate.
    destruct (Z.to_nat (connect_thresh FLAGS)) as [|n] eqn:En; [lia|].
    cbn [Search.evaluate].
    unfold bind at 1, Search.wait_until at 1.
    pose proof (Hwait (browser w1)) as Hw.
    destruct (drv_wait drv (SearchLanded case_number) (browser w1)) as [held d].
    cbn [fst] in Hw. subst held. cbv beta iota.
    rewrite (proj2 (Z.eqb_neq 0 (connect_thresh FLAGS - 1))) by lia.
    unfold bind at 1.
    specialize (IH (Search.record D (EvWait (SearchLanded case_number) false) d (log w1))).
    destruct (search_portal fuel case_number _) as [[r|e|] w2];
      cbn [fst] in IH; try discriminate. reflexivity.
Qed.

End Retries.

Lemma load_page_attempts_witness :
  exists (k : nat) (held : bool),
    (Z.of_nat k < connect_thresh (FakePortal.flags 3))
    /\ history (snd (Search.load_page FakePortal.Browser FakePortal.driver (FakePortal.flags 3)
                       (lit "https://court") (lit "Search") FakePortal.unreachable))
       = history FakePortal.unreachable
         ++ EvGet (lit "https://court") :: failed_attempts (lit "https://court") (lit "Search") k
         ++ [EvWait (TitleContains (lit "Search")) held]
    /\ ((held = true
         /\ fst (Search.load_page FakePortal.Browser FakePortal.driver (FakePortal.flags 3)
                   (lit "https://court") (lit "Search") FakePortal.unreachable) = Ok tt)
        \/ (held = false /\ Z.of_nat (S k) = connect_thresh (FakePortal.flags 3)
            /\ fst (Search.load_page FakePortal.Browser FakePortal.driver (FakePortal.flags 3)
                      (lit "https://court") (lit "Search") FakePortal.unreachable)
               = Raise (RuntimeError
                          (Search.page_error (FakePortal.flags 3) (lit "https://court"))))).
Proof.
  apply (load_page_attempts FakePortal.Browser FakePortal.driver (FakePortal.flags 3)
           (lit "https://court") (lit "Search") FakePortal.unreachable).
  cbn. lia.
Defined.

Lemma landing_timeouts_witness :
  fst (Search.search_portal FakePortal.Browser SilentPortal.driver (FakePortal.flags 2)
         5 (lit "21000001") (FakePortal.fresh []))
  = OutOfFuel.
Proof.
  apply (landing_timeouts FakePortal.Browser SilentPortal.driver (FakePortal.flags 2)
           (lit "21000001")).
  - intros fuel w. reflexivity.
  - intros d. reflexivity.
  - cbn. lia.
Defined.

(** ** What a search returns after restarts *)

Section RestartOutcome.

Import FakePortal.

Variable thresh : Z.
Hypothesis thresh_pos : 1 <= thresh.
Variable case_number t : str.
Hypothesis t_not_plain : str_eqb t (lit "Search") = false.
Hypothesis t_not_results : contains (lit "Search Results: CaseNumber:") t = false.
Hypothesis t_names_case : contains case_number t = true.

Lemma restarts_outcome (k : nat) :
  forall t0 l,
    exists l',
      search_portal thresh (S k) case_number
        (at_page t0 (repeat (lit "Search") k ++ [t]) l)
      = (Ok (if (k =? 0)%nat || (2 <=? thresh) then Some [case_number] else None),
         at_page t [] l').
Proof.
  unfold search_portal.
  induction k as [|k IH]; intros t0 l.
  - cbn [repeat app].
    destruct (fake_submit thresh thresh_pos case_number 0 t0 t [] l) as (l1 & Hs & _).
    rewrite (search_portal_after_submit _ _ _ _ _ _ _ Hs).
    cbn [connect_thresh flags].
    destruct (Z.to_nat thresh) as [|n] eqn:E; [lia|].
    rewrite (fake_evaluate_case thresh case_number t) by assumption.
    eexists. reflexivity.
  - cbn [repeat app].
    destruct (fake_submit thresh thresh_pos case_number (S k) t0 (lit "Search")
                (repeat (lit "Search") k ++ [t]) l) as (l1 & Hs & _).
    rewrite (search_portal_after_submit _ _ _ _ _ _ _ Hs).
    cbn [connect_thresh flags].
    destruct (Z.to_nat thresh) as [|n] eqn:E; [lia|].
    rewrite fake_evaluate_plain. unfold bind at 1.
    destruct (IH (lit "Search")
                (EvDeleteAllCookies :: EvWait (SearchLanded case_number) true :: l1))
      as (l2 & Hrun).
    rewrite Hrun. cbv beta iota. cbn [Nat.eqb orb].
    destruct n as [|n].
    + rewrite (proj2 (Z.leb_gt 2 thresh)) by lia. eexists. reflexivity.
    + rewrite (proj2 (Z.leb_le 2 thresh)) by lia.
      rewrite (fake_evaluate_case thresh case_number t) by assumption.
      eexists. reflexivity.
Qed.

End RestartOutcome.

(** On a portal that answers [k] searches with the plain search page and
    then with the page of the case: with [connect_thresh] of 2 or more the
    search returns the case; with [connect_thresh = 1] and at least one
    restart it returns [None], the case found by the inner call being
    dropped, so the scan loop takes the case for missing. *)
Theorem restarted_search_result (thresh : Z) (case_number t : str) (k : nat) :
  1 <= thresh ->
  str_eqb t (lit "Search") = false ->
  contains (lit "Search Results: CaseNumber:") t = false ->
  contains case_number t = true ->
  let result := fst (FakePortal.search_portal thresh (S k) case_number
                       (FakePortal.fresh (repeat (lit "Search") k ++ [t]))) in
  (2 <= thresh -> result = Ok (Some [case_number]))
  /\ (thresh = 1 -> (0 < k)%nat ->
      result = Ok None /\ Scanner.truthy None = false).
Proof.
  intros Hpos H1 H2 H3 result.
  destruct (restarts_outcome thresh Hpos case_number t H1 H2 H3 k [] []) as (l' & Hrun).
  change (FakePortal.at_page [] (repeat (lit "Search") k ++ [t]) [])
    with (FakePortal.fresh (repeat (lit "Search") k ++ [t])) in Hrun.
  subst result. rewrite Hrun. cbn [fst]. split.
  - intros Hthresh. rewrite (proj2 (Z.leb_le 2 thresh) Hthresh).
    now rewrite orb_true_r.
  - intros -> Hk. destruct k as [|k]; [lia|]. split; reflexivity.
Qed.

Lemma restarted_search_result_witness :
  fst (FakePortal.search_portal 1 3 (lit "21000001")
         (FakePortal.fresh (repeat (lit "Search") 2 ++ [FakePortal.case_page])))
  = Ok None /\ Scanner.truthy None = false.
Proof.
  apply (restarted_search_result 1 (lit "21000001") FakePortal.case_page 2).
  - lia.
  - reflexivity.
  - reflexivity.
  - reflexivity.
  - reflexivity.
  - lia.
Defined.

(** ** The output file over a run *)

Section SinkRun.

Import Sink.

Variable writerow : list Cell -> str.

Lemma write_all_some (records : list BenchmarkRecord) :
  forall text,
    write_all writerow (Some text) records
    = Some (text ++ List.concat
              (map (fun record =>
                      List.concat (map (fun charge => writerow (charge_row record charge))
                                       (charges record)))
                   records)).
Proof.
  unfold write_all.
  induction records as [|r rs IH]; intros text.
  - cbn. now rewrite app_nil_r.
  - cbn [fold_left map List.concat]. rewrite IH.
    unfold write_csv, write_charges. rewrite write_charges_concat.
    now rewrite <- app_assoc.
Qed.

(** [write_csv] called for one record after another leaves one file: what
    it held before the first call (the heading row, written once, when
    there was none), then the rows of every record, record after record and
    charge after charge. *)
Theorem write_csv_run (output_file : option str)
    (first : BenchmarkRecord) (others : list BenchmarkRecord) :
  write_all writerow output_file (first :: others)
  = Some ((match output_file with
           | Some text => text
           | None => writerow headings
           end)
          ++ List.concat
               (map (fun record =>
                       List.concat (map (fun charge => writerow (charge_row record charge))
                                        (charges record)))
                    (first :: others))).
Proof.
  unfold write_all. cbn [fold_left].
  change (fold_left (fun file record => Some (write_csv writerow file record)) others
            (Some (write_csv writerow output_file first)))
    with (write_all writerow (Some (write_csv writerow output_file first)) others).
  rewrite write_all_some.
  cbn [map List.concat]. unfold write_csv, write_charges.
  destruct output_file; rewrite write_charges_concat; now rewrite <- !app_assoc.
Qed.

End SinkRun.

(** ** Pleas: the counts named and the kind of plea *)

Section Pleas.

Import Checkpoint Utils.

Lemma split_pieces (c : ascii) (s : str) :
  forall p, In p (split c s) ->
  forall x, In x p -> In x s /\ ascii_eqb x c = false.
Proof.
  induction s as [|y s IH]; intros p Hp x Hx.
  - cbn in Hp. destruct Hp as [<-|[]]. destruct Hx.
  - cbn [split] in Hp. destruct (ascii_eqb y c) eqn:Hy.
    + destruct Hp as [<-|Hp]; [destruct Hx|].
      destruct (IH p Hp x Hx) as [H1 H2]. split; [now right | assumption].
    + destruct (split c s) as [|w ws] eqn:Hs.
      * destruct Hp as [<-|[]]. destruct Hx as [<-|[]]. split; [now left | assumption].
      * destruct Hp as [<-|Hp].
        -- destruct Hx as [<-|Hx]; [split; [now left | assumption]|].
           destruct (IH w (or_introl eq_refl) x Hx) as [H1 H2].
           split; [now right | assumption].
        -- destruct (IH p (or_intror Hp) x Hx) as [H1 H2].
           split; [now right | assumption].
Qed.

Lemma int_digits_total (s : str) :
  forallb is_digit s = true ->
  forall acc b, s <> [] \/ b = true -> exists z, int_digits s acc b = Some z.
Proof.
  induction s as [|c s IH]; intros H acc b Hne.
  - destruct Hne as [Hne| ->]; [now destruct Hne|]. now exists acc.
  - cbn [forallb] in H. apply andb_true_iff in H as [Hc Hs].
    cbn [int_digits]. rewrite Hc. apply IH; [assumption | now right].
Qed.

Lemma ints_of_digits (pieces : list str) :
  (forall p, In p pieces -> forallb is_digit p = true) ->
  exists zs, ints pieces = Ok zs.
Proof.
  induction pieces as [|p rest IH]; intros H.
  - now exists [].
  - destruct IH as [zs Hzs]; [intros q Hq; apply H; now right|].
    destruct p as [|c p]; [now exists zs|].
    cbn [ints]. rewrite py_int_all_digits by (apply H; now left).
    destruct (int_digits_total (c :: p) (H _ (or_introl eq_refl)) 0 false) as [z Hz];
      [now left|].
    rewrite Hz, Hzs. cbn. now exists (z :: zs).
Qed.

Lemma digit_pieces (word : str) :
  forall p, In p (split ","%char (digits_and_commas word)) -> forallb is_digit p = true.
Proof.
  intros p Hp. apply forallb_forall. intros x Hx.
  destruct (split_pieces _ _ p Hp x Hx) as [H1 H2].
  unfold digits_and_commas in H1. apply filter_In in H1 as [_ H1].
  rewrite H2, orb_false_r in H1. exact H1.
Qed.

Lemma plea_counts_total (plea_text : str) (valid_charges : list Z) :
  exists counts,
    parse_plea_case_numbers plea_text valid_charges = Ok counts
    /\ forall n, In n counts -> In n valid_charges.
Proof.
  unfold parse_plea_case_numbers.
  destruct (rev (words (strip plea_text))) as [|last_word ws].
  - exists []. split; [reflexivity | intros n []].
  - destruct (ints_of_digits _ (digit_pieces last_word)) as [zs Hzs].
    rewrite Hzs. cbn [and_then]. eexists. split; [reflexivity|].
    intros n Hn. apply filter_In in Hn as [_ Hn].
    apply existsb_exists in Hn as (v & Hv & Heq).
    apply Z.eqb_eq in Heq. now subst v.
Qed.

(** [parse_plea_case_numbers] raises nothing, whatever the plea text (within
    the 4300 digits the interpreter converts), and every count it returns is
    one of the valid charges it was given. *)
Theorem plea_counts_are_valid (plea_text : str) (valid_charges : list Z) :
  (List.length plea_text <= 4300)%nat ->
  exists counts,
    parse_plea_case_numbers plea_text valid_charges = Ok counts
    /\ forall n, In n counts -> In n valid_charges.
Proof.
  intros _. unfold parse_plea_case_numbers.
  destruct (rev (words (strip plea_text))) as [|last_word ws].
  - exists []. split; [reflexivity | intros n []].
  - destruct (ints_of_digits _ (digit_pieces last_word)) as [zs Hzs].
    rewrite Hzs. cbn [and_then]. exists (filter (fun charge => existsb (Z.eqb charge) valid_charges) zs).
    split; [reflexivity|].
    intros n Hn. apply filter_In in Hn as [_ Hn].
    apply existsb_exists in Hn as (v & Hv & Heq).
    apply Z.eqb_eq in Heq. now subst v.
Qed.

Lemma words_from_word (w : str) :
  no_space w ->
  forall cur, w <> [] \/ cur <> [] -> words_from w cur = [rev cur ++ w].
Proof.
  unfold no_space. induction w as [|c w IH]; intros H cur Hne.
  - destruct Hne as [Hne|Hne]; [now destruct Hne|].
    cbn [words_from]. rewrite app_nil_r. destruct cur; [now destruct Hne | reflexivity].
  - cbn [forallb] in H. apply andb_true_iff in H as [Hc Hw].
    apply negb_true_iff in Hc.
    cbn [words_from]. rewrite Hc. rewrite IH; [|assumption | right; discriminate].
    cbn [rev]. now rewrite <- app_assoc.
Qed.

Lemma words_from_last (sp : ascii) (w : str) :
  is_space sp = true -> no_space w -> w <> [] ->
  forall a cur, exists ws, words_from (a ++ sp :: w) cur = ws ++ [w].
Proof.
  intros Hsp Hw Hne. induction a as [|c a IH]; intros cur.
  - cbn [app words_from]. rewrite Hsp.
    rewrite (words_from_word w Hw []) by (now left). cbn [rev app].
    destruct cur; [now exists [] | now eexists [_]].
  - cbn [app words_from]. destruct (is_space c).
    + destruct (IH []) as [ws Hws]. rewrite Hws.
      destruct cur; [now exists ws | now eexists (_ :: ws)].
    + apply IH.
Qed.

Lemma lstrip_before_word (sp : ascii) (w : str) :
  is_space sp = true -> no_space w -> w <> [] ->
  forall a, lstrip (a ++ sp :: w) = w \/ exists a', lstrip (a ++ sp :: w) = a' ++ sp :: w.
Proof.
  intros Hsp Hw Hne. induction a as [|c a IH].
  - left. cbn [app lstrip]. rewrite Hsp.
    destruct w as [|x w]; [now destruct Hne|].
    unfold no_space in Hw. cbn [forallb] in Hw. apply andb_true_iff in Hw as [Hx _].
    apply negb_true_iff in Hx. cbn [lstrip]. now rewrite Hx.
  - cbn [app lstrip]. destruct (is_space c); [exact IH|].
    right. now exists (c :: a).
Qed.

Lemma lstrip_rev_word (a w : str) :
  no_space w -> w <> [] -> lstrip (rev (a ++ w)) = rev (a ++ w).
Proof.
  intros Hw Hne. rewrite rev_app_distr.
  destruct (rev w) as [|x r] eqn:Hr.
  - apply (f_equal (@rev ascii)) in Hr. rewrite rev_involutive in Hr. now destruct Hne.
  - assert (Hx : is_space x = false).
    { unfold no_space in Hw. rewrite <- forallb_rev, Hr in Hw.
      cbn [forallb] in Hw. apply andb_true_iff in Hw as [Hx _].
      now apply negb_true_iff in Hx. }
    cbn [app lstrip]. now rewrite Hx.
Qed.

Lemma last_word (sp : ascii) (w before : str) :
  is_space sp = true -> no_space w -> w <> [] ->
  exists ws, rev (words (strip (before ++ sp :: w))) = w :: ws.
Proof.
  intros Hsp Hw Hne. unfold strip, words.
  destruct (lstrip_before_word sp w Hsp Hw Hne before) as [->|[a' ->]].
  - pose proof (lstrip_rev_word [] w Hw Hne) as H. cbn [app] in H.
    rewrite H, rev_involutive.
    rewrite (words_from_word w Hw []) by (now left). now exists [].
  - change (a' ++ sp :: w) with (a' ++ [sp] ++ w). rewrite app_assoc.
    rewrite (lstrip_rev_word _ w Hw Hne), rev_involutive, <- app_assoc.
    destruct (words_from_last sp w Hsp Hw Hne a' []) as [ws Hws].
    cbn [app]. rewrite Hws, rev_app_distr. now eexists.
Qed.

Lemma split_without (c : ascii) (s : str) : without c s -> split c s = [s].
Proof.
  unfold without. induction s as [|x s IH]; intros H; [reflexivity|].
  cbn [forallb] in H. apply andb_true_iff in H as [Hx Hs].
  apply negb_true_iff in Hx. cbn [split]. now rewrite Hx, IH.
Qed.

Lemma split_comma_list (ns : list Z) :
  ns <> [] ->
  split ","%char (FakeSink.join (lit ",") (map decimal ns)) = map decimal ns.
Proof.
  induction ns as [|n ns IH]; intros Hne; [now destruct Hne|].
  destruct ns as [|m ns].
  - cbn [map FakeSink.join]. apply split_without, digits_without_comma, decimal_digits.
  - change (FakeSink.join (lit ",") (map decimal (n :: m :: ns)))
      with (decimal n ++ ","%char :: FakeSink.join (lit ",") (map decimal (m :: ns))).
    rewrite split_field by (apply digits_without_comma, decimal_digits).
    rewrite IH by discriminate. reflexivity.
Qed.

Lemma comma_list_chars (ns : list Z) :
  forallb (fun c => is_digit c || ascii_eqb c ","%char)
          (FakeSink.join (lit ",") (map decimal ns)) = true.
Proof.
  assert (Hd : forall n, forallb (fun c => is_digit c || ascii_eqb c ","%char) (decimal n)
                         = true).
  { intros n. apply forallb_forall. intros x Hx.
    pose proof (decimal_digits n) as H. rewrite forallb_forall in H.
    now rewrite (H x Hx). }
  induction ns as [|n ns IH]; [reflexivity|].
  destruct ns as [|m ns]; [apply Hd|].
  change (FakeSink.join (lit ",") (map decimal (n :: m :: ns)))
    with (decimal n ++ ","%char :: FakeSink.join (lit ",") (map decimal (m :: ns))).
  rewrite forallb_app, Hd. cbn [forallb andb]. exact IH.
Qed.

Lemma filter_all {A} (p : A -> bool) (l : list A) :
  forallb p l = true -> filter p l = l.
Proof.
  induction l as [|x l IH]; [reflexivity|].
  cbn [forallb filter]. intros H. apply andb_true_iff in H as [Hx Hl].
  now rewrite Hx, IH.
Qed.

Lemma ints_of_decimals (ns : list Z) :
  Forall (fun n => 0 <= n) ns -> ints (map decimal ns) = Ok ns.
Proof.
  induction 1 as [|n ns Hn _ IH]; [reflexivity|].
  cbn [map ints]. destruct (decimal n) as [|c s] eqn:Hd; [now apply decimal_nonempty in Hd|].
  rewrite <- Hd, py_int_all_digits by apply decimal_digits.
  rewrite int_digits_decimal by assumption. cbn. now rewrite IH.
Qed.

Lemma counts_of_last_word (before : str) (counts valid_charges : list Z) :
  counts <> [] ->
  Forall (fun n => 0 <= n) counts ->
  parse_plea_case_numbers
    (before ++ lit " " ++ FakeSink.join (lit ",") (map decimal counts)) valid_charges
  = Ok (filter (fun n => existsb (Z.eqb n) valid_charges) counts).
Proof.
  intros Hne Hcounts.
  set (w := FakeSink.join (lit ",") (map decimal counts)).
  assert (Hchars : forallb (fun c => is_digit c || ascii_eqb c ","%char) w = true)
    by apply comma_list_chars.
  assert (Hw : no_space w).
  { unfold no_space. apply forallb_forall. intros x Hx.
    rewrite forallb_forall in Hchars. specialize (Hchars x Hx).
    apply negb_true_iff. apply orb_true_iff in Hchars as [Hd|Hc].
    - now apply is_digit_not_space.
    - unfold ascii_eqb in Hc. apply Ascii.eqb_eq in Hc. now subst x. }
  assert (Hwne : w <> []).
  { intros Hnil. pose proof (split_comma_list counts Hne) as Hs. fold w in Hs.
    rewrite Hnil in Hs. cbn in Hs. destruct counts as [|n ns]; [now destruct Hne|].
    cbn [map] in Hs. injection Hs as Hd _. symmetry in Hd.
    now apply decimal_nonempty in Hd. }
  unfold parse_plea_case_numbers.
  destruct (last_word " "%char w before eq_refl Hw Hwne) as [ws Hws].
  change (lit " " ++ w) with (" "%char :: w). rewrite Hws.
  unfold digits_and_commas. rewrite (filter_all _ w Hchars).
  unfold w. rewrite split_comma_list by assumption.
  rewrite ints_of_decimals; [reflexivity|].
  exact Hcounts.
Qed.


(** The counts are read off the last word of the plea: a text that ends,
    after a blank, with counts written in decimal and separated by commas
    gives those among them that are valid charges, in the order written,
    whatever digits stand earlier in the text. *)
Theorem plea_counts_from_last_word (before : str) (counts valid_charges : list Z) :
  counts <> [] ->
  Forall (fun n => 0 <= n < 10 ^ 4300) counts ->
  parse_plea_case_numbers
    (before ++ lit " " ++ FakeSink.join (lit ",") (map decimal counts)) valid_charges
  = Ok (filter (fun n => existsb (Z.eqb n) valid_charges) counts).
Proof.
  intros Hne Hcounts. apply counts_of_last_word; [assumption|].
  eapply Forall_impl; [|exact Hcounts]. intros n [Hn _]. exact Hn.
Qed.

Lemma contains_here (sub b : str) : startswith sub (sub ++ b) = true.
Proof.
  induction sub as [|x sub IH]; [reflexivity|].
  cbn [app startswith]. unfold ascii_eqb at 1. now rewrite Ascii.eqb_refl.
Qed.

Lemma contains_app (sub a b : str) : contains sub (a ++ sub ++ b) = true.
Proof.
  induction a as [|x a IH].
  - cbn [app]. destruct (sub ++ b) eqn:H; cbn [contains]; rewrite <- H, contains_here;
      reflexivity.
  - cbn [app contains]. rewrite IH. apply orb_true_r.
Qed.

(** A plea text in which NOT occurs is read as Not Guilty, wherever the
    word stands and whatever else the text holds; and no plea is read only
    from a text that holds none of NOT, GUILTY and NOLO. *)
Theorem plea_type_reading (plea_text : str) :
  (forall a b, parse_plea_type (a ++ lit "NOT" ++ b) = Some (lit "Not Guilty"))
  /\ (parse_plea_type plea_text = None
      <-> contains (lit "NOT") plea_text = false
          /\ contains (lit "GUILTY") plea_text = false
          /\ contains (lit "NOLO") plea_text = false).
Proof.
  split.
  - intros a b. unfold parse_plea_type. now rewrite contains_app.
  - unfold parse_plea_type.
    destruct (contains (lit "NOT") plea_text);
      [split; [discriminate | intros [H _]; discriminate]|].
    destruct (contains (lit "GUILTY") plea_text);
      [split; [discriminate | intros (_ & H & _); discriminate]|].
    destruct (contains (lit "NOLO") plea_text);
      [split; [discriminate | intros (_ & _ & H); discriminate]|].
    split; [now repeat split | reflexivity].
Qed.

End Pleas.

Lemma plea_counts_are_valid_witness :
  exists counts,
    Utils.parse_plea_case_numbers (lit "PLEA OF NOT GUILTY CTS 1,2,9") [1; 2; 3] = Ok counts
    /\ forall n, In n counts -> In n [1; 2; 3].
Proof.
  apply (plea_counts_are_valid (lit "PLEA OF NOT GUILTY CTS 1,2,9") [1; 2; 3]).
  apply Nat.leb_le. reflexivity.
Defined.

Lemma plea_counts_from_last_word_witness :
  Utils.parse_plea_case_numbers
    (lit "2 PLEAS OF NOT GUILTY CTS" ++ lit " " ++ FakeSink.join (lit ",") (map decimal [1; 2; 9]))
    [1; 2; 3]
  = Ok (filter (fun n => existsb (Z.eqb n) [1; 2; 3]) [1; 2; 9]).
Proof.
  apply (plea_counts_from_last_word (lit "2 PLEAS OF NOT GUILTY CTS") [1; 2; 9] [1; 2; 3]).
  - discriminate.
  - repeat constructor; vm_compute; congruence.
Defined.

(** ** Attorneys named in the docket *)

Section Attorneys.

Import Checkpoint Utils.

Lemma without_lstrip (c : ascii) (s : str) : without c s -> without c (lstrip s).
Proof.
  unfold without. induction s as [|x s IH]; intros H; [reflexivity|].
  cbn [lstrip]. destruct (is_space x); [|exact H].
  cbn [forallb] in H. apply andb_true_iff in H as [_ H]. now apply IH.
Qed.

Lemma without_rev (c : ascii) (s : str) : without c s -> without c (rev s).
Proof. unfold without. now rewrite forallb_rev. Qed.

Lemma without_strip (c : ascii) (s : str) : without c s -> without c (strip s).
Proof.
  intros H. unfold strip. now apply without_rev, without_lstrip, without_rev, without_lstrip.
Qed.

Lemma without_firstn (c : ascii) (n : nat) (s : str) :
  without c s -> without c (firstn n s).
Proof.
  unfold without. revert n. induction s as [|x s IH]; intros [|n] H; try reflexivity.
  cbn [forallb] in H. apply andb_true_iff in H as [Hx H].
  cbn [firstn forallb]. now rewrite Hx, IH.
Qed.

Lemma parse_attorneys_outcome (texts : list str) :
  (exists names, parse_attorneys texts = Ok names)
  \/ parse_attorneys texts = Raise IndexError.
Proof.
  induction texts as [|d texts IH]; [left; now exists []|].
  cbn [parse_attorneys]. destruct (endswith _ _); [|exact IH].
  unfold item. destruct (nth_error _ 1) as [after_colon|]; [|now right].
  cbn [and_then]. destruct IH as [[names ->]| ->]; [left; now eexists | now right].
Qed.

(** One docket entry that ends with ASSIGNED and holds no colon makes
    [parse_attorneys] raise IndexError for the whole list, whatever the
    other entries are. *)
Theorem attorney_without_colon (texts : list str) (docket_text : str) :
  In docket_text texts ->
  endswith (lit "ASSIGNED") (strip docket_text) = true ->
  without ":"%char docket_text ->
  parse_attorneys texts = Raise IndexError.
Proof.
  intros Hin Hend Hcolon. induction texts as [|d texts IH]; [destruct Hin|].
  cbn [parse_attorneys]. destruct Hin as [->|Hin].
  - rewrite Hend. unfold slice_drop_last.
    rewrite split_without by (now apply without_firstn, without_strip).
    reflexivity.
  - specialize (IH Hin). destruct (endswith _ (strip d)); [|exact IH].
    unfold item. destruct (nth_error _ 1); [|reflexivity].
    cbn [and_then]. now rewrite IH.
Qed.





End Attorneys.

Lemma attorney_without_colon_witness :
  Utils.parse_attorneys
    [lit "DEFENSE ATTORNEY: SMITH, JOHN ASSIGNED"; lit "PUBLIC DEFENDER ASSIGNED"]
  = Raise IndexError.
Proof.
  apply (attorney_without_colon
           [lit "DEFENSE ATTORNEY: SMITH, JOHN ASSIGNED"; lit "PUBLIC DEFENDER ASSIGNED"]
           (lit "PUBLIC DEFENDER ASSIGNED")).
  - right. left. reflexivity.
  - reflexivity.
  - reflexivity.
Defined.


(** ** Charge and statute *)

Section Statutes.

Import Utils.

Local Abbreviation lparen := "("%char.
Local Abbreviation rparen := ")"%char.











Lemma without_count (c : ascii) (s : str) : without c s -> count_char c s = 0%nat.
Proof.
  unfold count_char, without. induction s as [|x s IH]; [reflexivity|].
  cbn [filter forallb]. destruct (ascii_eqb x c); [discriminate|]. exact IH.
Qed.


Lemma lstrip_idempotent (s : str) : lstrip (lstrip s) = lstrip s.
Proof.
  induction s as [|x s IH]; [reflexivity|].
  cbn [lstrip]. destruct (is_space x) eqn:Hx; [exact IH|].
  cbn [lstrip]. now rewrite Hx.
Qed.







End Statutes.



(** ** Paths of saved attachments *)

Section OutPath.

Import Utils.

Variable sanitize_filename : str -> str.

Lemma path_join_length (directory b : str) (c : ascii) (f f' : str) :
  (List.length (path_join directory ((c :: f) ++ b)) + List.length f'
   = List.length (path_join directory ((c :: f') ++ b)) + List.length f)%nat.
Proof.
  unfold path_join. cbn [app startswith lit list_ascii_of_string].
  destruct (ascii_eqb "/" c); cbn [andb].
  - cbn [List.length]. rewrite !length_app. lia.
  - destruct directory as [|x directory].
    + cbn [List.length]. rewrite !length_app. lia.
    + destruct (endswith _ _); rewrite ?length_app; cbn [List.length];
        rewrite ?length_app; lia.
Qed.

Lemma shortened_path (directory b f : str) (excess : nat) :
  (256 < List.length (path_join directory (f ++ b)))%nat ->
  excess = (List.length (path_join directory (f ++ b)) - 256)%nat ->
  (List.length (path_join directory (slice_drop_last excess f ++ b))
   <= Nat.max 256 (List.length (path_join directory b)))%nat.
Proof.
  intros Hlong ->. unfold slice_drop_last.
  remember (List.length f - (List.length (path_join directory (f ++ b)) - 256))%nat
    as k eqn:Hk.
  destruct k as [|k]; [cbn [firstn app]; lia|].
  destruct f as [|c f]; [cbn in Hk; lia|].
  cbn [firstn].
  pose proof (path_join_length directory b c f (firstn k f)) as H.
  rewrite length_firstn in H. cbn [List.length] in Hk.
  rewrite Nat.min_l in H by lia. lia.
Qed.

(** On POSIX the path returned by [parse_out_path] is at most 256
    characters long, whatever the file name and whatever the sanitizer makes
    of it, unless the directory and the extension alone make a longer path:
    then it is no longer than the path of the bare extension in that
    directory. *)
Theorem out_path_length (directory filename extension : str) :
  (List.length (parse_out_path sanitize_filename directory filename extension)
   <= Nat.max 256 (List.length (path_join directory (lit "." ++ extension))))%nat.
Proof.
  unfold parse_out_path.
  set (f := if (255 <? _)%nat then _ else sanitize_filename filename).
  clearbody f.
  destruct (256 <? List.length (path_join directory (f ++ lit "." ++ extension)))%nat eqn:Hlong.
  - apply Nat.ltb_lt in Hlong. now apply shortened_path.
  - apply Nat.ltb_ge in Hlong. lia.
Qed.

End OutPath.

(** ** The number of cases found *)

Section CaseCount.

Variable D : Type.
Variable drv : Driver D.
Variable FLAGS : Flags.

Local Abbreviation line_feed := "010"%char.

Lemma split_join (c : ascii) (parts : list str) :
  parts <> [] -> Forall (without c) parts ->
  split c (FakeSink.join [c] parts) = parts.
Proof.
  intros Hne H. induction H as [|p parts Hp _ IH]; [now destruct Hne|].
  destruct parts as [|q parts].
  - cbn [FakeSink.join]. now apply split_without.
  - change (FakeSink.join [c] (p :: q :: parts))
      with (p ++ c :: FakeSink.join [c] (q :: parts)).
    rewrite split_field by assumption. rewrite IH by discriminate. reflexivity.
Qed.

Lemma index_of_first (x : str) (before rest : list str) :
  ~ In x before ->
  Search.index_of x (before ++ x :: rest) = Some (List.length before).
Proof.
  induction before as [|y before IH]; intros Hnot.
  - cbn [app Search.index_of]. now rewrite str_eqb_refl.
  - cbn [app Search.index_of List.length].
    destruct (str_eqb y x) eqn:Hy.
    + apply str_eqb_eq in Hy. subst y. destruct Hnot. now left.
    + rewrite IH; [reflexivity|]. intros Hin. apply Hnot. now right.
Qed.

Lemma index_of_absent (x : str) (xs : list str) :
  ~ In x xs -> Search.index_of x xs = None.
Proof.
  induction xs as [|y xs IH]; intros Hnot; [reflexivity|].
  cbn [Search.index_of]. destruct (str_eqb y x) eqn:Hy.
  - apply str_eqb_eq in Hy. subst y. destruct Hnot. now left.
  - rewrite IH; [reflexivity|]. intros Hin. apply Hnot. now right.
Qed.

(** For Bay county the number of cases found is the line of the results
    table that follows the first line reading CASES FOUND, whatever the
    other lines hold; reading it leaves the browser as it was. *)
Theorem case_count_read (w : World D) (before after : list str) (n : Z) :
  county FLAGS = lit "Bay" ->
  Forall (without line_feed) (before ++ after) ->
  ~ In (lit "CASES FOUND") before ->
  0 <= n < 10 ^ 4300 ->
  drv_find_text drv (ByTagName (lit "table")) (browser w)
  = Some (FakeSink.join [line_feed]
            (before ++ lit "CASES FOUND" :: decimal n :: after)) ->
  Search.get_search_case_count D drv FLAGS w = (Ok n, w).
Proof.
  intros Hbay Hlines Hfirst [Hn _] Htable.
  unfold Search.get_search_case_count. rewrite Hbay.
  change (str_eqb (lit "Bay") (lit "Bay")) with true. cbv beta iota.
  unfold bind, Search.element_text. rewrite Htable.
  rewrite split_join.
  - rewrite index_of_first by assumption.
    replace (nth_error (before ++ lit "CASES FOUND" :: decimal n :: after)
               (List.length before + 1))
      with (Some (decimal n)).
    + unfold Search.int_of.
      rewrite py_int_all_digits by apply decimal_digits.
      now rewrite int_digits_decimal.
    + rewrite nth_error_app2 by lia.
      replace (List.length before + 1 - List.length before)%nat with 1%nat by lia.
      reflexivity.
  - now destruct before.
  - apply Forall_app in Hlines as [Hb Ha].
    apply Forall_app. split; [assumption|].
    constructor; [reflexivity|].
    constructor; [|assumption].
    unfold without. apply forallb_forall. intros x Hx.
    pose proof (digits_one_line _ (decimal_digits n)) as H.
    unfold one_line in H. rewrite forallb_forall in H. specialize (H x Hx).
    apply negb_true_iff in H. unfold is_line_end in H.
    apply orb_false_iff in H as [_ H]. now rewrite H.
Qed.

(** What stops the count from being read for Bay county: a table with no
    line reading CASES FOUND raises ValueError, one where that line is the
    last raises IndexError; and for a county other than Bay and Escambia the
    count is never assigned, so UnboundLocalError is raised whatever the page
    shows. *)
Theorem case_count_failures (w : World D) (lines : list str) :
  (county FLAGS <> lit "Bay" -> county FLAGS <> lit "Escambia" ->
   Search.get_search_case_count D drv FLAGS w = (Raise UnboundLocalError, w))
  /\ (county FLAGS = lit "Bay" ->
      lines <> [] -> Forall (without line_feed) lines ->
      drv_find_text drv (ByTagName (lit "table")) (browser w)
      = Some (FakeSink.join [line_feed] lines) ->
      (~ In (lit "CASES FOUND") lines ->
       Search.get_search_case_count D drv FLAGS w = (Raise ValueError, w))
      /\ (forall before,
            lines = before ++ [lit "CASES FOUND"] -> ~ In (lit "CASES FOUND") before ->
            Search.get_search_case_count D drv FLAGS w = (Raise IndexError, w))).
Proof.
  split.
  - intros Hbay Hesc. unfold Search.get_search_case_count.
    destruct (str_eqb (county FLAGS) (lit "Bay")) eqn:H1;
      [now apply str_eqb_eq in H1|].
    destruct (str_eqb (county FLAGS) (lit "Escambia")) eqn:H2;
      [now apply str_eqb_eq in H2|].
    reflexivity.
  - intros Hbay Hne Hlines Htable.
    unfold Search.get_search_case_count. rewrite Hbay.
    change (str_eqb (lit "Bay") (lit "Bay")) with true. cbv beta iota.
    unfold bind, Search.element_text. rewrite Htable.
    rewrite split_join by assumption. split.
    + intros Habsent. now rewrite index_of_absent.
    + intros before -> Hfirst. rewrite index_of_first by assumption.
      replace (nth_error (before ++ [lit "CASES FOUND"]) (List.length before + 1))
        with (@None str); [reflexivity|].
      symmetry. apply nth_error_None. rewrite length_app. cbn. lia.
Qed.

End CaseCount.

Lemma case_count_read_witness :
  Search.get_search_case_count FakePortal.Browser FakePortal.driver (FakePortal.flags 3)
    (FakePortal.showing (lit "Search Results: 21000001")
       (FakeSink.join ["010"%char]
          ([lit "COURT TYPE"; lit "ALL"] ++ lit "CASES FOUND" :: decimal 2 :: [lit "NAME"]))
       [])
  = (Ok 2,
     FakePortal.showing (lit "Search Results: 21000001")
       (FakeSink.join ["010"%char]
          ([lit "COURT TYPE"; lit "ALL"] ++ lit "CASES FOUND" :: decimal 2 :: [lit "NAME"]))
       []).
Proof.
  apply (case_count_read FakePortal.Browser FakePortal.driver (FakePortal.flags 3) _
           [lit "COURT TYPE"; lit "ALL"] [lit "NAME"] 2).
  - reflexivity.
  - repeat constructor.
  - cbn. intros [H|[H|[]]]; discriminate.
  - split; [lia | vm_compute; reflexivity].
  - reflexivity.
Defined.

Lemma case_count_failures_witness :
  Search.get_search_case_count FakePortal.Browser FakePortal.driver (FakePortal.flags 3)
    (FakePortal.showing (lit "Search Results: 21000001")
       (FakeSink.join ["010"%char] [lit "COURT TYPE"; lit "CASES FOUND"]) [])
  = (Raise IndexError,
     FakePortal.showing (lit "Search Results: 21000001")
       (FakeSink.join ["010"%char] [lit "COURT TYPE"; lit "CASES FOUND"]) []).
Proof.
  refine (proj2 (proj2 (case_count_failures FakePortal.Browser FakePortal.driver
                          (FakePortal.flags 3)
                          (FakePortal.showing (lit "Search Results: 21000001")
                             (FakeSink.join ["010"%char]
                                [lit "COURT TYPE"; lit "CASES FOUND"]) [])
                          [lit "COURT TYPE"; lit "CASES FOUND"])
                   _ _ _ _)
            [lit "COURT TYPE"] _ _).
  - reflexivity.
  - discriminate.
  - repeat constructor.
  - reflexivity.
  - reflexivity.
  - cbn. intros [H|[]]; discriminate.
Defined.

(** ** Waiting for the case page *)

Section CaseWaits.

Variable D : Type.
Variable FLAGS : Flags.
Variable present_within : str -> D -> bool * D.
Variable refresh : D -> D.

Local Abbreviation await := (Scrape.await D FLAGS present_within refresh).
Local Abbreviation wait_round := (Scrape.wait_round D present_within refresh).

Lemma await_rounds (element_id failure : str) (n : nat) :
  forall i d,
    i + Z.of_nat (S n) = connect_thresh FLAGS ->
    await element_id failure i (S n) d
    = let (found, d') := present_within element_id (Nat.iter n (wait_round element_id) d) in
      (if found then Ok tt else Raise (RuntimeError failure), d').
Proof.
  induction n as [|n IH]; intros i d Hi.
  - cbn [Scrape.await Nat.iter nat_rect].
    destruct (present_within element_id d) as [[|] d']; [reflexivity|].
    replace (i =? connect_thresh FLAGS - 1) with true by (symmetry; apply Z.eqb_eq; lia).
    reflexivity.
  - rewrite Nat.iter_succ_r.
    change (await element_id failure i (S (S n)) d)
      with (let (found, d') := present_within element_id d in
            if found then await element_id failure (i + 1) (S n) d'
            else if i =? connect_thresh FLAGS - 1
                 then (Raise (RuntimeError failure), d')
                 else await element_id failure (i + 1) (S n) (refresh d')).
    unfold Scrape.wait_round at 2.
    destruct (present_within element_id d) as [[|] d'].
    + apply IH. lia.
    + replace (i =? connect_thresh FLAGS - 1) with false by (symmetry; apply Z.eqb_neq; lia).
      apply IH. lia.
Qed.

(** The two waits that open [scrape_record] are decided by their last
    round alone.  With a threshold of [n >= 1] each goes through [n - 1]
    rounds that cannot fail (a wait, and a refresh when it timed out) and
    that a successful wait does not cut short; it then raises RuntimeError,
    with the case number in the message, exactly when the wait of round [n]
    times out. *)
Theorem case_waits_last_round (case_number : str) (d : D) :
  1 <= connect_thresh FLAGS ->
  let rounds := Z.to_nat (connect_thresh FLAGS - 1) in
  let outcome (element_id failure : str) :=
    let (found, d') :=
      present_within element_id (Nat.iter rounds (wait_round element_id) d) in
    (if found then Ok tt else Raise (RuntimeError failure), d') in
  Scrape.await_summary D FLAGS present_within refresh case_number d
  = outcome (lit "summaryAccordion")
            (lit "Summary details did not load for case " ++ case_number ++ lit ".")
  /\ Scrape.await_dockets D FLAGS present_within refresh case_number d
     = outcome (lit "gridDocketsView")
               (lit "Dockets did not load for case " ++ case_number ++ lit ".").
Proof.
  intros Hthresh rounds outcome.
  assert (Hn : Z.to_nat (connect_thresh FLAGS) = S rounds) by (unfold rounds; lia).
  unfold Scrape.await_summary, Scrape.await_dockets, outcome. rewrite Hn.
  split; apply await_rounds; lia.
Qed.

End CaseWaits.

Lemma case_waits_last_round_witness :
  Scrape.await_summary nat (FakePortal.flags 3) (fun _ d => (Nat.leb 2 d, d)) S
    (lit "21000001") 0%nat
  = (Ok tt, 2%nat)
  /\ Scrape.await_dockets nat (FakePortal.flags 3) (fun _ d => (Nat.leb 2 d, d)) S
       (lit "21000001") 0%nat
     = (Ok tt, 2%nat).
Proof.
  apply (case_waits_last_round nat (FakePortal.flags 3) (fun _ d => (Nat.leb 2 d, d)) S
           (lit "21000001") 0%nat).
  vm_compute. discriminate.
Defined.

(** ** Pleas set on the charges *)

Section PleasOnCharges.

Import Sink Utils Scrape.

Lemma plead_known (count : Z) (plea : option str) (plea_date : str) (d : Charges) :
  In count (keys d) ->
  exists d', plead count plea plea_date d = Some d' /\ keys d' = keys d.
Proof.
  induction d as [|[k charge] d IH]; intros Hin; [destruct Hin|].
  cbn [plead]. destruct (k =? count) eqn:Hk.
  - eexists. split; reflexivity.
  - destruct Hin as [Hin|Hin]; [cbn in Hin; apply Z.eqb_neq in Hk; lia|].
    destruct (IH Hin) as (d' & -> & Hkeys).
    eexists. split; [reflexivity|]. unfold keys in *. cbn [map]. now rewrite Hkeys.
Qed.

Lemma plead_each_known (plea : option str) (plea_date : str) (plea_number : list Z) :
  forall d, (forall n, In n plea_number -> In n (keys d)) ->
  exists d', plead_each plea_number plea plea_date d = Some d' /\ keys d' = keys d.
Proof.
  induction plea_number as [|count rest IH]; intros d H.
  - now exists d.
  - cbn [plead_each].
    destruct (plead_known count plea plea_date d (H _ (or_introl eq_refl)))
      as (d1 & -> & Hkeys1).
    destruct (IH d1) as (d2 & -> & Hkeys2).
    + intros n Hn. rewrite Hkeys1. apply H. now right.
    + exists d2. split; [reflexivity | congruence].
Qed.

Lemma keys_with_plea (plea : option str) (plea_date : str) (d : Charges) :
  keys (map (fun kc => (fst kc, with_plea plea plea_date (snd kc))) d) = keys d.
Proof. unfold keys. rewrite map_map. reflexivity. Qed.

Lemma apply_plea_total (d : Charges) (plea_element : str * str) :
  exists d', apply_plea d plea_element = Ok (Some d') /\ keys d' = keys d.
Proof.
  unfold apply_plea.
  destruct (plea_counts_total (strip (fst plea_element)) (keys d)) as (counts & -> & Hvalid).
  cbn [Checkpoint.and_then]. destruct counts as [|n counts].
  - eexists. split; [reflexivity | apply keys_with_plea].
  - destruct (plead_each_known (parse_plea_type (strip (fst plea_element)))
                (strip (snd plea_element)) (n :: counts) d Hvalid) as (d' & -> & Hkeys).
    now exists d'.
Qed.

(** Setting the pleas on the charges never fails on a count: whatever the
    docket entries say (within the 4300 digits the interpreter converts),
    every count looked up in [Charges] is one of its keys, and the charges
    come out under the same counts in the same order. *)
Theorem pleas_find_their_charges (d : Charges) (docket_pleas : list (str * str)) :
  Forall (fun plea_element => (List.length (fst plea_element) <= 4300)%nat) docket_pleas ->
  exists d', apply_pleas d docket_pleas = Ok (Some d') /\ keys d' = keys d.
Proof.
  intros _. revert d. induction docket_pleas as [|plea_element rest IH]; intros d.
  - now exists d.
  - cbn [apply_pleas].
    destruct (apply_plea_total d plea_element) as (d1 & -> & Hkeys1).
    cbn [Checkpoint.and_then].
    destruct (IH d1) as (d2 & -> & Hkeys2).
    exists d2. split; [reflexivity | congruence].
Qed.

Lemma lstrip_shorter (s : str) : (List.length (lstrip s) <= List.length s)%nat.
Proof.
  induction s as [|c s IH]; [reflexivity|].
  cbn [lstrip]. destruct (is_space c); cbn [List.length]; lia.
Qed.

Lemma lstrip_prefix (a b : str) : lstrip (a ++ b) = a ++ b -> lstrip a = a.
Proof.
  destruct a as [|c a]; [reflexivity|].
  cbn [app lstrip]. destruct (is_space c); [|reflexivity].
  intros H. pose proof (lstrip_shorter (a ++ b)) as Hlen.
  rewrite H in Hlen. cbn [List.length] in Hlen. lia.
Qed.

Lemma lstrip_suffix (s : str) : exists sp, s = sp ++ lstrip s.
Proof.
  induction s as [|c s [sp IH]]; [now exists []|].
  cbn [lstrip]. destruct (is_space c); [|now exists []].
  exists (c :: sp). cbn [app]. now f_equal.
Qed.

Lemma strip_idempotent (s : str) : strip (strip s) = strip s.
Proof.
  unfold strip.
  set (t := lstrip s). set (u := lstrip (rev t)).
  assert (Ht : lstrip t = t) by apply lstrip_idempotent.
  assert (Hu : lstrip u = u) by apply lstrip_idempotent.
  destruct (lstrip_suffix (rev t)) as [sp Hsp]. fold u in Hsp.
  assert (Hrev : lstrip (rev u) = rev u).
  { apply (lstrip_prefix (rev u) (rev sp)).
    rewrite <- rev_app_distr, <- Hsp, rev_involutive. exact Ht. }
  rewrite Hrev, rev_involutive, Hu. reflexivity.
Qed.

Lemma filter_none {A} (p : A -> bool) (l : list A) :
  Forall (fun x => p x = false) l -> filter p l = [].
Proof.
  induction 1 as [|x l Hx _ IH]; [reflexivity|]. cbn [filter]. now rewrite Hx.
Qed.

(** A plea whose text ends with counts none of which is a charge of the
    case is set on every charge, like a plea that names no count: the
    counts are dropped as unknown first, and nothing is left to tell the
    two apart. *)
Theorem plea_for_unknown_counts (d : Charges) (before plea_date : str) (counts : list Z) :
  counts <> [] ->
  Forall (fun n => 0 <= n < 10 ^ 4300) counts ->
  Forall (fun n => ~ In n (keys d)) counts ->
  let plea_text := before ++ lit " " ++ FakeSink.join (lit ",") (map decimal counts) in
  apply_plea d (plea_text, plea_date)
  = Ok (Some (map (fun kc =>
                     (fst kc,
                      with_plea (parse_plea_type (strip plea_text)) (strip plea_date) (snd kc)))
                  d)).
Proof.
  intros Hne Hcounts Hunknown plea_text. unfold apply_plea. cbn [fst snd].
  assert (Hparse : parse_plea_case_numbers (strip plea_text) (keys d) = Ok []).
  { unfold parse_plea_case_numbers. rewrite strip_idempotent.
    pose proof (counts_of_last_word before counts (keys d) Hne) as H.
    unfold parse_plea_case_numbers in H. fold plea_text in H.
    rewrite H.
    - f_equal. apply filter_none.
      eapply Forall_impl; [|exact Hunknown]. cbn. intros n Hn.
      destruct (existsb (Z.eqb n) (keys d)) eqn:He; [|reflexivity].
      apply existsb_exists in He as (v & Hv & Heq). apply Z.eqb_eq in Heq.
      subst v. now destruct Hn.
    - eapply Forall_impl; [|exact Hcounts]. intros n [Hn _]. exact Hn. }
  rewrite Hparse. reflexivity.
Qed.

End PleasOnCharges.

Lemma pleas_find_their_charges_witness :
  exists d',
    Scrape.apply_pleas [(1, FakeSink.theft); (2, FakeSink.theft)]
      [(lit " PLEA OF NOT GUILTY CTS 1,7 ", lit " 01/02/2021 ");
       (lit "PLEA OF NOLO CONTENDERE", lit "03/04/2021")]
    = Ok (Some d')
    /\ Scrape.keys d' = Scrape.keys [(1, FakeSink.theft); (2, FakeSink.theft)].
Proof.
  apply (pleas_find_their_charges [(1, FakeSink.theft); (2, FakeSink.theft)]
           [(lit " PLEA OF NOT GUILTY CTS 1,7 ", lit " 01/02/2021 ");
            (lit "PLEA OF NOLO CONTENDERE", lit "03/04/2021")]).
  repeat (apply Forall_cons; [apply Nat.leb_le; reflexivity|]). apply Forall_nil.
Defined.

Lemma plea_for_unknown_counts_witness :
  Scrape.apply_plea [(1, FakeSink.theft); (2, FakeSink.theft)]
    (lit "PLEA OF GUILTY CT" ++ lit " " ++ FakeSink.join (lit ",") (map decimal [7]),
     lit "01/02/2021")
  = Ok (Some (map (fun kc =>
                     (fst kc,
                      Scrape.with_plea
                        (Utils.parse_plea_type
                           (strip (lit "PLEA OF GUILTY CT" ++ lit " "
                                   ++ FakeSink.join (lit ",") (map decimal [7]))))
                        (strip (lit "01/02/2021")) (snd kc)))
                  [(1, FakeSink.theft); (2, FakeSink.theft)])).
Proof.
  apply (plea_for_unknown_counts [(1, FakeSink.theft); (2, FakeSink.theft)]
           (lit "PLEA OF GUILTY CT") (lit "01/02/2021") [7]).
  - discriminate.
  - repeat constructor; vm_compute; congruence.
  - repeat constructor. cbn. intros [H|[H|[]]]; discriminate.
Defined.

(** ** What is scraped was searched *)

Section ScrapeAfterSearch.

Import Scanner.

Variable W : Type.
Variable FLAGS : Flags.
Variable search_portal : str -> M W (option (list str)).
Variable scrape_record : str -> M W unit.
Variable delete_all_cookies : W -> W.

Local Abbreviation Scan := (Scanner.Scan W).
Local Abbreviation scan_year :=
  (Scanner.scan_year W FLAGS search_portal scrape_record delete_all_cookies).
Local Abbreviation scan_years :=
  (Scanner.scan_years W FLAGS search_portal scrape_record delete_all_cookies).
Local Abbreviation scrape_additional :=
  (Scanner.scrape_additional W search_portal scrape_record).
Local Abbreviation begin_scrape :=
  (Scanner.begin_scrape W FLAGS search_portal scrape_record delete_all_cookies).

Local Abbreviation kept := (@scrape_after_search W).
Local Abbreviation just_searched := (@just_searched_case W).

Lemma just_searched_kept (c : str) (s : Scan) : just_searched c s -> kept s.
Proof. intros (rest & H & Hrest). unfold scrape_after_search. now rewrite H. Qed.

Lemma kept_emit (e : ScanEvent) :
  (forall c, e <> Scraped c) ->
  triple kept (Scanner.emit W e) (fun _ => kept) kept.
Proof.
  intros He s Hs. unfold scrape_after_search in *. cbn.
  destruct e; try exact Hs. now destruct (He case_number).
Qed.

Lemma kept_search (c : str) :
  triple kept (Scanner.call_search_portal W search_portal c)
         (fun _ => just_searched c) kept.
Proof.
  intros s Hs. unfold Scanner.call_search_portal, bind, Scanner.emit, Scanner.lift.
  cbn [world events].
  destruct (search_portal c (world s)) as [[r|e|] w]; cbn [events].
  - now exists (events s).
  - exact Hs.
  - exact Hs.
Qed.

Lemma kept_scrape (c : str) :
  triple (just_searched c) (Scanner.call_scrape_record W scrape_record c)
         (fun _ => kept) kept.
Proof.
  intros s (rest & Hs & Hrest).
  unfold Scanner.call_scrape_record, bind, Scanner.emit, Scanner.lift.
  cbn [world events].
  assert (H : searched_first (Scraped c :: events s) = true).
  { rewrite Hs. cbn [searched_first]. now rewrite str_eqb_refl, Hrest. }
  destruct (scrape_record c (world s)) as [[r|e|] w]; exact H.
Qed.

Lemma kept_reset :
  triple kept (Scanner.reset_cookies W delete_all_cookies) (fun _ => kept) kept.
Proof. intros s Hs. exact Hs. Qed.

Lemma kept_scrape_additional (cases : list str) :
  forall k, triple kept (scrape_additional cases k) (fun _ => kept) kept.
Proof.
  induction cases as [|case rest IH]; intros k.
  - now apply triple_ret.
  - cbn [Scanner.scrape_additional].
    eapply triple_bind; [apply kept_search|]. intros ?.
    eapply triple_bind; [apply kept_scrape|]. intros ?.
    apply IH.
Qed.

Lemma after_search {A} (c : str) (m : M Scan A) :
  triple kept m (fun _ => kept) kept ->
  triple (just_searched c) m (fun _ => kept) kept.
Proof.
  intros H. eapply triple_weaken; [exact H | | |]; auto.
  intros s. apply just_searched_kept.
Qed.

Lemma kept_scan_year (fuel : nat) :
  forall year YY N m c,
    triple kept (scan_year fuel year YY N m c) (fun _ => kept) kept.
Proof.
  induction fuel as [|fuel IH]; intros year YY N m c.
  - now apply triple_out_of_fuel.
  - cbn [Scanner.scan_year]. destruct (m <? missing_thresh FLAGS); [|now apply triple_ret].
    cbv zeta.
    eapply triple_bind; [apply kept_search|]. intros search_result.
    eapply triple_bind with (Q := fun _ => kept).
    + destruct (truthy search_result).
      * destruct (1 <? Z.of_nat (List.length (cases_of search_result))).
        -- eapply triple_bind; [apply after_search, kept_scrape_additional|].
           intros ?. now apply triple_ret.
        -- eapply triple_bind; [apply kept_scrape|]. intros ?. now apply triple_ret.
      * eapply triple_bind; [apply after_search, kept_emit; discriminate|].
        intros ?. now apply triple_ret.
    + intros counts.
      eapply triple_bind; [apply kept_emit; discriminate|]. intros ?.
      eapply triple_bind with (Q := fun _ => kept).
      * destruct (snd counts >=? 5).
        -- eapply triple_bind; [apply kept_reset|]. intros ?. now apply triple_ret.
        -- now apply triple_ret.
      * intros ?. apply IH.
Qed.

Lemma kept_scan_years (fuel : nat) (years : list Z) :
  forall continuing last_case,
    triple kept (scan_years fuel years continuing last_case) (fun _ => kept) kept.
Proof.
  induction years as [|year rest IH]; intros continuing last_case.
  - now apply triple_ret.
  - cbn [Scanner.scan_years].
    eapply triple_bind; [apply kept_emit; discriminate|]. intros ?. cbv zeta.
    eapply triple_bind; [apply kept_scan_year|]. intros ?. apply IH.
Qed.

(** However a scan ends (it returns, a call raises, or the rounds explored
    run out), [scrape_record] was only ever called directly after
    [search_portal] was called for the same case number: the case scraped
    is the one the browser was last sent to look up. *)
Theorem scrapes_follow_searches (fuel : nat) (out : Checkpoint.FileState) (s : Scan) :
  searched_first (events s) = true ->
  searched_first (events (snd (begin_scrape fuel out s))) = true.
Proof.
  intros Hs.
  assert (H : triple kept (begin_scrape fuel out) (fun _ => kept) kept).
  { unfold Scanner.begin_scrape.
    destruct (Checkpoint.recover out) as [[[last_year last_case]|]|e|].
    - apply kept_scan_years.
    - apply kept_scan_years.
    - now apply triple_raise.
    - now apply triple_out_of_fuel. }
  specialize (H s Hs).
  destruct (begin_scrape fuel out s) as [[r|e|] s']; exact H.
Qed.

End ScrapeAfterSearch.

Lemma scrapes_follow_searches_witness :
  searched_first
    (Scanner.events
       (snd (Scanner.begin_scrape unit (FakeScan.flags 2) FakeScan2.pair_found
               FakeScan.extract (fun w => w) 3 Checkpoint.Missing FakeScan.start)))
  = true.
Proof.
  apply (scrapes_follow_searches unit (FakeScan.flags 2) FakeScan2.pair_found
           FakeScan.extract (fun w => w) 3 Checkpoint.Missing FakeScan.start).
  reflexivity.
Defined.

(** ** Where each year of a scan starts *)

Section Resumption.

Import Checkpoint Scanner.

Variable W : Type.
Variable FLAGS : Flags.
Variable search_portal : str -> M W (option (list str)).
Variable scrape_record : str -> M W unit.
Variable delete_all_cookies : W -> W.

Local Abbreviation Scan := (Scanner.Scan W).
Local Abbreviation scan_years :=
  (Scanner.scan_years W FLAGS search_portal scrape_record delete_all_cookies).
Local Abbreviation begin_scrape :=
  (Scanner.begin_scrape W FLAGS search_portal scrape_record delete_all_cookies).

Lemma opens_snoc (l : list ScanEvent) (e : ScanEvent) :
  is_year_started e = false ->
  years_open_with_search l = true -> years_open_with_search (l ++ [e]) = true.
Proof.
  intros He. induction l as [|x l IH]; intros H.
  - destruct e; try reflexivity. discriminate.
  - destruct x; cbn [app years_open_with_search] in *; try (now apply IH).
    apply andb_true_iff in H as [Hhead Hrest].
    rewrite (IH Hrest), andb_true_r.
    destruct l as [|z l]; [discriminate|]. exact Hhead.
Qed.

Lemma opens_banner_search (l : list ScanEvent) (y n : Z) :
  years_open_with_search l = true ->
  years_open_with_search
    (l ++ [YearStarted y n; Searched (format_0 2 (y mod 100) ++ format_0 6 n)]) = true.
Proof.
  induction l as [|x l IH]; intros H.
  - cbn [app years_open_with_search]. now rewrite str_eqb_refl.
  - destruct x; cbn [app years_open_with_search] in *; try (now apply IH).
    apply andb_true_iff in H as [Hhead Hrest].
    rewrite (IH Hrest), andb_true_r.
    destruct l as [|z l]; [discriminate|]. exact Hhead.
Qed.

Lemma year_opened_stable (l0 : list ScanEvent) : year_stable (year_opened l0).
Proof.
  intros l e He (new & -> & H). exists (new ++ [e]).
  split; [now rewrite app_assoc | now apply opens_snoc].
Qed.

Lemma scan_years_open (l0 : list ScanEvent) (fuel : nat) (years : list Z) :
  (0 <? missing_thresh FLAGS) = true ->
  forall continuing last_case,
    triple (on_timeline (year_opened l0))
      (scan_years (S fuel) years continuing last_case)
      (fun _ => on_timeline (year_opened l0)) (on_timeline (year_opened l0)).
Proof.
  intros Hm. induction years as [|year rest IH]; intros continuing last_case.
  - now apply triple_ret.
  - cbn [Scanner.scan_years].
    set (N := if continuing then last_case + 1 else 1).
    eapply triple_bind with (Q := fun _ => on_timeline (year_pending l0 year N)).
    { apply triple_emit. intros l (new & -> & H). exists new.
      split; [now rewrite app_assoc | exact H]. }
    intros ?. cbv zeta.
    eapply triple_bind with (Q := fun _ => on_timeline (year_opened l0)).
    { apply (scan_year_round W FLAGS search_portal scrape_record delete_all_cookies
               (year_pending l0 year N) (year_opened l0) fuel).
      - apply year_opened_stable.
      - intros. apply scan_year_preserves, year_opened_stable.
      - exact Hm.
      - intros l (new & -> & H).
        exists (new ++ [YearStarted year N;
                        Searched (format_0 2 (year mod 100) ++ format_0 6 N)]).
        split; [now rewrite <- !app_assoc | now apply opens_banner_search]. }
    intros ?. apply IH.
Qed.

(** Whatever the output file holds and however the run ends: every year
    banner of the run is directly followed by the search for that year's
    candidate at the banner's sequence. *)
Lemma begin_scrape_opens (fuel : nat) (out : FileState) (s : Scan) :
  0 < missing_thresh FLAGS -> (0 < fuel)%nat ->
  exists new,
    timeline (snd (begin_scrape fuel out s)) = timeline s ++ new
    /\ years_open_with_search new = true.
Proof.
  intros Hm Hfuel. destruct fuel as [|fuel]; [lia|].
  apply Z.ltb_lt in Hm.
  assert (P : on_timeline (year_opened (timeline s)) s).
  { exists []. split; [now rewrite app_nil_r | reflexivity]. }
  assert (H : triple (on_timeline (year_opened (timeline s)))
                (begin_scrape (S fuel) out)
                (fun _ => on_timeline (year_opened (timeline s)))
                (on_timeline (year_opened (timeline s)))).
  { unfold Scanner.begin_scrape.
    destruct (recover out) as [[[last_year last_case]|]|e|].
    - now apply scan_years_open.
    - now apply scan_years_open.
    - now apply triple_raise.
    - now apply triple_out_of_fuel. }
  specialize (H s P).
  destruct (begin_scrape (S fuel) out s) as [[r|e|] s']; exact H.
Qed.

(** Only years after [start_year] are scanned, and none after the year the
    scan starts from: [end_year] on a fresh run, the year of the last
    record on a resumed one, whatever [end_year] says.  Every year starts
    at sequence 1, but the first of a resumed run, which starts one after
    the sequence of the last record; and the start is that of the searches
    themselves: with a miss allowed, each year's banner is directly followed
    by the search for the case number made of that year's last two digits
    and that sequence. *)
Theorem scanned_years_in_range (fuel : nat) (out : FileState) (s : Scan)
    (checkpoint : option (Z * Z)) :
  recover out = Ok checkpoint ->
  let top := match checkpoint with
             | Some (last_year, _) => last_year
             | None => end_year FLAGS
             end in
  exists new,
    timeline (snd (begin_scrape fuel out s)) = timeline s ++ new
    /\ (forall y n, In (y, n) (year_starts new) ->
          start_year FLAGS < y <= top
          /\ (n = 1 \/ exists last_case,
                checkpoint = Some (top, last_case) /\ y = top /\ n = last_case + 1))
    /\ (0 < missing_thresh FLAGS -> (0 < fuel)%nat ->
        years_open_with_search new = true).
Proof.
  intros Hrec top.
  destruct (year_banners_in_range W FLAGS search_portal scrape_record delete_all_cookies
              fuel out s checkpoint Hrec) as (new & Heq & Hyears).
  exists new. split; [exact Heq|]. split; [exact Hyears|].
  intros Hm Hfuel.
  destruct (begin_scrape_opens fuel out s Hm Hfuel) as (new' & Heq' & Hopen).
  rewrite Heq in Heq'. apply app_inv_head in Heq'. now subst new'.
Qed.


End Resumption.

Lemma scanned_years_in_range_witness :
  exists new,
    Scanner.timeline (snd (FakeScan.scan_nothing 2 3 FakeScan.recent_output FakeScan.start))
    = Scanner.timeline FakeScan.start ++ new
    /\ (forall y n, In (y, n) (Scanner.year_starts new) ->
          start_year (FakeScan.flags 2) < y <= 2023
          /\ (n = 1 \/ exists last_case,
                Some (2023, 417) = Some (2023, last_case) /\ y = 2023 /\ n = last_case + 1))
    /\ (0 < missing_thresh (FakeScan.flags 2) -> (0 < 3)%nat ->
        years_open_with_search new = true).
Proof.
  apply (scanned_years_in_range unit (FakeScan.flags 2) FakeScan.nothing_found
           FakeScan.extract (fun w => w) 3 FakeScan.recent_output FakeScan.start
           (Some (2023, 417))).
  reflexivity.
Defined.



(** ** The outcome of a search, read off the page *)

Section Outcome.

Variable D : Type.
Variable drv : Driver D.
Variable FLAGS : Flags.

Local Abbreviation evaluate := (Search.evaluate D drv FLAGS).
Local Abbreviation search_portal := (Search.search_portal D drv FLAGS).
Local Abbreviation submit_search := (Search.submit_search D drv FLAGS).
Local Abbreviation get_search_case_count := (Search.get_search_case_count D drv FLAGS).

Lemma py_int_decimal (n : Z) : 0 <= n -> py_int (decimal n) = Some n.
Proof.
  intros Hn. rewrite py_int_all_digits by apply decimal_digits.
  now apply int_digits_decimal.
Qed.

Lemma decimal_one_line (n : Z) : without "010"%char (decimal n).
Proof.
  unfold without. apply forallb_forall. intros x Hx.
  pose proof (digits_one_line _ (decimal_digits n)) as H.
  unfold one_line in H. rewrite forallb_forall in H. specialize (H x Hx).
  apply negb_true_iff in H. unfold is_line_end in H.
  apply orb_false_iff in H as [_ H]. now rewrite H.
Qed.

(** The count the page reports is the count read. *)
Lemma count_of_page (w : World D) (n : Z) :
  shows_count drv FLAGS (browser w) n -> 0 <= n ->
  get_search_case_count w = (Ok n, w).
Proof.
  intros [(Hbay & before & after & Hlines & Hfirst & Htable)|(Hesc & Hcell)] Hn;
    unfold Search.get_search_case_count.
  - rewrite Hbay. change (str_eqb (lit "Bay") (lit "Bay")) with true. cbv beta iota.
    unfold bind, Search.element_text. rewrite Htable.
    rewrite split_join.
    + rewrite index_of_first by assumption.
      replace (nth_error (before ++ lit "CASES FOUND" :: decimal n :: after)
                 (List.length before + 1))
        with (Some (decimal n)).
      * unfold Search.int_of. now rewrite py_int_decimal.
      * rewrite nth_error_app2 by lia.
        replace (List.length before + 1 - List.length before)%nat with 1%nat by lia.
        reflexivity.
    + now destruct before.
    + apply Forall_app in Hlines as [Hb Ha].
      apply Forall_app. split; [assumption|].
      constructor; [reflexivity|].
      constructor; [apply decimal_one_line | assumption].
  - rewrite Hesc.
    change (str_eqb (lit "Escambia") (lit "Bay")) with false.
    change (str_eqb (lit "Escambia") (lit "Escambia")) with true. cbv beta iota.
    unfold bind, Search.element_text. rewrite Hcell.
    unfold Search.int_of. now rewrite py_int_decimal.
Qed.

(** C7.  At whichever round of the loop the awaited title is there, and so
    for the search as a whole when that is the first round after a
    submission that went through, the outcome is read off the page: under a
    results-listing title, a page reporting more than one case gives the set
    of the case numbers listed and a page reporting at most one gives the
    empty set; under any other title holding the case number, the outcome
    is the set of that case number alone.  The browser is left as the wait
    left it. *)
Theorem outcome_read_from_title (case_number : str) (w1 : World D) (d2 : D) :
  drv_wait drv (SearchLanded case_number) (browser w1) = (true, d2) ->
  let w2 := Search.record D (EvWait (SearchLanded case_number) true) d2 (log w1) in
  let page_title := drv_title drv d2 in
  let listed :=
    nodup Search.str_eq_dec (drv_find_all_text drv (ByClassName (lit "sorting_1")) d2) in
  let gives (outcome : option (list str)) :=
    (forall self i n, evaluate self case_number i (S n) w1 = (Ok outcome, w2))
    /\ (forall fuel w,
          submit_search fuel case_number w = (Ok tt, w1) ->
          0 < connect_thresh FLAGS ->
          search_portal (S fuel) case_number w = (Ok outcome, w2)) in
  (contains (lit "Search Results: CaseNumber:") page_title = true ->
   forall case_count,
     0 <= case_count < 10 ^ 4300 ->
     shows_count drv FLAGS d2 case_count ->
     (1 < case_count -> gives (Some listed))
     /\ (case_count <= 1 -> gives (Some [])))
  /\ (str_eqb page_title (lit "Search") = false ->
      contains (lit "Search Results: CaseNumber:") page_title = false ->
      contains case_number page_title = true ->
      gives (Some [case_number])).
Proof.
  intros Hwait w2 page_title listed gives.
  assert (Hround : forall outcome,
            (forall self i n, evaluate self case_number i (S n) w1 = (Ok outcome, w2)) ->
            gives outcome).
  { intros outcome H. split; [exact H|].
    intros fuel w Hsubmit Hthresh.
    rewrite (search_portal_after_submit D drv FLAGS fuel case_number w w1 Hsubmit).
    destruct (Z.to_nat (connect_thresh FLAGS)) as [|n] eqn:En; [lia|]. apply H. }
  split.
  - intros Hres case_count [Hc0 _] Hshown.
    assert (Hcount : get_search_case_count w2 = (Ok case_count, w2))
      by (apply count_of_page; assumption).
    split; intros Hc; apply Hround; intros self i n;
      rewrite (evaluate_landed D drv FLAGS self case_number i n w1 d2 Hwait
                 (results_title_not_plain _ Hres));
      fold page_title; rewrite Hres; fold w2;
      unfold bind at 1; rewrite Hcount.
    + rewrite (proj2 (Z.gtb_lt case_count 1)) by lia. reflexivity.
    + destruct (case_count >? 1) eqn:E; [apply Z.gtb_lt in E; lia | reflexivity].
  - intros Hplain Hres Hcase. apply Hround. intros self i n.
    rewrite (evaluate_landed D drv FLAGS self case_number i n w1 d2 Hwait Hplain).
    fold page_title. now rewrite Hres, Hcase.
Qed.

End Outcome.

Lemma outcome_read_from_title_witness :
  fst (Search.evaluate FakePortal.Browser FakePortal.driver (FakePortal.flags 3)
         (FakePortal.search_portal 3 0) (lit "21000001") 0 3 FakePortal.results_page)
  = Ok (Some [lit "21000001MMMA"; lit "21000001CFMA"; lit "21000001CTMA"]).
Proof.
  destruct (outcome_read_from_title FakePortal.Browser FakePortal.driver
              (FakePortal.flags 3) (lit "21000001") FakePortal.results_page
              (browser FakePortal.results_page) eq_refl) as [Hresults _].
  destruct (Hresults eq_refl 3) as [Hseveral _].
  - split; [lia | vm_compute; reflexivity].
  - left. split; [reflexivity|].
    exists [lit "COURT TYPE"; lit "ALL"], [lit "NAME"].
    split; [repeat constructor|]. split; [|reflexivity].
    cbn. intros [H|[H|[]]]; discriminate.
  - destruct Hseveral as [Hround _]; [lia|].
    rewrite Hround. reflexivity.
Defined.
